(** * A calendar agent: orchestration turn, tool adapters and chat boundary

    Shallow embedding of [app/main.py], [app/agent_tools.py],
    [app/google_calendar.py] and [app/agent_state.py].

    Python values are an inductive type, Python exceptions are the left
    summand of a result type, and the code's effects (the LLM call, the two
    calendar calls, the checkpointer keyed by thread id) are threaded through
    a state-and-exception monad.  The LLM, the calendar backend, the time-zone
    database, the ISO parser and the machine's local time are the parameters
    of the development. *)

From Stdlib Require Import ZArith Ascii String List Lia Bool.
From stdpp Require Import base option list gmap strings pretty.

Local Open Scope Z_scope.
Set Warnings "-register-all".
Set Default Proof Using "Type".

(** ** Characters and strings *)

(** A character of a Python string is taken to be a code point below 256; a
    text with code points beyond that is outside the model.  The constant
    texts of the code that hold other characters are written with the bytes
    of their UTF-8 form. *)
Module Chars.

Definition tab : ascii := ascii_of_nat 9.
Definition newline : ascii := ascii_of_nat 10.
Definition cr : ascii := ascii_of_nat 13.
Definition space : ascii := ascii_of_nat 32.
Definition dquote : ascii := ascii_of_nat 34.
Definition squote : ascii := ascii_of_nat 39.
Definition backslash : ascii := ascii_of_nat 92.
Definition backtick : ascii := ascii_of_nat 96.

Definition eqb (a b : ascii) : bool := Ascii.eqb a b.

Definition is_digit (c : ascii) : bool :=
  let n := nat_of_ascii c in (48 <=? n)%nat && (n <=? 57)%nat.

Definition is_space (c : ascii) : bool :=
  eqb c space || eqb c tab || eqb c newline || eqb c cr.

(** What [repr] writes as it is: [str.isprintable] on the code points below
    256.  The controls, DEL, the controls above it, the no-break space and
    the soft hyphen are not. *)
Definition is_printable (c : ascii) : bool :=
  let n := nat_of_ascii c in
  negb ((n <? 32)%nat || (127 <=? n)%nat && (n <=? 160)%nat || (n =? 173)%nat).

(** One lower-case hexadecimal digit, as [repr] prints it. *)
Definition hex_digit (n : nat) : ascii :=
  if (n <? 10)%nat then ascii_of_nat (48 + n) else ascii_of_nat (87 + n).

Definition hex_value (c : ascii) : option nat :=
  let n := nat_of_ascii c in
  if (48 <=? n)%nat && (n <=? 57)%nat then Some (n - 48)%nat
  else if (97 <=? n)%nat && (n <=? 102)%nat then Some (n - 87)%nat
  else if (65 <=? n)%nat && (n <=? 70)%nat then Some (n - 55)%nat
  else None.

End Chars.

Definition nl : string := String Chars.newline EmptyString.

Fixpoint str_mem (c : ascii) (s : string) : bool :=
  match s with
  | EmptyString => false
  | String d r => Chars.eqb c d || str_mem c r
  end.

(** [prefix p s]: [s.startswith(p)]. *)
Fixpoint str_prefix (p s : string) : bool :=
  match p, s with
  | EmptyString, _ => true
  | String a p', String b s' => Chars.eqb a b && str_prefix p' s'
  | String _ _, EmptyString => false
  end.

(** [sub in s]. *)
Fixpoint str_contains (sub s : string) : bool :=
  str_prefix sub s ||
  match s with
  | EmptyString => false
  | String _ r => str_contains sub r
  end.

(** [sep.join(parts)]. *)
Fixpoint str_join (sep : string) (parts : list string) : string :=
  match parts with
  | [] => EmptyString
  | p :: rest =>
      match rest with
      | [] => p
      | _ :: _ => p +:+ sep +:+ str_join sep rest
      end
  end.

(** ** Python values *)

(** The values that flow between the model, the adapters, the calendar backend
    and the boundary: JSON-shaped data.  A dict keeps its insertion order, as
    [repr] prints in that order; keys are strings.  Floats are left out. *)
Inductive pyval : Type :=
| PNone
| PBool (b : bool)
| PInt (z : Z)
| PStr (s : string)
| PList (items : list pyval)
| PDict (entries : list (string * pyval)).

Module Py.

(** [bool(v)]. *)
Definition truthy (v : pyval) : bool :=
  match v with
  | PNone => false
  | PBool b => b
  | PInt z => negb (z =? 0)
  | PStr s => negb (String.eqb s EmptyString)
  | PList l => match l with [] => false | _ :: _ => true end
  | PDict d => match d with [] => false | _ :: _ => true end
  end.

Definition type_name (v : pyval) : string :=
  match v with
  | PNone => "NoneType"
  | PBool _ => "bool"
  | PInt _ => "int"
  | PStr _ => "str"
  | PList _ => "list"
  | PDict _ => "dict"
  end.

(** Lookup in a dict's entries. *)
Fixpoint lookup (k : string) (d : list (string * pyval)) : option pyval :=
  match d with
  | [] => None
  | (k', v) :: rest => if String.eqb k k' then Some v else lookup k rest
  end.

(** [d[k] = v]: an existing key keeps its position. *)
Fixpoint store (k : string) (v : pyval) (d : list (string * pyval))
  : list (string * pyval) :=
  match d with
  | [] => [(k, v)]
  | (k', v') :: rest =>
      if String.eqb k k' then (k, v) :: rest else (k', v') :: store k v rest
  end.

(** [k in d]. *)
Definition has_key (k : string) (d : list (string * pyval)) : bool :=
  match lookup k d with Some _ => true | None => false end.

(** *** [repr] *)

Definition escape_char (q c : ascii) : string :=
  let n := nat_of_ascii c in
  if Chars.eqb c Chars.backslash then String Chars.backslash (String Chars.backslash EmptyString)
  else if Chars.eqb c q then String Chars.backslash (String q EmptyString)
  else if Chars.eqb c Chars.newline then String Chars.backslash "n"
  else if Chars.eqb c Chars.cr then String Chars.backslash "r"
  else if Chars.eqb c Chars.tab then String Chars.backslash "t"
  else if negb (Chars.is_printable c) then
    String Chars.backslash
      (String "x" (String (Chars.hex_digit (n / 16)) (String (Chars.hex_digit (n mod 16)) EmptyString)))
  else String c EmptyString.

Fixpoint escape (q : ascii) (s : string) : string :=
  match s with
  | EmptyString => EmptyString
  | String c r => escape_char q c +:+ escape q r
  end.

(** Single quotes, unless the text has a single quote and no double one. *)
Definition quote_of (s : string) : ascii :=
  if str_mem Chars.squote s && negb (str_mem Chars.dquote s)
  then Chars.dquote else Chars.squote.

Definition repr_str (s : string) : string :=
  let q := quote_of s in
  String q (escape q s +:+ String q EmptyString).

Fixpoint repr (v : pyval) : string :=
  match v with
  | PNone => "None"
  | PBool true => "True"
  | PBool false => "False"
  | PInt z => pretty z
  | PStr s => repr_str s
  | PList l =>
      "[" +:+
      (fix items (l : list pyval) : string :=
         match l with
         | [] => EmptyString
         | x :: r =>
             match r with
             | [] => repr x
             | _ :: _ => repr x +:+ ", " +:+ items r
             end
         end) l +:+ "]"
  | PDict d =>
      "{" +:+
      (fix entries (d : list (string * pyval)) : string :=
         match d with
         | [] => EmptyString
         | (k, x) :: r =>
             match r with
             | [] => repr_str k +:+ ": " +:+ repr x
             | _ :: _ => repr_str k +:+ ": " +:+ repr x +:+ ", " +:+ entries r
             end
         end) d +:+ "}"
  end.

(** [str(v)], also what an f-string field prints. *)
Definition str (v : pyval) : string :=
  match v with
  | PStr s => s
  | _ => repr v
  end.

End Py.

(** ** [ast.literal_eval] *)

(** The literals that [repr] of a [pyval] can print, with free white space
    and trailing commas: [None], [True], [False], decimal integers, quoted
    strings with their escapes, lists and dicts with string keys.  Anything
    else is refused.  As in CPython, a bracket that would be open inside
    [MAXLEVEL] others is refused too ("too many nested parentheses"). *)
Module Ast.

Definition MAXLEVEL : nat := 200.

Fixpoint skip_ws (s : string) : string :=
  match s with
  | String c r => if Chars.is_space c then skip_ws r else s
  | EmptyString => s
  end.

Fixpoint drop (n : nat) (s : string) : string :=
  match n, s with
  | S n', String _ r => drop n' r
  | _, _ => s
  end.

(** The digits at the head of [s]: their value, their number, the rest. *)
Fixpoint digits (acc : Z) (count : nat) (s : string) : Z * nat * string :=
  match s with
  | String c r =>
      if Chars.is_digit c
      then digits (10 * acc + Z.of_nat (nat_of_ascii c - 48)) (S count) r
      else (acc, count, s)
  | EmptyString => (acc, count, s)
  end.

(** An unsigned decimal literal; [01] is not one. *)
Definition number (s : string) : option (Z * string) :=
  match digits 0 0 s with
  | (_, O, _) => None
  | (z, S O, r) => Some (z, r)
  | (z, _, r) => if str_prefix "0" s && negb (z =? 0) then None else Some (z, r)
  end.

(** The text of a string literal after its opening quote [q]. *)
Fixpoint str_body (q : ascii) (s : string) : option (string * string) :=
  match s with
  | EmptyString => None
  | String c r =>
      if Chars.eqb c q then Some (EmptyString, r)
      else if Chars.eqb c Chars.newline then None
      else if Chars.eqb c Chars.backslash then
        match r with
        | EmptyString => None
        | String e r' =>
            let continue (c' : ascii) :=
              match str_body q r' with
              | Some (t, rest) => Some (String c' t, rest)
              | None => None
              end in
            if Chars.eqb e "n" then continue Chars.newline
            else if Chars.eqb e "r" then continue Chars.cr
            else if Chars.eqb e "t" then continue Chars.tab
            else if Chars.eqb e Chars.backslash then continue Chars.backslash
            else if Chars.eqb e Chars.squote then continue Chars.squote
            else if Chars.eqb e Chars.dquote then continue Chars.dquote
            else if Chars.eqb e "x" then
              match r' with
              | String h1 (String h2 r'') =>
                  match Chars.hex_value h1, Chars.hex_value h2 with
                  | Some a, Some b =>
                      match str_body q r'' with
                      | Some (t, rest) => Some (String (ascii_of_nat (16 * a + b)) t, rest)
                      | None => None
                      end
                  | _, _ => None
                  end
              | _ => None
              end
            else
              match str_body q r' with
              | Some (t, rest) => Some (String Chars.backslash (String e t), rest)
              | None => None
              end
        end
      else
        match str_body q r with
        | Some (t, rest) => Some (String c t, rest)
        | None => None
        end
  end.

(** [level] is the number of brackets open around the text being read. *)
Fixpoint value (fuel : nat) (level : nat) (s : string) : option (pyval * string) :=
  match fuel with
  | O => None
  | S fuel' =>
      match skip_ws s with
      | EmptyString => None
      | String c r as s' =>
          if Chars.eqb c "[" then
            if (MAXLEVEL <=? level)%nat then None
            else
              match items fuel' (S level) r with
              | Some (l, rest) => Some (PList l, rest)
              | None => None
              end
          else if Chars.eqb c "{" then
            if (MAXLEVEL <=? level)%nat then None
            else
              match entries fuel' (S level) [] r with
              | Some (d, rest) => Some (PDict d, rest)
              | None => None
              end
          else if Chars.eqb c Chars.squote || Chars.eqb c Chars.dquote then
            match str_body c r with
            | Some (t, rest) => Some (PStr t, rest)
            | None => None
            end
          else if Chars.eqb c "-" then
            match number r with
            | Some (z, rest) => Some (PInt (- z), rest)
            | None => None
            end
          else if Chars.is_digit c then
            match number s' with
            | Some (z, rest) => Some (PInt z, rest)
            | None => None
            end
          else if str_prefix "None" s' then Some (PNone, drop 4 s')
          else if str_prefix "True" s' then Some (PBool true, drop 4 s')
          else if str_prefix "False" s' then Some (PBool false, drop 5 s')
          else None
      end
  end

(** The elements after [[] or after a comma, up to the closing bracket. *)
with items (fuel : nat) (level : nat) (s : string) : option (list pyval * string) :=
  match fuel with
  | O => None
  | S fuel' =>
      match skip_ws s with
      | EmptyString => None
      | String c r as s' =>
          if Chars.eqb c "]" then Some ([], r)
          else
            match value fuel' level s' with
            | None => None
            | Some (v, s1) =>
                match skip_ws s1 with
                | String d r1 =>
                    if Chars.eqb d "," then
                      match items fuel' level r1 with
                      | Some (l, rest) => Some (v :: l, rest)
                      | None => None
                      end
                    else if Chars.eqb d "]" then Some ([v], r1)
                    else None
                | EmptyString => None
                end
            end
      end
  end

(** The [key: value] pairs after [{] or after a comma; a key met again
    takes the later value. *)
with entries (fuel : nat) (level : nat) (acc : list (string * pyval)) (s : string)
  : option (list (string * pyval) * string) :=
  match fuel with
  | O => None
  | S fuel' =>
      match skip_ws s with
      | EmptyString => None
      | String c r as s' =>
          if Chars.eqb c "}" then Some (acc, r)
          else
            match value fuel' level s' with
            | Some (PStr k, s1) =>
                match skip_ws s1 with
                | String colon s2 =>
                    if Chars.eqb colon ":" then
                      match value fuel' level s2 with
                      | None => None
                      | Some (v, s3) =>
                          match skip_ws s3 with
                          | String d r3 =>
                              if Chars.eqb d "," then
                                entries fuel' level (Py.store k v acc) r3
                              else if Chars.eqb d "}" then Some (Py.store k v acc, r3)
                              else None
                          | EmptyString => None
                          end
                      end
                    else None
                | EmptyString => None
                end
            | _ => None
            end
      end
  end.

Definition parse (s : string) : option pyval :=
  match value (2 * String.length s + 2) 0 s with
  | Some (v, rest) =>
      match skip_ws rest with
      | EmptyString => Some v
      | String _ _ => None
      end
  | None => None
  end.

End Ast.

(** ** Exceptions *)

(** The classes the code raises or names in an [except] clause.  Every one of
    them derives from [Exception], so [except Exception] takes them all. *)
Inductive exn_class : Type :=
| ValueError
| SyntaxError
| AttributeError
| IndexError
| HttpError
| UnknownTimeZoneError
| OverflowError
| ValidationError
| GraphRecursionError
| OtherError (name : string).

Record exn : Type := Exn { exn_cls : exn_class; exn_msg : string }.

Definition is_HttpError (e : exn) : bool :=
  match exn_cls e with HttpError => true | _ => false end.

Definition is_ValueError_or_SyntaxError (e : exn) : bool :=
  match exn_cls e with ValueError | SyntaxError => true | _ => false end.

(** A call either raises or returns. *)
Definition result (A : Type) : Type := exn + A.

(** [ast.literal_eval(s)].  Python raises [ValueError] or [SyntaxError] on what
    it refuses; the code has one clause for both, which does not look at the
    exception. *)
Definition literal_eval (s : string) : result pyval :=
  match Ast.parse s with
  | Some v => inr v
  | None => inl (Exn ValueError "malformed node or string")
  end.

(** [v.get(k, default)]; only a dict has the method. *)
Definition py_get (v : pyval) (k : string) (default : pyval) : result pyval :=
  match v with
  | PDict d => inr (match Py.lookup k d with Some x => x | None => default end)
  | _ => inl (Exn AttributeError
                (String Chars.squote (Py.type_name v) +:+
                 String Chars.squote " object has no attribute " +:+
                 String Chars.squote "get" +:+ String Chars.squote EmptyString))
  end.

(** ** Dates and zones *)

Module Datetime.

(** The [tzinfo] of an aware datetime: a name, and its offset from UTC in
    microseconds. *)
Record timezone : Type := { tz_name : string; utcoffset : Z }.

(** [wall] counts the microseconds of the clock reading from
    1970-01-01T00:00:00 on that same clock; a naive datetime has no
    [tzinfo]. *)
Record datetime : Type := { wall : Z; tzinfo : option timezone }.

(** A zone of the time-zone database, as [pytz.timezone] returns it.  Its
    offset depends on the date: [utcoffset_at u] is the offset in force at
    the instant [u], counted in microseconds from 1970-01-01T00:00:00 UTC.
    [localize] is the zone's method of that name. *)
Record zone : Type := {
  zone_name : string;
  utcoffset_at : Z -> Z;
  localize : datetime -> result datetime
}.

(** Day number to (year, month, day), proleptic Gregorian calendar. *)
Definition civil_from_days (days : Z) : Z * Z * Z :=
  let z := days + 719468 in
  let era := z / 146097 in
  let doe := z - era * 146097 in
  let yoe := (doe - doe / 1460 + doe / 36524 - doe / 146096) / 365 in
  let doy := doe - (365 * yoe + yoe / 4 - yoe / 100) in
  let mp := (5 * doy + 2) / 153 in
  let d := doy - (153 * mp + 2) / 5 + 1 in
  let m := if mp <? 10 then mp + 3 else mp - 9 in
  let y := yoe + era * 400 in
  (if m <=? 2 then y + 1 else y, m, d).

Definition days_from_civil (y m d : Z) : Z :=
  let y' := if m <=? 2 then y - 1 else y in
  let era := y' / 400 in
  let yoe := y' - era * 400 in
  let doy := (153 * (if 2 <? m then m - 3 else m + 9) + 2) / 5 + d - 1 in
  let doe := yoe * 365 + yoe / 4 - yoe / 100 + doy in
  era * 146097 + doe - 719468.

Definition second : Z := 1000000.
Definition day : Z := 86400 * second.

(** [datetime.min] and [datetime.max]: the years 1 to 9999. *)
Definition min_wall : Z := days_from_civil 1 1 1 * day.
Definition max_wall : Z := (days_from_civil 9999 12 31 + 1) * day - 1.

Definition in_range (w : Z) : bool := (min_wall <=? w) && (w <=? max_wall).

Definition date_out_of_range : exn := Exn OverflowError "date value out of range".

(** [dt.astimezone(tz)]: the same instant, read on the clock of [tz].  The
    offset of a naive [dt] is asked of the machine's local time, which may
    refuse.  The datetime is first moved to UTC and then by the zone's
    offset at that instant; either move raises when it leaves the years
    1 to 9999. *)
Definition astimezone (local_utcoffset : Z -> result Z) (tz : zone) (dt : datetime)
  : result datetime :=
  match match tzinfo dt with
        | Some z => inr (utcoffset z)
        | None => local_utcoffset (wall dt)
        end with
  | inl e => inl e
  | inr offset =>
      let utc := wall dt - offset in
      if in_range utc then
        let moved := utc + utcoffset_at tz utc in
        if in_range moved then
          inr {| wall := moved;
                 tzinfo := Some {| tz_name := zone_name tz;
                                   utcoffset := utcoffset_at tz utc |} |}
        else inl date_out_of_range
      else inl date_out_of_range
  end.

(** The instant, in microseconds from 1970-01-01T00:00:00 UTC, of an aware
    datetime. *)
Definition timestamp (dt : datetime) : option Z :=
  match tzinfo dt with
  | Some z => Some (wall dt - utcoffset z)
  | None => None
  end.

Definition two (n : Z) : string :=
  if n <? 10 then "0" +:+ pretty n else pretty n.

Definition four (n : Z) : string :=
  if n <? 10 then "000" +:+ pretty n
  else if n <? 100 then "00" +:+ pretty n
  else if n <? 1000 then "0" +:+ pretty n
  else pretty n.

Definition six (n : Z) : string :=
  if n <? 10 then "00000" +:+ pretty n
  else if n <? 100 then "0000" +:+ pretty n
  else if n <? 1000 then "000" +:+ pretty n
  else if n <? 10000 then "00" +:+ pretty n
  else if n <? 100000 then "0" +:+ pretty n
  else pretty n.

(** The fraction of a second, written when there is one. *)
Definition fraction_text (micro : Z) : string :=
  if micro =? 0 then EmptyString else "." +:+ six micro.

(** The offset: hours and minutes, then the seconds and their fraction when
    they are not zero. *)
Definition offset_text (off : Z) : string :=
  let a := Z.abs off in
  let secs := a / second mod 60 in
  let micro := a mod second in
  (if off <? 0 then "-" else "+") +:+
  two (a / (3600 * second)) +:+ ":" +:+ two (a / (60 * second) mod 60) +:+
  (if (secs =? 0) && (micro =? 0) then EmptyString
   else ":" +:+ two secs +:+ fraction_text micro).

(** [dt.isoformat()]. *)
Definition isoformat (dt : datetime) : string :=
  let '(y, m, d) := civil_from_days (wall dt / day) in
  let secs := wall dt mod day / second in
  four y +:+ "-" +:+ two m +:+ "-" +:+ two d +:+ "T" +:+
  two (secs / 3600) +:+ ":" +:+ two (secs mod 3600 / 60) +:+ ":" +:+ two (secs mod 60) +:+
  fraction_text (wall dt mod second) +:+
  match tzinfo dt with
  | Some z => offset_text (utcoffset z)
  | None => EmptyString
  end.

End Datetime.
Export Datetime.

(** ** Messages and agent state ([app/agent_state.py]) *)

(** A tool-call request of the model: [tool_call["name"]], [tool_call["args"]]. *)
Record ToolCall : Type := { tc_name : string; tc_args : list (string * pyval) }.

(** What the chat model returns: text and the tool calls it asks for. *)
Record AIResponse : Type := { ai_content : string; ai_tool_calls : list ToolCall }.

Inductive BaseMessage : Type :=
| HumanMessage (content : string)
| AIMessage (content : string) (tool_calls : list ToolCall).

Definition content (m : BaseMessage) : string :=
  match m with
  | HumanMessage c => c
  | AIMessage c _ => c
  end.

(** [AgentState]: [messages] is the one channel with a reducer, and starts
    empty; a channel that was never written is absent. *)
Record AgentState : Type := {
  messages : list BaseMessage;
  current_plan : option string;
  calendar_query_start : option string;
  calendar_query_end : option string;
  event_summary : option string;
  event_description : option string;
  event_start_time : option string;
  event_end_time : option string;
  event_attendees : option (list string);
  availability_results : option (list pyval);
  booking_status : option string;
  tool_output : option string;
  error_message : option string
}.

Definition empty_state : AgentState :=
  {| messages := []; current_plan := None; calendar_query_start := None;
     calendar_query_end := None; event_summary := None; event_description := None;
     event_start_time := None; event_end_time := None; event_attendees := None;
     availability_results := None; booking_status := None; tool_output := None;
     error_message := None |}.

(** What a node returns, and what [invoke] takes as input: the channels to
    write.  The code writes two of them. *)
Record StateUpdate : Type := {
  upd_messages : option (list BaseMessage);
  upd_tool_output : option string
}.

(** [messages] is combined with its reducer [lambda x, y: x + y]; any other
    channel is overwritten. *)
Definition apply_update (state : AgentState) (u : StateUpdate) : AgentState :=
  {| messages := match upd_messages u with
                 | Some y => messages state ++ y
                 | None => messages state
                 end;
     current_plan := current_plan state;
     calendar_query_start := calendar_query_start state;
     calendar_query_end := calendar_query_end state;
     event_summary := event_summary state;
     event_description := event_description state;
     event_start_time := event_start_time state;
     event_end_time := event_end_time state;
     event_attendees := event_attendees state;
     availability_results := availability_results state;
     booking_status := booking_status state;
     tool_output := match upd_tool_output u with
                    | Some s => Some s
                    | None => tool_output state
                    end;
     error_message := error_message state |}.

(** ** The outside world *)

(** What the program does that can be seen from outside: the nodes the graph
    runs and the remote calls, with their arguments. *)
Inductive event : Type :=
| EvNode (name : string)
| EvModel (history : list BaseMessage)
| EvFreeBusy (body : pyval)
| EvInsert (calendarId : string) (body : pyval) (sendNotifications : bool).

(** The collaborators of the code.  The remote ones answer from a state of
    their own, [World], and may raise. *)
Class Externals (World : Type) : Type := {
  (** [llm_with_tools.invoke(messages)] *)
  llm_with_tools_invoke : list BaseMessage -> World -> result AIResponse * World;
  (** [service.freebusy().query(body=body).execute()] *)
  freebusy_query : pyval -> World -> result pyval * World;
  (** [service.events().insert(calendarId, body, sendNotifications).execute()] *)
  events_insert : string -> pyval -> bool -> World -> result pyval * World;
  (** [pytz.timezone(name)] *)
  pytz_timezone : string -> result zone;
  (** [datetime.datetime.fromisoformat(text)] *)
  fromisoformat : string -> result datetime;
  (** the offset from UTC of the machine's local time at a naive clock
      reading, as [astimezone] asks the platform for it *)
  local_utcoffset : Z -> result Z
}.

(** The state a request runs in: the collaborators' state, the checkpointer
    [memory] keyed by thread id, and the events so far, oldest first. *)
Record Sys (World : Type) : Type := {
  world : World;
  memory : gmap string AgentState;
  trace : list event
}.
Arguments world {World} _.
Arguments memory {World} _.
Arguments trace {World} _.

(** ** The monad of the code: state and exceptions *)

Definition M (World A : Type) : Type := Sys World -> result A * Sys World.

Section Monad.
Context {World : Type}.

Definition ret {A} (a : A) : M World A := fun s => (inr a, s).

Definition raise {A} (e : exn) : M World A := fun s => (inl e, s).

Definition bind {A B} (c : M World A) (k : A -> M World B) : M World B :=
  fun s =>
    match c s with
    | (inr a, s') => k a s'
    | (inl e, s') => (inl e, s')
    end.

(** A pure call that may raise. *)
Definition lift {A} (r : result A) : M World A :=
  match r with
  | inr a => ret a
  | inl e => raise e
  end.

(** [try: body except ...: handler]; [handler e = None] when no clause
    matches [e].  What the body did before it raised stays done. *)
Definition try_except {A} (body : M World A) (handler : exn -> option (M World A))
  : M World A :=
  fun s =>
    match body s with
    | (inr a, s') => (inr a, s')
    | (inl e, s') =>
        match handler e with
        | Some h => h s'
        | None => (inl e, s')
        end
    end.

Definition emit (ev : event) : M World unit :=
  fun s => (inr tt, {| world := world s; memory := memory s; trace := trace s ++ [ev] |}).

(** A remote call: recorded, then answered by the collaborator. *)
Definition remote {A} (ev : event) (call : World -> result A * World) : M World A :=
  fun s =>
    let (r, w) := call (world s) in
    (r, {| world := w; memory := memory s; trace := trace s ++ [ev] |}).

Definition get_checkpoint (thread_id : string) : M World AgentState :=
  fun s => (inr (default empty_state (memory s !! thread_id)), s).

Definition put_checkpoint (thread_id : string) (state : AgentState) : M World unit :=
  fun s => (inr tt, {| world := world s; memory := <[thread_id := state]> (memory s);
                       trace := trace s |}).

End Monad.

Notation "x <- c ;; k" := (bind c (fun x => k))
  (at level 100, c at next level, right associativity).
Notation "c ;;; k" := (bind c (fun _ => k))
  (at level 100, right associativity).

(** ** [app/google_calendar.py] *)

Module google_calendar.
Section defs.
Context {World : Type} {E : Externals World}.

Definition freebusy_body (start_time end_time : datetime) : pyval :=
  PDict [("timeMin", PStr (isoformat start_time));
         ("timeMax", PStr (isoformat end_time));
         ("items", PList [PDict [("id", PStr "primary")]])].

(** Only [HttpError] is caught here; anything else goes up to the caller. *)
Definition check_calendar_availability (start_time end_time : datetime) : M World pyval :=
  try_except
    (let body := freebusy_body start_time end_time in
     events_result <- remote (EvFreeBusy body) (freebusy_query body) ;;
     calendars <- lift (py_get events_result "calendars" (PDict [])) ;;
     primary <- lift (py_get calendars "primary" (PDict [])) ;;
     busy_periods <- lift (py_get primary "busy" (PList [])) ;;
     ret busy_periods)
    (fun error => if is_HttpError error then Some (ret (PList [])) else None).

(** The event resource sent to the backend. *)
Definition event_body (summary description : string) (start_time end_time : datetime)
    (attendees : option (list string)) : pyval :=
  let event :=
    [("summary", PStr summary);
     ("description", PStr description);
     ("start", PDict [("dateTime", PStr (isoformat start_time));
                      ("timeZone", PStr "Asia/Kolkata")]);
     ("end", PDict [("dateTime", PStr (isoformat end_time));
                    ("timeZone", PStr "Asia/Kolkata")]);
     ("reminders", PDict [("useDefault", PBool true)])] in
  match attendees with
  | Some ((_ :: _) as emails) =>
      PDict (Py.store "attendees"
               (PList (map (fun email => PDict [("email", PStr email)]) emails)) event)
  | _ => PDict event
  end.

(** Returns the created event, or [None] on an [HttpError]. *)
Definition create_calendar_event (summary description : string)
    (start_time end_time : datetime) (attendees : option (list string)) : M World pyval :=
  let event := event_body summary description start_time end_time attendees in
  try_except
    (event <- remote (EvInsert "primary" event true) (events_insert "primary" event true) ;;
     _ <- lift (py_get event "htmlLink" PNone) ;;
     ret event)
    (fun error => if is_HttpError error then Some (ret PNone) else None).

End defs.
End google_calendar.

(** ** [app/agent_tools.py] *)

Module agent_tools.
Section defs.
Context {World : Type} {E : Externals World}.

(** [except Exception as e: return neutral]. *)
Definition except_Exception (neutral : pyval) : exn -> option (M World pyval) :=
  fun _ => Some (ret neutral).

(** [if dt.tzinfo is None: dt = target_tz.localize(dt)]. *)
Definition aware (target_tz : zone) (dt : datetime) : M World datetime :=
  match tzinfo dt with
  | None => lift (localize target_tz dt)
  | Some _ => ret dt
  end.

Definition check_calendar_availability_tool
    (start_time_str end_time_str timezone_str : string) : M World pyval :=
  try_except
    (target_tz <- lift (pytz_timezone timezone_str) ;;
     parsed_start <- lift (fromisoformat start_time_str) ;;
     start_time <- lift (astimezone local_utcoffset target_tz parsed_start) ;;
     parsed_end <- lift (fromisoformat end_time_str) ;;
     end_time <- lift (astimezone local_utcoffset target_tz parsed_end) ;;
     start_time <- aware target_tz start_time ;;
     end_time <- aware target_tz end_time ;;
     busy_periods <- google_calendar.check_calendar_availability start_time end_time ;;
     ret busy_periods)
    (except_Exception (PList [])).

Definition create_calendar_event_tool
    (summary description start_time_str end_time_str : string)
    (attendees : option (list string)) (timezone_str : string) : M World pyval :=
  try_except
    (target_tz <- lift (pytz_timezone timezone_str) ;;
     parsed_start <- lift (fromisoformat start_time_str) ;;
     start_time <- lift (astimezone local_utcoffset target_tz parsed_start) ;;
     parsed_end <- lift (fromisoformat end_time_str) ;;
     end_time <- lift (astimezone local_utcoffset target_tz parsed_end) ;;
     start_time <- aware target_tz start_time ;;
     end_time <- aware target_tz end_time ;;
     event <- google_calendar.create_calendar_event
                summary description start_time end_time attendees ;;
     ret (if Py.truthy event then event else PDict []))
    (except_Exception (PDict [])).

(** *** The tools' signatures

    [tool.invoke(args)] checks [args] against the signature of the decorated
    function before its body runs: a parameter without a default must be
    there, and a value must have the declared type.  A refused [args] raises
    a [ValidationError]; its message here names the first parameter at fault
    and stands for the library's report, whose wording is not modelled. *)

Definition arg_str (args : list (string * pyval)) (name : string)
    (default : option string) : result string :=
  match Py.lookup name args with
  | Some (PStr s) => inr s
  | Some _ => inl (Exn ValidationError (name +:+ ": Input should be a valid string"))
  | None =>
      match default with
      | Some d => inr d
      | None => inl (Exn ValidationError (name +:+ ": Field required"))
      end
  end.

Fixpoint str_items (l : list pyval) : option (list string) :=
  match l with
  | [] => Some []
  | PStr s :: r =>
      match str_items r with
      | Some t => Some (s :: t)
      | None => None
      end
  | _ :: _ => None
  end.

(** [attendees: Optional[List[str]] = None]. *)
Definition arg_attendees (args : list (string * pyval)) : result (option (list string)) :=
  match Py.lookup "attendees" args with
  | None | Some PNone => inr None
  | Some (PList l) =>
      match str_items l with
      | Some t => inr (Some t)
      | None => inl (Exn ValidationError "attendees: Input should be a valid string")
      end
  | Some _ => inl (Exn ValidationError "attendees: Input should be a valid list")
  end.

Definition default_timezone : string := "Asia/Kolkata".

Definition check_calendar_availability_tool_invoke (args : list (string * pyval))
  : M World pyval :=
  start_time_str <- lift (arg_str args "start_time_str" None) ;;
  end_time_str <- lift (arg_str args "end_time_str" None) ;;
  timezone_str <- lift (arg_str args "timezone_str" (Some default_timezone)) ;;
  check_calendar_availability_tool start_time_str end_time_str timezone_str.

Definition create_calendar_event_tool_invoke (args : list (string * pyval))
  : M World pyval :=
  summary <- lift (arg_str args "summary" None) ;;
  description <- lift (arg_str args "description" None) ;;
  start_time_str <- lift (arg_str args "start_time_str" None) ;;
  end_time_str <- lift (arg_str args "end_time_str" None) ;;
  attendees <- lift (arg_attendees args) ;;
  timezone_str <- lift (arg_str args "timezone_str" (Some default_timezone)) ;;
  create_calendar_event_tool summary description start_time_str end_time_str
    attendees timezone_str.

End defs.
End agent_tools.

(** ** [app/main.py] *)

Module main.
Section defs.
Context {World : Type} {E : Externals World}.

(** *** The graph nodes *)

Definition call_model (state : AgentState) : M World StateUpdate :=
  let messages := messages state in
  response <- remote (EvModel messages) (llm_with_tools_invoke messages) ;;
  ret {| upd_messages := Some [AIMessage (ai_content response) (ai_tool_calls response)];
         upd_tool_output := None |}.

(** One pass of the loop body: the result for one request. *)
Definition dispatch (tool_call : ToolCall) : M World pyval :=
  let tool_name := tc_name tool_call in
  let tool_args := tc_args tool_call in
  if String.eqb tool_name "check_calendar_availability_tool" then
    agent_tools.check_calendar_availability_tool_invoke tool_args
  else if String.eqb tool_name "create_calendar_event_tool" then
    agent_tools.create_calendar_event_tool_invoke tool_args
  else
    ret (PStr ("Error: Unknown tool " +:+ tool_name)).

(** [for tool_call in tool_calls: ... tool_output_list.append(tool_result)]. *)
Fixpoint for_each_tool_call (tool_calls : list ToolCall) (tool_output_list : list pyval)
  : M World (list pyval) :=
  match tool_calls with
  | [] => ret tool_output_list
  | tool_call :: rest =>
      tool_result <- dispatch tool_call ;;
      for_each_tool_call rest (tool_output_list ++ [tool_result])
  end.

(** [last_message.tool_calls]: an attribute of the model's messages only. *)
Definition tool_calls_of (m : BaseMessage) : result (list ToolCall) :=
  match m with
  | AIMessage _ calls => inr calls
  | HumanMessage _ =>
      inl (Exn AttributeError
             (String Chars.squote "HumanMessage" +:+
              String Chars.squote " object has no attribute " +:+
              String Chars.squote "tool_calls" +:+ String Chars.squote EmptyString))
  end.

(** [l[-1]]. *)
Definition last_item {A} (l : list A) : result A :=
  match last l with
  | Some x => inr x
  | None => inl (Exn IndexError "list index out of range")
  end.

Definition call_tool (state : AgentState) : M World StateUpdate :=
  last_message <- lift (last_item (messages state)) ;;
  tool_calls <- lift (tool_calls_of last_message) ;;
  tool_output_list <-
    match tool_calls with
    | _ :: _ => for_each_tool_call tool_calls []
    | [] => ret []
    end ;;
  ret {| upd_messages := None;
         upd_tool_output := Some (Py.str (PList tool_output_list)) |}.

(** *** The graph *)

Record StateGraph : Type := {
  nodes : list (string * (AgentState -> M World StateUpdate));
  edges : list (string * string);
  entry_point : string
}.

Definition END : string := "__end__".

Definition workflow : StateGraph :=
  {| nodes := [("call_model", call_model); ("call_tool", call_tool)];
     edges := [("call_model", "call_tool"); ("call_tool", END)];
     entry_point := "call_model" |}.

Fixpoint assoc {A} (k : string) (l : list (string * A)) : option A :=
  match l with
  | [] => None
  | (k', a) :: rest => if String.eqb k k' then Some a else assoc k rest
  end.

(** The graph library stops a run after this many steps. *)
Definition recursion_limit : nat := 25.

(** Run the graph from node [current]: run the node, merge what it returns
    into the state, save the state under the thread, follow the edge. *)
Fixpoint run_from (g : StateGraph) (thread_id : string) (steps : nat)
    (current : string) (state : AgentState) : M World AgentState :=
  if String.eqb current END then ret state
  else
    match steps with
    | O => raise (Exn GraphRecursionError "Recursion limit reached")
    | S steps' =>
        match assoc current (nodes g) with
        | None => raise (Exn ValueError ("unknown node " +:+ current))
        | Some node =>
            emit (EvNode current) ;;;
            update <- node state ;;
            let state' := apply_update state update in
            put_checkpoint thread_id state' ;;;
            match assoc current (edges g) with
            | Some next => run_from g thread_id steps' next state'
            | None => ret state'
            end
        end
    end.

(** [app_agent.invoke(input, config)] with the [MemorySaver] checkpointer:
    the thread's saved state, the input merged into it and saved, then
    the graph from its entry point. *)
Definition app_agent_invoke (input : StateUpdate) (thread_id : string)
  : M World AgentState :=
  saved <- get_checkpoint thread_id ;;
  let state := apply_update saved input in
  put_checkpoint thread_id state ;;;
  run_from workflow thread_id recursion_limit (entry_point workflow) state.

(** *** The chat endpoint *)

Record ChatRequest : Type := { message : string; session_id : string }.

Definition default_session : string := "default_session".

Definition event_created (summary html_link start_time end_time : pyval) : string :=
  nl +:+ nl +:+ "**✅ Event Created Successfully!**" +:+ nl +:+
  "- **Title:** " +:+ Py.str summary +:+ nl +:+
  "- **Time:** " +:+ Py.str start_time +:+ " to " +:+ Py.str end_time +:+ nl +:+
  "- **View Event:** [Click here](" +:+ Py.str html_link +:+ ")" +:+ nl +:+
  "*(Please check your Google Calendar for full details and invites.)*".

Definition slot_line (slot : pyval) : result string :=
  match py_get slot "start" (PStr "N/A"), py_get slot "end" (PStr "N/A") with
  | inr a, inr b =>
      inr ("  - From " +:+ String Chars.backtick (Py.str a) +:+
           String Chars.backtick " to " +:+ String Chars.backtick (Py.str b) +:+
           String Chars.backtick EmptyString)
  | inl e, _ => inl e
  | _, inl e => inl e
  end.

Fixpoint slot_lines (slots : list pyval) : result (list string) :=
  match slots with
  | [] => inr []
  | slot :: rest =>
      match slot_line slot, slot_lines rest with
      | inr a, inr l => inr (a :: l)
      | inl e, _ => inl e
      | _, inl e => inl e
      end
  end.

Definition busy_slots (lines : list string) : string :=
  nl +:+ nl +:+ "**🗓️ Calendar Availability:**" +:+ nl +:+
  "The following slots are busy:" +:+ nl +:+ str_join nl lines.

Definition no_busy_slots : string :=
  nl +:+ nl +:+ "**✅ Calendar Availability:** You appear to be free during that period!".

Definition raw_tool_output (tool_output_raw : string) : string :=
  nl +:+ nl +:+ "**⚙️ Raw Tool Output:**" +:+ nl +:+ "```json" +:+ nl +:+
  tool_output_raw +:+ nl +:+ "```".

Definition parsing_error (tool_output_raw : string) : string :=
  nl +:+ nl +:+ "**⚠️ Tool Output Parsing Error:**" +:+ nl +:+ "```" +:+ nl +:+
  tool_output_raw +:+ nl +:+ "```".

(** [isinstance(item, dict) and 'start' in item and 'end' in item]. *)
Definition is_slot (item : pyval) : bool :=
  match item with
  | PDict d => Py.has_key "start" d && Py.has_key "end" d
  | _ => false
  end.

(** The first element, when it is an event resource of the backend. *)
Definition first_event (tool_data : pyval) : option pyval :=
  match tool_data with
  | PList (PDict d as first :: _) =>
      match Py.lookup "kind" d with
      | Some (PStr kind) => if String.eqb kind "calendar#event" then Some first else None
      | _ => None
      end
  | _ => None
  end.

(** The inner [try] of the endpoint: the text appended for the tool output. *)
Definition format_tool_output (tool_output_raw : string) : M World string :=
  try_except
    (tool_data <- lift (literal_eval tool_output_raw) ;;
     if Py.truthy tool_data then
       match first_event tool_data with
       | Some event =>
           summary <- lift (py_get event "summary" (PStr "An event")) ;;
           html_link <- lift (py_get event "htmlLink" (PStr "#")) ;;
           start <- lift (py_get event "start" (PDict [])) ;;
           start_time <- lift (py_get start "dateTime" (PStr "N/A")) ;;
           end_ <- lift (py_get event "end" (PDict [])) ;;
           end_time <- lift (py_get end_ "dateTime" (PStr "N/A")) ;;
           ret (event_created summary html_link start_time end_time)
       | None =>
           match tool_data with
           | PList items =>
               if forallb is_slot items then
                 if Py.truthy tool_data then
                   formatted_output_slots <- lift (slot_lines items) ;;
                   ret (busy_slots formatted_output_slots)
                 else ret no_busy_slots
               else ret (raw_tool_output tool_output_raw)
           | _ => ret (raw_tool_output tool_output_raw)
           end
       end
     else ret EmptyString)
    (fun e => if is_ValueError_or_SyntaxError e
              then Some (ret (parsing_error tool_output_raw)) else None).

(** The body of the endpoint's outer [try]. *)
Definition chat_endpoint_try (user_message session_id : string) : M World string :=
  let input_message :=
    {| upd_messages := Some [HumanMessage user_message]; upd_tool_output := None |} in
  final_state <- app_agent_invoke input_message session_id ;;
  agent_response_message <- lift (last_item (messages final_state)) ;;
  let tool_output_raw := default "[]" (tool_output final_state) in
  let agent_text_response := content agent_response_message in
  formatted_tool_output <- format_tool_output tool_output_raw ;;
  ret (if String.eqb formatted_tool_output EmptyString
       then agent_text_response
       else agent_text_response +:+ formatted_tool_output).

(** [except Exception as e] of the endpoint. *)
Definition internal_error (e : exn) : string :=
  "Sorry, an internal error occurred: " +:+ exn_msg e.

(** The response text of [POST /chat]. *)
Definition chat_endpoint (chat_request : ChatRequest) : M World string :=
  let user_message := message chat_request in
  let session_id := session_id chat_request in
  if String.eqb user_message EmptyString then ret "Please provide a message."
  else
    try_except
      (chat_endpoint_try user_message session_id)
      (fun e => Some (ret (internal_error e))).

End defs.
End main.

(** ** A scripted world

    Collaborators that answer from a script, to run the code on concrete
    inputs: each remote call takes the next scripted answer of its kind. *)

Module Scripted.

Record Script : Type := {
  model_answers : list (result AIResponse);
  freebusy_answers : list (result pyval);
  insert_answers : list (result pyval)
}.

Definition unscripted {A} : result A := inl (Exn (OtherError "RuntimeError") "no answer scripted").

Definition next_model (w : Script) : result AIResponse * Script :=
  match model_answers w with
  | [] => (unscripted, w)
  | a :: rest =>
      (a, {| model_answers := rest; freebusy_answers := freebusy_answers w;
             insert_answers := insert_answers w |})
  end.

Definition next_freebusy (w : Script) : result pyval * Script :=
  match freebusy_answers w with
  | [] => (unscripted, w)
  | a :: rest =>
      (a, {| model_answers := model_answers w; freebusy_answers := rest;
             insert_answers := insert_answers w |})
  end.

Definition next_insert (w : Script) : result pyval * Script :=
  match insert_answers w with
  | [] => (unscripted, w)
  | a :: rest =>
      (a, {| model_answers := model_answers w; freebusy_answers := freebusy_answers w;
             insert_answers := rest |})
  end.

(** A zone that keeps one offset, of [offset] seconds.  Its [localize]
    attaches that offset to a naive datetime and refuses an aware one. *)
Definition fixed (name : string) (offset : Z) : zone :=
  let tz := {| tz_name := name; utcoffset := offset * Datetime.second |} in
  {| zone_name := name;
     utcoffset_at := fun _ => offset * Datetime.second;
     localize := fun dt =>
       match tzinfo dt with
       | None => inr {| wall := wall dt; tzinfo := Some tz |}
       | Some _ => inl (Exn ValueError "Not naive datetime (tzinfo is already set)")
       end |}.

(** Two entries of the zone database: UTC, and Asia/Kolkata as it has been
    since 1945, five and a half hours ahead. *)
Definition utc : zone := fixed "UTC" 0.
Definition kolkata : zone := fixed "Asia/Kolkata" 19800.

Definition zones (name : string) : result zone :=
  if String.eqb name "Asia/Kolkata" then inr kolkata
  else if String.eqb name "UTC" then inr utc
  else inl (Exn UnknownTimeZoneError (String Chars.squote name +:+ String Chars.squote EmptyString)).

Definition digit_at (s : string) (i : nat) : option Z :=
  match String.get i s with
  | Some c => if Chars.is_digit c then Some (Z.of_nat (nat_of_ascii c - 48)) else None
  | None => None
  end.

(** The number written by the [len] digits from position [i]. *)
Fixpoint number_at (s : string) (i len : nat) (acc : Z) : option Z :=
  match len with
  | O => Some acc
  | S len' =>
      match digit_at s i with
      | Some d => number_at s (S i) len' (10 * acc + d)
      | None => None
      end
  end.

Definition char_at (s : string) (i : nat) (c : ascii) : bool :=
  match String.get i s with
  | Some d => Chars.eqb c d
  | None => false
  end.

(** [datetime.timezone(offset)], as [fromisoformat] attaches it. *)
Definition offset_zone (off : Z) : timezone :=
  {| tz_name := if off =? 0 then "UTC" else "UTC" +:+ Datetime.offset_text off;
     utcoffset := off |}.

(** [YYYY-MM-DDTHH:MM:SS] in the years 1 to 9999, alone or followed by
    [+HH:MM] or [-HH:MM]. *)
Definition iso_seconds (s : string) : option datetime :=
  match number_at s 0 4 0, number_at s 5 2 0, number_at s 8 2 0,
        number_at s 11 2 0, number_at s 14 2 0, number_at s 17 2 0 with
  | Some y, Some m, Some d, Some hh, Some mm, Some ss =>
      if char_at s 4 "-" && char_at s 7 "-" && char_at s 10 "T" &&
         char_at s 13 ":" && char_at s 16 ":" &&
         (1 <=? y) && (1 <=? m) && (m <=? 12) && (1 <=? d) &&
         (hh <? 24) && (mm <? 60) && (ss <? 60) &&
         match Datetime.civil_from_days (Datetime.days_from_civil y m d) with
         | (y', m', d') => (y =? y') && (m =? m') && (d =? d')
         end
      then
        let w := Datetime.days_from_civil y m d * Datetime.day
                 + (hh * 3600 + mm * 60 + ss) * Datetime.second in
        match String.length s with
        | 19%nat => Some {| wall := w; tzinfo := None |}
        | 25%nat =>
            match number_at s 20 2 0, number_at s 23 2 0 with
            | Some oh, Some om =>
                if char_at s 22 ":" && (oh <? 24) && (om <? 60) then
                  let off := (oh * 3600 + om * 60) * Datetime.second in
                  if char_at s 19 "+" then
                    Some {| wall := w; tzinfo := Some (offset_zone off) |}
                  else if char_at s 19 "-" then
                    Some {| wall := w; tzinfo := Some (offset_zone (- off)) |}
                  else None
                else None
            | _, _ => None
            end
        | _ => None
        end
      else None
  | _, _, _, _, _, _ => None
  end.

Definition iso (s : string) : result datetime :=
  match iso_seconds s with
  | Some dt => inr dt
  | None => inl (Exn ValueError
                   ("Invalid isoformat string: " +:+ String Chars.squote s +:+
                    String Chars.squote EmptyString))
  end.

(** The collaborators, on a machine whose local time is [offset] seconds
    ahead of UTC the year round. *)
Definition externals (offset : Z) : Externals Script :=
  {| llm_with_tools_invoke := fun _ => next_model;
     freebusy_query := fun _ => next_freebusy;
     events_insert := fun _ _ _ => next_insert;
     pytz_timezone := zones;
     fromisoformat := iso;
     local_utcoffset := fun _ => inr (offset * Datetime.second) |}.

Definition start (w : Script) : Sys Script :=
  {| world := w; memory := ∅; trace := [] |}.

End Scripted.


(** ** Notions used by the statements *)

Definition is_ok {A} (r : result A) : bool :=
  match r with inr _ => true | inl _ => false end.

(** The request passes the check of its tool's signature.  A request for
    an unknown tool reaches no signature. *)
Definition accepts (tc : ToolCall) : bool :=
  let args := tc_args tc in
  if String.eqb (tc_name tc) "check_calendar_availability_tool" then
    is_ok (agent_tools.arg_str args "start_time_str" None) &&
    is_ok (agent_tools.arg_str args "end_time_str" None) &&
    is_ok (agent_tools.arg_str args "timezone_str" (Some agent_tools.default_timezone))
  else if String.eqb (tc_name tc) "create_calendar_event_tool" then
    is_ok (agent_tools.arg_str args "summary" None) &&
    is_ok (agent_tools.arg_str args "description" None) &&
    is_ok (agent_tools.arg_str args "start_time_str" None) &&
    is_ok (agent_tools.arg_str args "end_time_str" None) &&
    is_ok (agent_tools.arg_attendees args) &&
    is_ok (agent_tools.arg_str args "timezone_str" (Some agent_tools.default_timezone))
  else true.

Definition known_tool (name : string) : bool :=
  String.eqb name "check_calendar_availability_tool" ||
  String.eqb name "create_calendar_event_tool".

(** A call to the calendar backend. *)
Definition backend_event (ev : event) : bool :=
  match ev with
  | EvFreeBusy _ | EvInsert _ _ _ => true
  | EvNode _ | EvModel _ => false
  end.

(** How many times the model was invoked, and how many times a node ran. *)
Definition model_calls (evs : list event) : nat :=
  length (List.filter (fun ev => match ev with EvModel _ => true | _ => false end) evs).

Definition node_runs (name : string) (evs : list event) : nat :=
  length (List.filter (fun ev => match ev with
                            | EvNode n => String.eqb n name
                            | _ => false
                            end) evs).

(** The thread's message history, as the checkpointer holds it. *)
Definition history {World} (s : Sys World) (thread_id : string) : list BaseMessage :=
  messages (default empty_state (memory s !! thread_id)).

(** The tool output the checkpointer holds for the thread. *)
Definition stored_tool_output {World} (s : Sys World) (thread_id : string) : option string :=
  match memory s !! thread_id with
  | Some state => tool_output state
  | None => None
  end.

(** The input of a turn: the user's message. *)
Definition user_turn (text : string) : StateUpdate :=
  {| upd_messages := Some [HumanMessage text]; upd_tool_output := None |}.

(** [body["start"]["timeZone"]] and the like. *)
Definition field2 (body : pyval) (outer inner : string) : option pyval :=
  match body with
  | PDict d =>
      match Py.lookup outer d with
      | Some (PDict d') => Py.lookup inner d'
      | _ => None
      end
  | _ => None
  end.

(** [leaves P c]: running [c] keeps the checkpointer as it was and adds to
    the trace only events that satisfy [P]. *)
Definition leaves {World A} (P : event -> bool) (c : M World A) : Prop :=
  forall s r s1, c s = (r, s1) ->
    memory s1 = memory s /\
    exists evs, trace s1 = trace s ++ evs /\ forallb P evs = true.

(** [stateless c]: [c] neither reads nor changes the state it runs in. *)
Definition stateless {World A} (c : M World A) : Prop :=
  exists r, forall s, c s = (r, s).

Section Notions.
Context {World : Type} {E : Externals World}.

(** [Dispatched calls s outs s']: from [s], the requests were dispatched
    one after the other, in order, each giving the entry at its place
    of [outs], and left [s']. *)
Inductive Dispatched : list ToolCall -> Sys World -> list pyval -> Sys World -> Prop :=
| Dispatched_nil s : Dispatched [] s [] s
| Dispatched_cons tc rest s out s1 outs s2 :
    main.dispatch tc s = (inr out, s1) ->
    Dispatched rest s1 outs s2 ->
    Dispatched (tc :: rest) s (out :: outs) s2.

(** The tool that a name stands for, if any, as [invoke] runs it. *)
Definition tool_named (name : string) : option (list (string * pyval) -> M World pyval) :=
  if String.eqb name "check_calendar_availability_tool"
  then Some agent_tools.check_calendar_availability_tool_invoke
  else if String.eqb name "create_calendar_event_tool"
  then Some agent_tools.create_calendar_event_tool_invoke
  else None.

(** [Answered tc sa out sb]: [out] is the result owed to the request [tc]:
    what the tool it names returned when invoked with the request's
    arguments in [sa], leaving [sb]; or, when it names no tool, the error
    string, with nothing done. *)
Definition Answered (tc : ToolCall) (sa : Sys World) (out : pyval) (sb : Sys World) : Prop :=
  match tool_named (tc_name tc) with
  | Some tool => tool (tc_args tc) sa = (inr out, sb)
  | None => out = PStr ("Error: Unknown tool " +:+ tc_name tc) /\ sb = sa
  end.

(** [datetime.datetime.fromisoformat(text).astimezone(tz)]. *)
Definition moved (tz : zone) (text : string) : result datetime :=
  match fromisoformat text with
  | inr parsed => astimezone local_utcoffset tz parsed
  | inl e => inl e
  end.

(** What makes the availability adapter fail: an unknown zone, a start or an
    end that does not parse or cannot be moved to the zone, or an exception
    of the backend's query. *)
Inductive check_fails (s : Sys World) (start_time_str end_time_str timezone_str : string)
  : Prop :=
| check_zone e :
    pytz_timezone timezone_str = inl e ->
    check_fails s start_time_str end_time_str timezone_str
| check_start e :
    fromisoformat start_time_str = inl e ->
    check_fails s start_time_str end_time_str timezone_str
| check_end e :
    fromisoformat end_time_str = inl e ->
    check_fails s start_time_str end_time_str timezone_str
| check_start_moved tz e :
    pytz_timezone timezone_str = inr tz ->
    moved tz start_time_str = inl e ->
    check_fails s start_time_str end_time_str timezone_str
| check_end_moved tz e :
    pytz_timezone timezone_str = inr tz ->
    moved tz end_time_str = inl e ->
    check_fails s start_time_str end_time_str timezone_str
| check_backend tz start_time end_time e w :
    pytz_timezone timezone_str = inr tz ->
    moved tz start_time_str = inr start_time ->
    moved tz end_time_str = inr end_time ->
    freebusy_query (google_calendar.freebusy_body start_time end_time) (world s)
      = (inl e, w) ->
    check_fails s start_time_str end_time_str timezone_str.

(** The same for the event adapter, with the backend's insert. *)
Inductive create_fails (s : Sys World) (summary description start_time_str end_time_str : string)
    (attendees : option (list string)) (timezone_str : string) : Prop :=
| create_zone e :
    pytz_timezone timezone_str = inl e ->
    create_fails s summary description start_time_str end_time_str attendees timezone_str
| create_start e :
    fromisoformat start_time_str = inl e ->
    create_fails s summary description start_time_str end_time_str attendees timezone_str
| create_end e :
    fromisoformat end_time_str = inl e ->
    create_fails s summary description start_time_str end_time_str attendees timezone_str
| create_start_moved tz e :
    pytz_timezone timezone_str = inr tz ->
    moved tz start_time_str = inl e ->
    create_fails s summary description start_time_str end_time_str attendees timezone_str
| create_end_moved tz e :
    pytz_timezone timezone_str = inr tz ->
    moved tz end_time_str = inl e ->
    create_fails s summary description start_time_str end_time_str attendees timezone_str
| create_backend tz start_time end_time e w :
    pytz_timezone timezone_str = inr tz ->
    moved tz start_time_str = inr start_time ->
    moved tz end_time_str = inr end_time ->
    events_insert "primary"
      (google_calendar.event_body summary description start_time end_time attendees)
      true (world s) = (inl e, w) ->
    create_fails s summary description start_time_str end_time_str attendees timezone_str.

End Notions.

(** ** Concrete turns *)

Module Examples.

Definition check_call (start_time_str end_time_str : string) : ToolCall :=
  {| tc_name := "check_calendar_availability_tool";
     tc_args := [("start_time_str", PStr start_time_str);
                 ("end_time_str", PStr end_time_str)] |}.

Definition script (answer : result AIResponse) (freebusy insert : list (result pyval))
  : Scripted.Script :=
  {| Scripted.model_answers := [answer];
     Scripted.freebusy_answers := freebusy;
     Scripted.insert_answers := insert |}.

Definition ask (text : string) : main.ChatRequest :=
  {| main.message := text; main.session_id := "s1" |}.

(** The user asks whether an hour is free; the backend has nothing in it. *)
Definition check_free_hour : AIResponse :=
  {| ai_content := "Let me check your calendar.";
     ai_tool_calls := [check_call "2025-06-25T10:00:00" "2025-06-25T11:00:00"] |}.

Definition nothing_busy : pyval :=
  PDict [("kind", PStr "calendar#freeBusy");
         ("calendars", PDict [("primary", PDict [("busy", PList [])])])].

Definition free_hour : Scripted.Script :=
  script (inr check_free_hour) [inr nothing_busy] [].

Definition am_i_free : main.ChatRequest := ask "Am I free tomorrow 10-11am IST?".

(** The model asks for the availability tool and gives it no argument. *)
Definition check_without_arguments : AIResponse :=
  {| ai_content := "Checking.";
     ai_tool_calls := [{| tc_name := "check_calendar_availability_tool"; tc_args := [] |}] |}.

Definition no_arguments : Scripted.Script :=
  script (inr check_without_arguments) [] [].

(** The model asks for a tool that does not exist, then for the availability
    of a span whose start is not a date. *)
Definition send_email : ToolCall :=
  {| tc_name := "send_email_tool"; tc_args := [("to", PStr "alice@x.com")] |}.

Definition unknown_then_bad_date : AIResponse :=
  {| ai_content := "On it.";
     ai_tool_calls := [send_email; check_call "not-a-date" "2025-06-25T11:00:00"] |}.

Definition two_requests : Scripted.Script :=
  script (inr unknown_then_bad_date) [] [].

(** The model asks for a tool that does not exist, then for the availability
    tool with no argument. *)
Definition unknown_then_no_arguments : AIResponse :=
  {| ai_content := "On it.";
     ai_tool_calls :=
       [send_email; {| tc_name := "check_calendar_availability_tool"; tc_args := [] |}] |}.

Definition mail_then_refused : Scripted.Script :=
  script (inr unknown_then_no_arguments) [] [].

(** The model answers with text only. *)
Definition greeting : AIResponse :=
  {| ai_content := "Hello! How can I help with your calendar?"; ai_tool_calls := [] |}.

Definition small_talk : Scripted.Script := script (inr greeting) [] [].

(** The model's invocation fails. *)
Definition quota : exn := Exn (OtherError "ResourceExhausted") "429 quota exceeded".

Definition model_down : Scripted.Script := script (inl quota) [] [].

(** An event is booked, the caller naming the zone [UTC]. *)
Definition created : pyval :=
  PDict [("kind", PStr "calendar#event");
         ("id", PStr "ev1");
         ("htmlLink", PStr "https://calendar.example/ev1");
         ("summary", PStr "Call");
         ("start", PDict [("dateTime", PStr "2025-06-25T15:00:00+05:30")]);
         ("end", PDict [("dateTime", PStr "2025-06-25T15:30:00+05:30")])].

Definition booking : Scripted.Script :=
  script (inr greeting) [] [inr created].

(** The model asks to book that event. *)
Definition book_call : AIResponse :=
  {| ai_content := "Booking your call.";
     ai_tool_calls :=
       [{| tc_name := "create_calendar_event_tool";
           tc_args := [("summary", PStr "Call");
                       ("description", PStr "Call with Alice");
                       ("start_time_str", PStr "2025-06-25T15:00:00");
                       ("end_time_str", PStr "2025-06-25T15:30:00");
                       ("attendees", PList [PStr "alice@x.com"])] |}] |}.

Definition booked : Scripted.Script := script (inr book_call) [] [inr created].

(** The hour asked about holds a meeting. *)
Definition one_busy : pyval :=
  PDict [("calendars",
          PDict [("primary",
                  PDict [("busy",
                          PList [PDict [("start", PStr "2025-06-25T04:30:00Z");
                                        ("end", PStr "2025-06-25T05:00:00Z")]])])])].

Definition busy_hour : Scripted.Script := script (inr check_free_hour) [inr one_busy] [].

(** A value with every kind of literal in it. *)
Definition sample : pyval :=
  PList [PList []; PStr "it's"; PInt (-12); PInt 0;
         PDict [("ok", PBool true); ("none", PNone)];
         PStr (String Chars.newline (String Chars.dquote (String Chars.squote "\")))].

(** The backend's insert fails with something that is not an [HttpError]. *)
Definition timeout : exn := Exn (OtherError "TimeoutError") "timed out".

Definition backend_down : Scripted.Script :=
  script (inr greeting) [inl timeout] [inl timeout].

(** A server whose clock is on UTC, and one whose clock is on Indian time. *)
Definition on_utc : Externals Scripted.Script := Scripted.externals 0.
Definition in_india : Externals Scripted.Script := Scripted.externals 19800.

End Examples.

(** ** Values that read back from their text *)

Module Literal.

(** What [repr] prints between the brackets of a list, and between the braces
    of a dict. *)
Fixpoint repr_items (l : list pyval) : string :=
  match l with
  | [] => EmptyString
  | x :: r =>
      match r with
      | [] => Py.repr x
      | _ :: _ => Py.repr x +:+ ", " +:+ repr_items r
      end
  end.

Fixpoint repr_entries (d : list (string * pyval)) : string :=
  match d with
  | [] => EmptyString
  | (k, x) :: r =>
      match r with
      | [] => Py.repr_str k +:+ ": " +:+ Py.repr x
      | _ :: _ => Py.repr_str k +:+ ": " +:+ Py.repr x +:+ ", " +:+ repr_entries r
      end
  end.

(** A value as Python has them: no dict in it holds a key twice. *)
Fixpoint well_formed (v : pyval) : Prop :=
  match v with
  | PList l =>
      (fix all (l : list pyval) : Prop :=
         match l with
         | [] => True
         | x :: r => well_formed x /\ all r
         end) l
  | PDict d =>
      NoDup (map fst d) /\
      (fix all (d : list (string * pyval)) : Prop :=
         match d with
         | [] => True
         | (_, x) :: r => well_formed x /\ all r
         end) d
  | _ => True
  end.

(** How deep the brackets nest in the text of a value. *)
Fixpoint depth (v : pyval) : nat :=
  match v with
  | PList l =>
      S ((fix items (l : list pyval) : nat :=
            match l with
            | [] => 0
            | x :: r => Nat.max (depth x) (items r)
            end) l)
  | PDict d =>
      S ((fix entries (d : list (string * pyval)) : nat :=
            match d with
            | [] => 0
            | (_, x) :: r => Nat.max (depth x) (entries r)
            end) d)
  | _ => 0
  end%nat.

Fixpoint depth_items (l : list pyval) : nat :=
  match l with
  | [] => 0
  | x :: r => Nat.max (depth x) (depth_items r)
  end%nat.

Fixpoint depth_entries (d : list (string * pyval)) : nat :=
  match d with
  | [] => 0
  | (_, x) :: r => Nat.max (depth x) (depth_entries r)
  end%nat.

(** The steps the reader of [Ast] takes on the text of a value. *)
Fixpoint need (v : pyval) : nat :=
  match v with
  | PList l =>
      S ((fix items (l : list pyval) : nat :=
            match l with
            | [] => 1
            | x :: r => S (Nat.max (need x) (items r))
            end) l)
  | PDict d =>
      S ((fix entries (d : list (string * pyval)) : nat :=
            match d with
            | [] => 1
            | (_, x) :: r => S (Nat.max (need x) (entries r))
            end) d)
  | _ => 1
  end%nat.

Fixpoint need_items (l : list pyval) : nat :=
  match l with
  | [] => 1
  | x :: r => S (Nat.max (need x) (need_items r))
  end%nat.

Fixpoint need_entries (d : list (string * pyval)) : nat :=
  match d with
  | [] => 1
  | (_, x) :: r => S (Nat.max (need x) (need_entries r))
  end%nat.

(** The text does not go on with a digit. *)
Definition no_digit_ahead (s : string) : Prop :=
  match s with
  | EmptyString => True
  | String c _ => Chars.is_digit c = false
  end.

(** [reads_back v]: with enough steps, and inside few enough brackets for
    those of [v] to stay within [MAXLEVEL], the reader takes the text of [v]
    off the front of what it is given, and gives [v] back. *)
Definition reads_back (v : pyval) : Prop :=
  well_formed v ->
  forall fuel level rest,
    (need v <= fuel)%nat -> (level + depth v <= Ast.MAXLEVEL)%nat ->
    no_digit_ahead rest ->
    Ast.value fuel level (Py.repr v +:+ rest) = Some (v, rest).

End Literal.

(** ** [get_calendar_service] of [app/google_calendar.py] *)

Module credentials.

(** What the code reads of a credentials object.  [id] tells one object's
    token from another's. *)
Record Credentials : Type := {
  id : string;
  valid : bool;
  expired : bool;
  refresh_token : option string
}.

(** [if creds.refresh_token]: there, and not the empty string. *)
Definition has_refresh_token (creds : Credentials) : bool :=
  match refresh_token creds with
  | Some text => negb (String.eqb text EmptyString)
  | None => false
  end.

(** What the function does that can be seen from outside. *)
Inductive action : Type :=
| Refreshed (creds : Credentials)
| Authorized
| Saved (creds : Credentials).

(** The outside of the function: the token server behind [creds.refresh], the
    interactive authorization behind [run_local_server], with a state [W] of
    their own, and [build], which makes the service object. *)
Class Authority (W Service : Type) : Type := {
  (** [creds.refresh(Request())]: the credentials after the refresh *)
  refresh : Credentials -> W -> result Credentials * W;
  (** [InstalledAppFlow.from_client_secrets_file(...).run_local_server(port=0)] *)
  run_local_server : W -> result Credentials * W;
  (** [build('calendar', 'v3', credentials=creds)] *)
  build : Credentials -> result Service
}.

(** The state the function runs in: [token_file] is what [token.pickle]
    holds, if the file is there. *)
Record Files (W : Type) : Type := {
  outside : W;
  token_file : option Credentials;
  actions : list action
}.
Arguments outside {W} _.
Arguments token_file {W} _.
Arguments actions {W} _.

Section defs.
Context {W Service : Type} {A : Authority W Service}.

(** [with open(TOKEN_FILE_PATH, 'wb') as token: pickle.dump(creds, token)],
    then the service is built and returned. *)
Definition save_and_build (creds : Credentials) (w : W) (done : list action)
  : result Service * Files W :=
  (build creds,
   {| outside := w; token_file := Some creds; actions := done ++ [Saved creds] |}).

Definition get_calendar_service (st : Files W) : result Service * Files W :=
  let creds := token_file st in
  match creds with
  | Some cached =>
      if valid cached then (build cached, st)
      else if expired cached && has_refresh_token cached then
        match refresh cached (outside st) with
        | (inr refreshed, w) =>
            save_and_build refreshed w (actions st ++ [Refreshed cached])
        | (inl e, w) =>
            (inl e, {| outside := w; token_file := token_file st;
                       actions := actions st ++ [Refreshed cached] |})
        end
      else
        match run_local_server (outside st) with
        | (inr granted, w) => save_and_build granted w (actions st ++ [Authorized])
        | (inl e, w) =>
            (inl e, {| outside := w; token_file := token_file st;
                       actions := actions st ++ [Authorized] |})
        end
  | None =>
      match run_local_server (outside st) with
      | (inr granted, w) => save_and_build granted w (actions st ++ [Authorized])
      | (inl e, w) =>
          (inl e, {| outside := w; token_file := token_file st;
                     actions := actions st ++ [Authorized] |})
      end
  end.

End defs.

(** An authority for concrete runs: a refresh makes the credentials valid, an
    authorization grants new ones, and the service is its credentials. *)
Definition renewed (creds : Credentials) : Credentials :=
  {| id := id creds +:+ "+"; valid := true; expired := false;
     refresh_token := refresh_token creds |}.

Definition granted : Credentials :=
  {| id := "granted"; valid := true; expired := false; refresh_token := Some "r0" |}.

Definition simple : Authority unit Credentials :=
  {| refresh := fun creds w => (inr (renewed creds), w);
     run_local_server := fun w => (inr granted, w);
     build := fun creds => inr creds |}.

Definition stale : Credentials :=
  {| id := "t1"; valid := false; expired := true; refresh_token := Some "r1" |}.

Definition first_run : Files unit := {| outside := tt; token_file := None; actions := [] |}.
Definition stale_run : Files unit :=
  {| outside := tt; token_file := Some stale; actions := [] |}.

End credentials.

(** ** Several requests, one after the other *)

Section Serving.
Context {World : Type} {E : Externals World}.

(** The server answers the requests it gets in the order they come. *)
Fixpoint serve (requests : list main.ChatRequest) : M World (list string) :=
  match requests with
  | [] => ret []
  | request :: rest =>
      reply <- main.chat_endpoint request ;;
      replies <- serve rest ;;
      ret (reply :: replies)
  end.

End Serving.

(** The texts of the user's messages in a history. *)
Fixpoint human_texts (l : list BaseMessage) : list string :=
  match l with
  | [] => []
  | HumanMessage text :: rest => text :: human_texts rest
  | AIMessage _ _ :: rest => human_texts rest
  end.

(** The non-empty messages that the requests send to one session. *)
Fixpoint sent_to (session : string) (requests : list main.ChatRequest) : list string :=
  match requests with
  | [] => []
  | request :: rest =>
      if String.eqb (main.session_id request) session
         && negb (String.eqb (main.message request) EmptyString)
      then main.message request :: sent_to session rest
      else sent_to session rest
  end.

(** ** What the availability adapter makes of the backend's answer *)

(** [answer['calendars']['primary']['busy']], the empty list standing in for
    whatever is missing or is not a dict on the way. *)
Definition busy_periods_of (answer : pyval) : pyval :=
  match answer with
  | PDict d =>
      match Py.lookup "calendars" d with
      | None => PList []
      | Some (PDict c) =>
          match Py.lookup "primary" c with
          | None => PList []
          | Some (PDict p) =>
              match Py.lookup "busy" p with
              | None => PList []
              | Some busy => busy
              end
          | Some _ => PList []
          end
      | Some _ => PList []
      end
  | _ => PList []
  end.

(** ** Rendering *)

(** [d.get(k, default)] on the entries of a dict. *)
Definition field (d : list (string * pyval)) (k : string) (default : pyval) : pyval :=
  match Py.lookup k d with
  | Some x => x
  | None => default
  end.

(** The result of a request for a tool that does not exist. *)
Definition unknown_tool_error (tc : ToolCall) : pyval :=
  PStr ("Error: Unknown tool " +:+ tc_name tc).

(** ** More concrete turns *)

Module MoreExamples.
Import Examples.

(** The model asks for one tool, which does not exist. *)
Definition only_unknown : AIResponse :=
  {| ai_content := "Sending."; ai_tool_calls := [send_email] |}.

Definition unknown_only : Scripted.Script := script (inr only_unknown) [] [].

(** Results with quotes, a backslash, a negative number and a nested dict. *)
Definition awkward : list pyval :=
  [PStr "it's"; PStr (String Chars.backslash "n"); PInt (-7);
   PDict [("a", PList [PNone; PBool false]); ("b", PStr EmptyString)]].

(** The empty list inside [n] lists. *)
Fixpoint nested (n : nat) : pyval :=
  match n with
  | O => PList []
  | S n' => PList [nested n']
  end.

End MoreExamples.

(** * Proofs *)

(** ** Running the monad *)

Section Running.
Context {World : Type}.
Implicit Types s : Sys World.

(** A handler with a clause for every exception makes the block total. *)
Lemma try_total {A} (body : M World A) (h : exn -> option (M World A)) s :
  (forall e, exists a, h e = Some (ret a)) ->
  exists a s1, try_except body h s = (inr a, s1).
Proof.
  intros Hh. unfold try_except.
  destruct (body s) as [[e | a] s1]; [| eauto].
  destruct (Hh e) as [a ->]. unfold ret. eauto.
Qed.

(** *** What a computation leaves behind *)

Lemma leaves_ret {A} P (a : A) : leaves (World := World) P (ret a).
Proof.
  intros s r s1 [= <- <-]. split; [reflexivity |].
  exists []. now rewrite app_nil_r.
Qed.

Lemma leaves_raise {A} P e : leaves (World := World) P (raise (A := A) e).
Proof.
  intros s r s1 [= <- <-]. split; [reflexivity |].
  exists []. now rewrite app_nil_r.
Qed.

Lemma leaves_lift {A} P (r : result A) : leaves (World := World) P (lift r).
Proof. destruct r; [apply leaves_raise | apply leaves_ret]. Qed.

Lemma leaves_remote {A} (P : event -> bool) ev (call : World -> result A * World) :
  P ev = true -> leaves P (remote ev call).
Proof.
  intros HP s r s1. unfold remote. destruct (call (world s)) as [r0 w].
  intros [= <- <-]. cbn. split; [reflexivity |].
  exists [ev]. cbn. now rewrite HP.
Qed.

Lemma leaves_bind {A B} P (c : M World A) (k : A -> M World B) :
  leaves P c -> (forall a, leaves P (k a)) -> leaves P (bind c k).
Proof.
  intros Hc Hk s r s2. unfold bind.
  destruct (c s) as [[e | a] s1] eqn:Hrun.
  - intros [= <- <-]. exact (Hc _ _ _ Hrun).
  - intros Hrun2.
    destruct (Hc _ _ _ Hrun) as [Hm (evs1 & Ht1 & HP1)].
    destruct (Hk a _ _ _ Hrun2) as [Hm2 (evs2 & Ht2 & HP2)].
    split; [congruence |].
    exists (evs1 ++ evs2). rewrite Ht2, Ht1, <- app_assoc. split; [reflexivity |].
    now rewrite forallb_app, HP1, HP2.
Qed.

Lemma leaves_try {A} P (body : M World A) h :
  leaves P body -> (forall e c, h e = Some c -> leaves P c) ->
  leaves P (try_except body h).
Proof.
  intros Hb Hh s r s2. unfold try_except.
  destruct (body s) as [[e | a] s1] eqn:Hrun.
  - destruct (h e) as [c |] eqn:Hc.
    + intros Hrun2.
      destruct (Hb _ _ _ Hrun) as [Hm (evs1 & Ht1 & HP1)].
      destruct (Hh e c Hc _ _ _ Hrun2) as [Hm2 (evs2 & Ht2 & HP2)].
      split; [congruence |].
      exists (evs1 ++ evs2). rewrite Ht2, Ht1, <- app_assoc. split; [reflexivity |].
      now rewrite forallb_app, HP1, HP2.
    + intros [= <- <-]. exact (Hb _ _ _ Hrun).
  - intros [= <- <-]. exact (Hb _ _ _ Hrun).
Qed.

End Running.

Create HintDb leaves discriminated.
#[export] Hint Resolve leaves_ret leaves_raise leaves_lift leaves_bind : leaves.

(** ** The calendar client and the tool adapters *)

Section Adapters.
Context {World : Type} {E : Externals World}.
Implicit Types s : Sys World.

Lemma leaves_check_calendar_availability start_time end_time :
  leaves backend_event (google_calendar.check_calendar_availability start_time end_time).
Proof.
  unfold google_calendar.check_calendar_availability.
  apply leaves_try.
  - repeat (apply leaves_bind; [| intros ?]); auto with leaves.
    now apply leaves_remote.
  - intros e c. destruct (is_HttpError e); intros [= <-]; auto with leaves.
Qed.

Lemma leaves_create_calendar_event summary description start_time end_time attendees :
  leaves backend_event
    (google_calendar.create_calendar_event summary description start_time end_time attendees).
Proof.
  unfold google_calendar.create_calendar_event.
  apply leaves_try.
  - repeat (apply leaves_bind; [| intros ?]); auto with leaves.
    now apply leaves_remote.
  - intros e c. destruct (is_HttpError e); intros [= <-]; auto with leaves.
Qed.

(** What [astimezone] returns is aware: the adapters' [localize] never runs. *)
Lemma astimezone_aware local tz dt moved_dt :
  astimezone local tz dt = inr moved_dt -> exists z, tzinfo moved_dt = Some z.
Proof.
  unfold astimezone.
  destruct (match tzinfo dt with Some z => inr (utcoffset z) | None => local (wall dt) end)
    as [e | offset]; [discriminate |].
  cbv zeta. destruct (in_range (wall dt - offset)); [| discriminate].
  destruct (in_range _); [| discriminate].
  intros [= <-]. cbn. eauto.
Qed.

Lemma moved_aware tz text dt : moved tz text = inr dt -> exists z, tzinfo dt = Some z.
Proof.
  unfold moved. destruct (fromisoformat text) as [e | parsed]; [discriminate |].
  apply astimezone_aware.
Qed.

Lemma aware_aware tz dt z s : tzinfo dt = Some z -> agent_tools.aware tz dt s = (inr dt, s).
Proof. intros H. unfold agent_tools.aware. now rewrite H. Qed.

Lemma leaves_aware P tz dt : leaves (World := World) P (agent_tools.aware tz dt).
Proof. unfold agent_tools.aware. destruct (tzinfo dt); auto with leaves. Qed.

(** The availability adapter, spelled out: the zone, the two datetimes moved
    to it, the client's query. *)
Lemma check_tool_run start_time_str end_time_str timezone_str s :
  agent_tools.check_calendar_availability_tool start_time_str end_time_str timezone_str s =
  match pytz_timezone timezone_str with
  | inr tz =>
      match moved tz start_time_str, moved tz end_time_str with
      | inr start_time, inr end_time =>
          match google_calendar.check_calendar_availability start_time end_time s with
          | (inr busy_periods, s1) => (inr busy_periods, s1)
          | (inl _, s1) => (inr (PList []), s1)
          end
      | _, _ => (inr (PList []), s)
      end
  | inl _ => (inr (PList []), s)
  end.
Proof.
  unfold agent_tools.check_calendar_availability_tool, try_except, bind,
    agent_tools.except_Exception.
  destruct (pytz_timezone timezone_str) as [e | tz]; [reflexivity |].
  cbn [lift]. unfold ret at 1. unfold moved.
  destruct (fromisoformat start_time_str) as [e | parsed_start]; [reflexivity |].
  cbn [lift]. unfold ret at 1.
  destruct (astimezone local_utcoffset tz parsed_start) as [e | start_time] eqn:Hstart;
    [reflexivity |].
  cbn [lift]. unfold ret at 1.
  destruct (fromisoformat end_time_str) as [e | parsed_end]; [reflexivity |].
  cbn [lift]. unfold ret at 1.
  destruct (astimezone local_utcoffset tz parsed_end) as [e | end_time] eqn:Hend;
    [reflexivity |].
  cbn [lift]. unfold ret at 1.
  destruct (astimezone_aware _ _ _ _ Hstart) as [z1 Hz1].
  destruct (astimezone_aware _ _ _ _ Hend) as [z2 Hz2].
  rewrite (aware_aware _ _ _ _ Hz1), (aware_aware _ _ _ _ Hz2).
  destruct (google_calendar.check_calendar_availability start_time end_time s)
    as [[e | busy_periods] s1]; reflexivity.
Qed.

(** The event adapter, spelled out. *)
Lemma create_tool_run summary description start_time_str end_time_str attendees
    timezone_str s :
  agent_tools.create_calendar_event_tool summary description start_time_str end_time_str
    attendees timezone_str s =
  match pytz_timezone timezone_str with
  | inr tz =>
      match moved tz start_time_str, moved tz end_time_str with
      | inr start_time, inr end_time =>
          match google_calendar.create_calendar_event summary description
                  start_time end_time attendees s with
          | (inr event, s1) => (inr (if Py.truthy event then event else PDict []), s1)
          | (inl _, s1) => (inr (PDict []), s1)
          end
      | _, _ => (inr (PDict []), s)
      end
  | inl _ => (inr (PDict []), s)
  end.
Proof.
  unfold agent_tools.create_calendar_event_tool, try_except, bind,
    agent_tools.except_Exception.
  destruct (pytz_timezone timezone_str) as [e | tz]; [reflexivity |].
  cbn [lift]. unfold ret at 1. unfold moved.
  destruct (fromisoformat start_time_str) as [e | parsed_start]; [reflexivity |].
  cbn [lift]. unfold ret at 1.
  destruct (astimezone local_utcoffset tz parsed_start) as [e | start_time] eqn:Hstart;
    [reflexivity |].
  cbn [lift]. unfold ret at 1.
  destruct (fromisoformat end_time_str) as [e | parsed_end]; [reflexivity |].
  cbn [lift]. unfold ret at 1.
  destruct (astimezone local_utcoffset tz parsed_end) as [e | end_time] eqn:Hend;
    [reflexivity |].
  cbn [lift]. unfold ret at 1.
  destruct (astimezone_aware _ _ _ _ Hstart) as [z1 Hz1].
  destruct (astimezone_aware _ _ _ _ Hend) as [z2 Hz2].
  rewrite (aware_aware _ _ _ _ Hz1), (aware_aware _ _ _ _ Hz2).
  destruct (google_calendar.create_calendar_event summary description start_time end_time
              attendees s) as [[e | event] s1]; reflexivity.
Qed.

Lemma leaves_check_tool start_time_str end_time_str timezone_str :
  leaves backend_event
    (agent_tools.check_calendar_availability_tool start_time_str end_time_str timezone_str).
Proof.
  unfold agent_tools.check_calendar_availability_tool.
  apply leaves_try.
  - repeat (apply leaves_bind; [| intros ?]);
      auto using leaves_check_calendar_availability, leaves_aware with leaves.
  - intros e c [= <-]. auto with leaves.
Qed.

Lemma leaves_create_tool summary description start_time_str end_time_str attendees timezone_str :
  leaves backend_event
    (agent_tools.create_calendar_event_tool summary description start_time_str
       end_time_str attendees timezone_str).
Proof.
  unfold agent_tools.create_calendar_event_tool.
  apply leaves_try.
  - repeat (apply leaves_bind; [| intros ?]);
      auto using leaves_create_calendar_event, leaves_aware with leaves.
  - intros e c [= <-]. auto with leaves.
Qed.

(** The adapters return: their [except Exception] takes whatever the body
    raises. *)
Lemma check_tool_returns start_time_str end_time_str timezone_str s :
  exists v s1,
    agent_tools.check_calendar_availability_tool start_time_str end_time_str timezone_str s
    = (inr v, s1).
Proof.
  unfold agent_tools.check_calendar_availability_tool.
  apply try_total. intros e. now exists (PList []).
Qed.

Lemma create_tool_returns summary description start_time_str end_time_str attendees
    timezone_str s :
  exists v s1,
    agent_tools.create_calendar_event_tool summary description start_time_str
      end_time_str attendees timezone_str s = (inr v, s1).
Proof.
  unfold agent_tools.create_calendar_event_tool.
  apply try_total. intros e. now exists (PDict []).
Qed.

(** The client's query, when the backend raises: the empty list on an
    [HttpError], the exception itself otherwise. *)
Lemma check_calendar_availability_backend_raises start_time end_time s e w :
  freebusy_query (google_calendar.freebusy_body start_time end_time) (world s) = (inl e, w) ->
  exists s1,
    google_calendar.check_calendar_availability start_time end_time s
    = (if is_HttpError e then inr (PList []) else inl e, s1).
Proof.
  intros Hq. unfold google_calendar.check_calendar_availability, try_except, bind, remote.
  rewrite Hq. destruct (is_HttpError e); cbn; eauto.
Qed.

Lemma create_calendar_event_backend_raises summary description start_time end_time
    attendees s e w :
  events_insert "primary"
    (google_calendar.event_body summary description start_time end_time attendees)
    true (world s) = (inl e, w) ->
  exists s1,
    google_calendar.create_calendar_event summary description start_time end_time attendees s
    = (if is_HttpError e then inr PNone else inl e, s1).
Proof.
  intros Hq. unfold google_calendar.create_calendar_event, try_except, bind, remote.
  rewrite Hq. destruct (is_HttpError e); cbn; eauto.
Qed.

(** C4.  Whatever its arguments and whatever the backend does, each adapter
    returns a value and raises nothing; when the zone or a datetime does not
    parse, a datetime cannot be moved to the zone, or the backend's call
    raises, that value is the neutral one: the empty list for the
    availability adapter, the empty dict for the event adapter. *)
Theorem adapters_degrade_to_neutral
    (summary description start_time_str end_time_str timezone_str : string)
    (attendees : option (list string)) (s : Sys World) :
  (exists v s1,
      agent_tools.check_calendar_availability_tool start_time_str end_time_str timezone_str s
      = (inr v, s1) /\
      (check_fails s start_time_str end_time_str timezone_str -> v = PList [])) /\
  (exists v s1,
      agent_tools.create_calendar_event_tool summary description start_time_str
        end_time_str attendees timezone_str s = (inr v, s1) /\
      (create_fails s summary description start_time_str end_time_str attendees timezone_str
       -> v = PDict [])).
Proof.
  split.
  - destruct (check_tool_returns start_time_str end_time_str timezone_str s)
      as (v & s1 & Hrun).
    exists v, s1. split; [exact Hrun |].
    rewrite check_tool_run in Hrun. unfold moved in Hrun.
    intros [e He | e He | e He | tz e Hz Hs | tz e Hz He
            | tz start_time end_time e w Hz Hs He Hq].
    + rewrite He in Hrun. congruence.
    + destruct (pytz_timezone timezone_str) as [e0 | tz]; [congruence |].
      rewrite He in Hrun. congruence.
    + destruct (pytz_timezone timezone_str) as [e0 | tz]; [congruence |].
      rewrite He in Hrun.
      destruct (fromisoformat start_time_str) as [e1 | ps]; [congruence |].
      destruct (astimezone local_utcoffset tz ps); congruence.
    + rewrite Hz in Hrun. fold (moved tz start_time_str) in Hrun. rewrite Hs in Hrun.
      congruence.
    + rewrite Hz in Hrun. fold (moved tz start_time_str) (moved tz end_time_str) in Hrun.
      rewrite He in Hrun. destruct (moved tz start_time_str); congruence.
    + rewrite Hz in Hrun. fold (moved tz start_time_str) (moved tz end_time_str) in Hrun.
      rewrite Hs, He in Hrun.
      destruct (check_calendar_availability_backend_raises _ _ _ _ _ Hq) as [s2 Hc].
      rewrite Hc in Hrun. destruct (is_HttpError e); congruence.
  - destruct (create_tool_returns summary description start_time_str end_time_str
                attendees timezone_str s) as (v & s1 & Hrun).
    exists v, s1. split; [exact Hrun |].
    rewrite create_tool_run in Hrun. unfold moved in Hrun.
    intros [e He | e He | e He | tz e Hz Hs | tz e Hz He
            | tz start_time end_time e w Hz Hs He Hq].
    + rewrite He in Hrun. congruence.
    + destruct (pytz_timezone timezone_str) as [e0 | tz]; [congruence |].
      rewrite He in Hrun. congruence.
    + destruct (pytz_timezone timezone_str) as [e0 | tz]; [congruence |].
      rewrite He in Hrun.
      destruct (fromisoformat start_time_str) as [e1 | ps]; [congruence |].
      destruct (astimezone local_utcoffset tz ps); congruence.
    + rewrite Hz in Hrun. fold (moved tz start_time_str) in Hrun. rewrite Hs in Hrun.
      congruence.
    + rewrite Hz in Hrun. fold (moved tz start_time_str) (moved tz end_time_str) in Hrun.
      rewrite He in Hrun. destruct (moved tz start_time_str); congruence.
    + rewrite Hz in Hrun. fold (moved tz start_time_str) (moved tz end_time_str) in Hrun.
      rewrite Hs, He in Hrun.
      destruct (create_calendar_event_backend_raises _ _ _ _ _ _ _ _ Hq) as [s2 Hc].
      rewrite Hc in Hrun. destruct (is_HttpError e); cbn [Py.truthy] in Hrun; congruence.
Qed.

End Adapters.

(** ** Tool dispatch *)

Section Dispatch.
Context {World : Type} {E : Externals World}.
Implicit Types s : Sys World.

Lemma known_tool_false name :
  known_tool name = false ->
  String.eqb name "check_calendar_availability_tool" = false /\
  String.eqb name "create_calendar_event_tool" = false.
Proof. unfold known_tool. now intros [-> ->]%orb_false_iff. Qed.

Lemma dispatch_unknown tc s :
  known_tool (tc_name tc) = false ->
  main.dispatch tc s = (inr (PStr ("Error: Unknown tool " +:+ tc_name tc)), s).
Proof.
  intros [H1 H2]%known_tool_false. unfold main.dispatch. now rewrite H1, H2.
Qed.

Lemma is_ok_inr {A} (r : result A) : is_ok r = true -> exists a, r = inr a.
Proof. destruct r; [discriminate | eauto]. Qed.

(** A request that passes the signature check is answered. *)
Lemma dispatch_accepted tc s :
  accepts tc = true -> exists v s1, main.dispatch tc s = (inr v, s1).
Proof.
  unfold accepts, main.dispatch. intros Hacc.
  destruct (String.eqb (tc_name tc) "check_calendar_availability_tool").
  - apply andb_prop in Hacc as [[Ha Hb]%andb_prop Hc].
    apply is_ok_inr in Ha as [a Ha], Hb as [b Hb], Hc as [c Hc].
    unfold agent_tools.check_calendar_availability_tool_invoke, bind.
    rewrite Ha; cbn. rewrite Hb; cbn. rewrite Hc; cbn.
    apply check_tool_returns.
  - destruct (String.eqb (tc_name tc) "create_calendar_event_tool").
    + apply andb_prop in Hacc as [[[[[Ha Hb]%andb_prop Hc]%andb_prop Hd]%andb_prop He]%andb_prop Hf].
      apply is_ok_inr in Ha as [a Ha], Hb as [b Hb], Hc as [c Hc],
          Hd as [d Hd], He as [e He], Hf as [f Hf].
      unfold agent_tools.create_calendar_event_tool_invoke, bind.
      rewrite Ha; cbn. rewrite Hb; cbn. rewrite Hc; cbn.
      rewrite Hd; cbn. rewrite He; cbn. rewrite Hf; cbn.
      apply create_tool_returns.
    + unfold ret. eauto.
Qed.

Lemma leaves_dispatch tc : leaves backend_event (main.dispatch tc).
Proof.
  unfold main.dispatch.
  destruct (String.eqb (tc_name tc) "check_calendar_availability_tool").
  - unfold agent_tools.check_calendar_availability_tool_invoke.
    repeat (apply leaves_bind; [| intros ?]); auto using leaves_check_tool with leaves.
  - destruct (String.eqb (tc_name tc) "create_calendar_event_tool").
    + unfold agent_tools.create_calendar_event_tool_invoke.
      repeat (apply leaves_bind; [| intros ?]); auto using leaves_create_tool with leaves.
    + auto with leaves.
Qed.

Lemma leaves_for_each_tool_call calls acc :
  leaves backend_event (main.for_each_tool_call calls acc).
Proof.
  revert acc. induction calls as [| tc rest IH]; intros acc; cbn.
  - auto with leaves.
  - apply leaves_bind; [apply leaves_dispatch | intros out; apply IH].
Qed.

Lemma Dispatched_length calls s outs s1 :
  Dispatched calls s outs s1 -> length outs = length calls.
Proof. induction 1; cbn; congruence. Qed.

Lemma Dispatched_lookup calls s outs s1 i tc :
  Dispatched calls s outs s1 -> calls !! i = Some tc ->
  exists out sa sb, outs !! i = Some out /\ main.dispatch tc sa = (inr out, sb).
Proof.
  intros HD. revert i. induction HD as [| tc0 rest s out s1 outs s2 Hd HD IH]; intros i Hi.
  - now destruct i.
  - destruct i as [| i]; cbn in Hi.
    + injection Hi as ->. exists out, s, s1. now split.
    + exact (IH i Hi).
Qed.

(** Dispatching a request gives the result owed to it. *)
Lemma dispatch_answered tc sa out sb :
  main.dispatch tc sa = (inr out, sb) -> Answered tc sa out sb.
Proof.
  unfold main.dispatch, Answered, tool_named.
  destruct (String.eqb (tc_name tc) "check_calendar_availability_tool"); [trivial |].
  destruct (String.eqb (tc_name tc) "create_calendar_event_tool"); [trivial |].
  now intros [= <- <-].
Qed.

Lemma Dispatched_answered calls s outs s1 i tc :
  Dispatched calls s outs s1 -> calls !! i = Some tc ->
  exists out sa sb, outs !! i = Some out /\ Answered tc sa out sb.
Proof.
  intros HD Hi. destruct (Dispatched_lookup _ _ _ _ i tc HD Hi) as (out & sa & sb & Ho & Hd).
  exists out, sa, sb. split; [exact Ho | now apply dispatch_answered].
Qed.

(** The loop returns exactly when every request is answered, and then its
    list is the answers in the order of the requests, after what it started
    with. *)
Lemma for_each_tool_call_returns calls acc s l s1 :
  main.for_each_tool_call calls acc s = (inr l, s1) <->
  exists outs, l = acc ++ outs /\ Dispatched calls s outs s1.
Proof.
  revert acc s. induction calls as [| tc rest IH]; intros acc s; cbn.
  - unfold ret. split.
    + intros [= <- <-]. exists []. split; [now rewrite app_nil_r | constructor].
    + intros (outs & -> & HD). inversion HD; subst. now rewrite app_nil_r.
  - unfold bind. destruct (main.dispatch tc s) as [[e | out] s0] eqn:Hd.
    + split; [discriminate |].
      intros (outs & _ & HD).
      inversion HD as [| ? ? ? out' s' outs' ? Hd' HD']; subst. congruence.
    + rewrite IH. split.
      * intros (outs & -> & HD). exists (out :: outs).
        split; [now rewrite <- app_assoc | econstructor; eauto].
      * intros (outs & -> & HD).
        inversion HD as [| ? ? ? out' s' outs' ? Hd' HD']; subst.
        assert (out' = out /\ s' = s0) as [-> ->] by (split; congruence).
        exists outs'. split; [now rewrite <- app_assoc | assumption].
Qed.

Lemma for_each_tool_call_accepted calls acc s :
  forallb accepts calls = true ->
  exists outs s1,
    main.for_each_tool_call calls acc s = (inr (acc ++ outs), s1) /\
    Dispatched calls s outs s1.
Proof.
  revert acc s. induction calls as [| tc rest IH]; intros acc s Hacc; cbn in *.
  - exists [], s. rewrite app_nil_r. split; [reflexivity | constructor].
  - apply andb_prop in Hacc as [Htc Hrest].
    destruct (dispatch_accepted tc s Htc) as (out & s0 & Hd).
    destruct (IH (acc ++ [out]) s0 Hrest) as (outs & s1 & Hrun & HD).
    exists (out :: outs), s1. split.
    + unfold bind. rewrite Hd, Hrun. now rewrite <- app_assoc.
    + econstructor; eauto.
Qed.

(** [call_tool] on a state whose last message is the model's. *)
Lemma call_tool_run state text calls s :
  last (messages state) = Some (AIMessage text calls) ->
  main.call_tool state s =
  match main.for_each_tool_call calls [] s with
  | (inr outs, s1) =>
      (inr {| upd_messages := None; upd_tool_output := Some (Py.str (PList outs)) |}, s1)
  | (inl e, s1) => (inl e, s1)
  end.
Proof.
  intros Hlast. unfold main.call_tool, main.last_item, bind. rewrite Hlast. cbn.
  destruct calls as [| tc rest]; [reflexivity |].
  destruct (main.for_each_tool_call (tc :: rest) [] s) as [[e | outs] s1]; reflexivity.
Qed.

End Dispatch.

(** ** The graph and a turn *)

Section Graph.
Context {World : Type} {E : Externals World}.
Implicit Types s : Sys World.

(** The graph of [main.py], run from its entry point, is the model node,
    then the tool node, then the end: each node once, in that order. *)
Lemma run_from_workflow thread_id state :
  main.run_from main.workflow thread_id main.recursion_limit
    (main.entry_point main.workflow) state =
  (emit (EvNode "call_model") ;;;
   update <- main.call_model state ;;
   let state1 := apply_update state update in
   put_checkpoint thread_id state1 ;;;
   emit (EvNode "call_tool") ;;;
   update <- main.call_tool state1 ;;
   let state2 := apply_update state1 update in
   put_checkpoint thread_id state2 ;;;
   ret state2).
Proof. reflexivity. Qed.

(** One turn on a thread, spelled out. *)
Lemma app_agent_invoke_run text thread_id s :
  let h := history s thread_id ++ [HumanMessage text] in
  let state0 := apply_update (default empty_state (memory s !! thread_id)) (user_turn text) in
  main.app_agent_invoke (user_turn text) thread_id s =
  match llm_with_tools_invoke h (world s) with
  | (inl e, w) =>
      (inl e, {| world := w; memory := <[thread_id := state0]> (memory s);
                 trace := trace s ++ [EvNode "call_model"; EvModel h] |})
  | (inr response, w) =>
      let state1 :=
        apply_update state0
          {| upd_messages := Some [AIMessage (ai_content response) (ai_tool_calls response)];
             upd_tool_output := None |} in
      let s1 :=
        {| world := w;
           memory := <[thread_id := state1]> (<[thread_id := state0]> (memory s));
           trace := trace s ++ [EvNode "call_model"; EvModel h; EvNode "call_tool"] |} in
      match main.for_each_tool_call (ai_tool_calls response) [] s1 with
      | (inl e, s2) => (inl e, s2)
      | (inr outs, s2) =>
          let state2 :=
            apply_update state1
              {| upd_messages := None;
                 upd_tool_output := Some (Py.str (PList outs)) |} in
          (inr state2, {| world := world s2; memory := <[thread_id := state2]> (memory s2);
                          trace := trace s2 |})
      end
  end.
Proof.
  intros h state0. unfold main.app_agent_invoke.
  unfold bind at 1. unfold get_checkpoint at 1. cbv beta zeta iota.
  fold state0.
  unfold bind at 1. unfold put_checkpoint at 1. cbv beta zeta iota.
  rewrite run_from_workflow.
  unfold bind at 1. unfold emit at 1. cbn [world memory trace].
  unfold bind at 1. unfold main.call_model at 1.
  unfold bind at 1. unfold remote at 1. cbn [world memory trace].
  assert (Hh : messages state0 = h) by reflexivity.
  rewrite Hh.
  destruct (llm_with_tools_invoke h (world s)) as [[e | response] w].
  - now rewrite <- app_assoc.
  - unfold ret at 1.
    set (state1 := apply_update state0 _).
    unfold bind at 1. unfold put_checkpoint at 1. cbn [world memory trace].
    unfold bind at 1. unfold emit at 1. cbn [world memory trace].
    unfold bind at 1.
    rewrite (call_tool_run state1 (ai_content response) (ai_tool_calls response))
      by (unfold state1; cbn [apply_update messages upd_messages]; apply last_snoc).
    repeat rewrite <- app_assoc. cbn [app].
    match goal with
    | |- context [main.for_each_tool_call _ _ ?s1] =>
        destruct (main.for_each_tool_call (ai_tool_calls response) [] s1)
          as [[e | outs] s2]
    end; reflexivity.
Qed.

End Graph.

(** ** The chat endpoint *)

Section Endpoint.
Context {World : Type} {E : Externals World}.
Implicit Types s : Sys World.

Lemma stateless_ret {A} (a : A) : stateless (World := World) (ret a).
Proof. now exists (inr a). Qed.

Lemma stateless_lift {A} (r : result A) : stateless (World := World) (lift r).
Proof. exists r. now destruct r. Qed.

Lemma stateless_bind {A B} (c : M World A) (k : A -> M World B) :
  stateless c -> (forall a, stateless (k a)) -> stateless (bind c k).
Proof.
  intros [[e | a] Hc] Hk.
  - exists (inl e). intros s. unfold bind. now rewrite Hc.
  - destruct (Hk a) as [r Hr]. exists r. intros s. unfold bind. now rewrite Hc.
Qed.

Lemma stateless_try {A} (body : M World A) h :
  stateless body -> (forall e c, h e = Some c -> stateless c) ->
  stateless (try_except body h).
Proof.
  intros [[e | a] Hb] Hh.
  - destruct (h e) as [c |] eqn:Hc.
    + destruct (Hh e c Hc) as [r Hr]. exists r. intros s.
      unfold try_except. now rewrite Hb, Hc.
    + exists (inl e). intros s. unfold try_except. now rewrite Hb, Hc.
  - exists (inr a). intros s. unfold try_except. now rewrite Hb.
Qed.

(** Formatting depends on the raw text only and touches no state. *)
Lemma stateless_format_tool_output raw :
  stateless (World := World) (main.format_tool_output raw).
Proof.
  unfold main.format_tool_output. apply stateless_try.
  - apply stateless_bind; [apply stateless_lift | intros tool_data].
    destruct (Py.truthy tool_data); [| apply stateless_ret].
    destruct (main.first_event tool_data).
    + repeat (apply stateless_bind; [apply stateless_lift | intros ?]).
      apply stateless_ret.
    + destruct tool_data; try apply stateless_ret.
      destruct (forallb main.is_slot items); [| apply stateless_ret].
      destruct items as [| item rest]; cbn [Py.truthy]; [apply stateless_ret |].
      apply stateless_bind; [apply stateless_lift | intros ?]. apply stateless_ret.
  - intros e c. destruct (is_ValueError_or_SyntaxError e); intros [= <-].
    apply stateless_ret.
Qed.

(** The text of an empty tool output is empty: nothing is appended. *)
Lemma format_tool_output_empty s :
  main.format_tool_output "[]" s = (inr EmptyString, s).
Proof. reflexivity. Qed.

Lemma chat_endpoint_returns req s :
  exists reply s1, main.chat_endpoint req s = (inr reply, s1).
Proof.
  unfold main.chat_endpoint.
  destruct (String.eqb (main.message req) EmptyString).
  - unfold ret. eauto.
  - apply try_total. intros e. now exists (main.internal_error e).
Qed.

Lemma eqb_empty_false (text : string) :
  text <> EmptyString -> String.eqb text EmptyString = false.
Proof. intros H. now apply String.eqb_neq. Qed.

Lemma chat_endpoint_nonempty req s :
  main.message req <> EmptyString ->
  main.chat_endpoint req s =
  try_except (main.chat_endpoint_try (main.message req) (main.session_id req))
    (fun e => Some (ret (main.internal_error e))) s.
Proof.
  intros H. unfold main.chat_endpoint. now rewrite (eqb_empty_false _ H).
Qed.

Lemma chat_endpoint_try_run text thread_id s :
  main.chat_endpoint_try text thread_id s =
  match main.app_agent_invoke (user_turn text) thread_id s with
  | (inl e, s1) => (inl e, s1)
  | (inr final, s1) =>
      match main.last_item (messages final) with
      | inl e => (inl e, s1)
      | inr last_message =>
          match main.format_tool_output (default "[]" (tool_output final)) s1 with
          | (inl e, s2) => (inl e, s2)
          | (inr formatted, s2) =>
              (inr (if String.eqb formatted EmptyString then content last_message
                    else content last_message +:+ formatted), s2)
          end
      end
  end.
Proof.
  unfold main.chat_endpoint_try, bind. fold (user_turn text).
  destruct (main.app_agent_invoke (user_turn text) thread_id s) as [[e | final] s1];
    [reflexivity |].
  destruct (main.last_item (messages final)) as [e | last_message]; [reflexivity |].
  cbn [lift]. unfold ret at 1.
  destruct (main.format_tool_output _ s1) as [[e | formatted] s2]; reflexivity.
Qed.

(** C2.  When the model asks for no tool, the turn stores the text of the
    empty list as its tool output, which reads back as the empty list, and
    the endpoint's reply is the model's text, with nothing appended. *)
Theorem no_tool_calls_reply_verbatim (req : main.ChatRequest) (s : Sys World)
    (response : AIResponse) (w : World) :
  main.message req <> EmptyString ->
  llm_with_tools_invoke
    (history s (main.session_id req) ++ [HumanMessage (main.message req)]) (world s)
    = (inr response, w) ->
  ai_tool_calls response = [] ->
  exists s1,
    main.chat_endpoint req s = (inr (ai_content response), s1) /\
    stored_tool_output s1 (main.session_id req) = Some "[]" /\
    literal_eval "[]" = inr (PList []).
Proof.
  intros Hmsg Hllm Hcalls.
  rewrite (chat_endpoint_nonempty _ _ Hmsg).
  unfold try_except. rewrite chat_endpoint_try_run, app_agent_invoke_run.
  rewrite Hllm, Hcalls. cbn [main.for_each_tool_call]. unfold ret at 1.
  cbv zeta. cbn [apply_update messages upd_messages tool_output upd_tool_output].
  unfold main.last_item. rewrite last_snoc.
  cbn [default world memory trace Py.str].
  change (Py.repr (PList [])) with "[]".
  rewrite format_tool_output_empty. cbn [String.eqb content].
  eexists. split; [reflexivity |]. split; [| reflexivity].
  unfold stored_tool_output. cbn [memory]. now rewrite lookup_insert_eq.
Qed.

End Endpoint.

(** ** A whole turn *)

Section Turn.
Context {World : Type} {E : Externals World}.
Implicit Types s : Sys World.

(** The endpoint adds nothing to what the turn left: it always replies,
    and in the state the graph run ended in. *)
Lemma chat_endpoint_after_turn req s r s1 :
  main.message req <> EmptyString ->
  main.app_agent_invoke (user_turn (main.message req)) (main.session_id req) s = (r, s1) ->
  exists reply, main.chat_endpoint req s = (inr reply, s1).
Proof.
  intros Hmsg Hrun. rewrite (chat_endpoint_nonempty _ _ Hmsg).
  unfold try_except. rewrite chat_endpoint_try_run, Hrun.
  destruct r as [e | final]; [unfold ret; eauto |].
  destruct (main.last_item (messages final)) as [e | m]; [unfold ret; eauto |].
  destruct (stateless_format_tool_output (World := World) (default "[]" (tool_output final)))
    as [[e | formatted] Hf]; rewrite Hf; unfold ret; eauto.
Qed.

(** A turn whose requests all pass their signature checks reaches the end
    of the graph, with one answer per request, in order. *)
Lemma turn_accepted text thread_id s response w :
  llm_with_tools_invoke (history s thread_id ++ [HumanMessage text]) (world s)
    = (inr response, w) ->
  forallb accepts (ai_tool_calls response) = true ->
  exists outs final s1 sa sb,
    main.app_agent_invoke (user_turn text) thread_id s = (inr final, s1) /\
    tool_output final = Some (Py.str (PList outs)) /\
    stored_tool_output s1 thread_id = Some (Py.str (PList outs)) /\
    Dispatched (ai_tool_calls response) sa outs sb.
Proof.
  intros Hllm Hacc. rewrite app_agent_invoke_run, Hllm. cbv zeta.
  match goal with
  | |- context [main.for_each_tool_call _ _ ?s1] =>
      destruct (for_each_tool_call_accepted (ai_tool_calls response) [] s1 Hacc)
        as (outs & s2 & Hrun & HD);
      exists outs; eexists; eexists; exists s1, s2
  end.
  rewrite Hrun. cbn [app]. split; [reflexivity |].
  split; [reflexivity |]. split; [| exact HD].
  unfold stored_tool_output. cbn [memory]. now rewrite lookup_insert_eq.
Qed.

(** C7.  For a non-empty message the endpoint returns a reply and raises
    nothing; whatever its [try] body raises, the error of the model's
    invocation among them, comes back as the apology with the error's text. *)
Theorem chat_endpoint_never_raises (req : main.ChatRequest) (s : Sys World) :
  main.message req <> EmptyString ->
  (exists reply s1, main.chat_endpoint req s = (inr reply, s1)) /\
  (forall e s1,
      main.chat_endpoint_try (main.message req) (main.session_id req) s = (inl e, s1) ->
      main.chat_endpoint req s
      = (inr ("Sorry, an internal error occurred: " +:+ exn_msg e), s1)) /\
  (forall e w,
      llm_with_tools_invoke
        (history s (main.session_id req) ++ [HumanMessage (main.message req)]) (world s)
        = (inl e, w) ->
      exists s1,
        main.chat_endpoint req s
        = (inr ("Sorry, an internal error occurred: " +:+ exn_msg e), s1)).
Proof.
  intros Hmsg. split; [apply chat_endpoint_returns |]. split.
  - intros e s1 Htry. rewrite (chat_endpoint_nonempty _ _ Hmsg).
    unfold try_except. now rewrite Htry.
  - intros e w Hllm. rewrite (chat_endpoint_nonempty _ _ Hmsg).
    unfold try_except. rewrite chat_endpoint_try_run, app_agent_invoke_run, Hllm.
    unfold ret, main.internal_error. eauto.
Qed.

End Turn.

(** ** What a turn leaves *)

Section Outcome.
Context {World : Type} {E : Externals World}.
Implicit Types s : Sys World.

Lemma backend_events_counts evs :
  forallb backend_event evs = true ->
  model_calls evs = 0%nat /\ forall name, node_runs name evs = 0%nat.
Proof.
  unfold model_calls, node_runs. induction evs as [| ev evs IH]; cbn; [easy |].
  intros [Hev Hevs]%andb_prop. destruct (IH Hevs) as [IH1 IH2].
  destruct ev; try discriminate; cbn; auto.
Qed.

(** Every outcome of a turn: what was traced, what the thread's history
    became and, when the graph run ended normally, the final state. *)
Lemma turn_outcome text thread_id s r s1 :
  main.app_agent_invoke (user_turn text) thread_id s = (r, s1) ->
  let h := history s thread_id ++ [HumanMessage text] in
  match llm_with_tools_invoke h (world s) with
  | (inl e, _) =>
      r = inl e /\
      trace s1 = trace s ++ [EvNode "call_model"; EvModel h] /\
      history s1 thread_id = h
  | (inr response, _) =>
      let reply := AIMessage (ai_content response) (ai_tool_calls response) in
      exists tool_events,
        forallb backend_event tool_events = true /\
        trace s1 = trace s ++ [EvNode "call_model"; EvModel h; EvNode "call_tool"]
                     ++ tool_events /\
        history s1 thread_id = h ++ [reply] /\
        forall final, r = inr final ->
          messages final = h ++ [reply] /\
          exists outs sa sb,
            tool_output final = Some (Py.str (PList outs)) /\
            stored_tool_output s1 thread_id = Some (Py.str (PList outs)) /\
            length outs = length (ai_tool_calls response) /\
            Dispatched (ai_tool_calls response) sa outs sb
  end.
Proof.
  intros Hrun h. rewrite app_agent_invoke_run in Hrun. fold h in Hrun.
  destruct (llm_with_tools_invoke h (world s)) as [[e | response] w].
  - injection Hrun as <- <-. cbn [trace memory]. repeat split.
    unfold history. cbn [memory]. now rewrite lookup_insert_eq.
  - cbv zeta in Hrun.
    match type of Hrun with
    | context [main.for_each_tool_call _ _ ?s0] =>
        destruct (main.for_each_tool_call (ai_tool_calls response) [] s0)
          as [[e | outs] s2] eqn:Hloop;
        destruct (leaves_for_each_tool_call _ _ _ _ _ Hloop) as [Hmem (evs & Htr & Hevs)]
    end; cbn [memory trace] in Hmem, Htr; rewrite <- app_assoc in Htr;
      injection Hrun as <- <-;
      exists evs; (split; [exact Hevs |]).
    + split; [exact Htr |]. split.
      * unfold history. rewrite Hmem, lookup_insert_eq. reflexivity.
      * discriminate.
    + cbn [trace memory]. split; [exact Htr |]. split.
      * unfold history. cbn [memory]. rewrite lookup_insert_eq. reflexivity.
      * intros final [= <-]. split; [reflexivity |].
        apply for_each_tool_call_returns in Hloop as (outs' & -> & HD). cbn [app].
        exists outs'. do 2 eexists. split; [reflexivity |]. split; [| split].
        -- unfold stored_tool_output. cbn [memory]. now rewrite lookup_insert_eq.
        -- exact (Dispatched_length _ _ _ _ HD).
        -- exact HD.
Qed.

(** A turn in which the model answered: the tool node starts in the state
    [sa] that the model node left, dispatches from there to [sb], and the
    turn ends where the dispatch ended. *)
Lemma turn_dispatch text thread_id s response w r s1 :
  let h := history s thread_id ++ [HumanMessage text] in
  llm_with_tools_invoke h (world s) = (inr response, w) ->
  main.app_agent_invoke (user_turn text) thread_id s = (r, s1) ->
  exists sa sb tool_events,
    world sa = w /\
    trace sa = trace s ++ [EvNode "call_model"; EvModel h; EvNode "call_tool"] /\
    trace sb = trace sa ++ tool_events /\
    forallb backend_event tool_events = true /\
    trace s1 = trace sb /\ world s1 = world sb /\
    match r with
    | inr final =>
        exists outs,
          Dispatched (ai_tool_calls response) sa outs sb /\
          messages final
          = h ++ [AIMessage (ai_content response) (ai_tool_calls response)] /\
          tool_output final = Some (Py.str (PList outs)) /\
          stored_tool_output s1 thread_id = Some (Py.str (PList outs))
    | inl e => main.for_each_tool_call (ai_tool_calls response) [] sa = (inl e, sb)
    end.
Proof.
  intros h Hllm Hrun. rewrite app_agent_invoke_run in Hrun. fold h in Hrun.
  rewrite Hllm in Hrun. cbv zeta in Hrun.
  match type of Hrun with
  | context [main.for_each_tool_call _ _ ?s0] =>
      exists s0;
      destruct (main.for_each_tool_call (ai_tool_calls response) [] s0)
        as [[e | outs] s2] eqn:Hloop;
      destruct (leaves_for_each_tool_call _ _ _ _ _ Hloop) as [Hmem (evs & Htr & Hevs)]
  end; injection Hrun as <- <-; exists s2, evs; cbn [world trace memory] in *.
  - repeat split; assumption.
  - repeat split; try assumption.
    apply for_each_tool_call_returns in Hloop as (outs' & -> & HD). cbn [app].
    exists outs'. split; [exact HD |]. split; [reflexivity |]. split; [reflexivity |].
    unfold stored_tool_output. cbn [memory]. now rewrite lookup_insert_eq.
Qed.

(** C8, as amended.  A turn invokes the model once, as the first thing the
    graph does, and never again.  When the invocation raises, the turn ends
    there and the tool node does not run.  When it returns, the tool node
    runs once, straight after it, and nothing but the tools' own calls to the
    backend follows.  A run that reaches the end of the graph has resolved
    the requests of the model's message into the stored tool output: its
    entries are what dispatching the requests, in their order, returned,
    starting from what the model's invocation left, and the backend calls of
    the turn are those of that dispatch.  The run does reach the end when
    every request passes the signature check of its tool. *)
Theorem one_model_call_then_one_tool_dispatch (text thread_id : string) (s : Sys World)
    (r : result AgentState) (s1 : Sys World) :
  main.app_agent_invoke (user_turn text) thread_id s = (r, s1) ->
  let h := history s thread_id ++ [HumanMessage text] in
  let answer := llm_with_tools_invoke h (world s) in
  exists new tool_events,
    trace s1 = trace s ++ new /\
    forallb backend_event tool_events = true /\
    new = EvNode "call_model" :: EvModel h ::
            (if is_ok answer.1 then EvNode "call_tool" :: tool_events else []) /\
    model_calls new = 1%nat /\
    node_runs "call_model" new = 1%nat /\
    node_runs "call_tool" new = (if is_ok answer.1 then 1%nat else 0%nat) /\
    (forall e, answer.1 = inl e -> r = inl e) /\
    (forall response, answer.1 = inr response ->
       (forall final, r = inr final ->
          exists outs sa sb,
            last (messages final)
            = Some (AIMessage (ai_content response) (ai_tool_calls response)) /\
            Dispatched (ai_tool_calls response) sa outs sb /\
            world sa = answer.2 /\
            trace sb = trace sa ++ tool_events /\
            world s1 = world sb /\
            tool_output final = Some (Py.str (PList outs)) /\
            stored_tool_output s1 thread_id = Some (Py.str (PList outs)) /\
            length outs = length (ai_tool_calls response) /\
            forall i tc, ai_tool_calls response !! i = Some tc ->
              exists out sx sy, outs !! i = Some out /\ Answered tc sx out sy) /\
       (forallb accepts (ai_tool_calls response) = true -> is_ok r = true)).
Proof.
  intros Hrun h answer. subst answer.
  destruct (llm_with_tools_invoke h (world s)) as [[e | response] w] eqn:Hllm;
    cbn [fst snd is_ok].
  - pose proof (turn_outcome _ _ _ _ _ Hrun) as Hout. fold h in Hout. cbv zeta in Hout.
    rewrite Hllm in Hout. destruct Hout as (-> & Htr & _).
    exists [EvNode "call_model"; EvModel h], []. repeat split; try assumption.
    + now intros e0 [= <-].
    + discriminate.
    + discriminate.
  - destruct (turn_dispatch _ _ _ _ _ _ _ Hllm Hrun)
      as (sa & sb & evs & Hw & Htsa & Htsb & Hevs & Hts1 & Hws1 & Hr).
    destruct (backend_events_counts evs Hevs) as [Hm Hn].
    exists ([EvNode "call_model"; EvModel h; EvNode "call_tool"] ++ evs), evs.
    split; [now rewrite Hts1, Htsb, Htsa, <- app_assoc |].
    split; [exact Hevs |]. split; [reflexivity |].
    unfold model_calls, node_runs in *.
    cbn [app List.filter String.eqb Ascii.eqb Bool.eqb length].
    rewrite Hm. rewrite !Hn.
    split; [reflexivity |]. split; [reflexivity |]. split; [reflexivity |].
    split; [discriminate |].
    intros response0 [= <-]. split.
    + intros final ->. destruct Hr as (outs & HD & Hmsgs & Hout & Hst).
      exists outs, sa, sb.
      rewrite Hmsgs, last_snoc. repeat split; try assumption.
      * exact (Dispatched_length _ _ _ _ HD).
      * intros i tc Hi. exact (Dispatched_answered _ _ _ _ i tc HD Hi).
    + intros Hacc.
      destruct (turn_accepted text thread_id s _ _ Hllm Hacc)
        as (outs & final & s2 & _ & _ & Hrun2 & _).
      rewrite Hrun2 in Hrun. now injection Hrun as <- _.
Qed.

(** C10, as amended.  Whatever the outcome of a turn, the model is invoked
    on the thread's history followed by the user's message, and the history
    that the thread keeps afterwards is that list followed by the model's
    message when the model returned one, and by nothing else: two messages
    more when the model answered, only the user's when its invocation
    raised.  The tools' results, which are what dispatching the requests
    returned, go to [tool_output] only, so the model invocation of the next
    turn on the thread is given those messages and the next user message,
    and no result of a tool. *)
Theorem history_gains_user_and_model_messages (text thread_id : string) (s : Sys World)
    (r : result AgentState) (s1 : Sys World) :
  main.app_agent_invoke (user_turn text) thread_id s = (r, s1) ->
  let h := history s thread_id ++ [HumanMessage text] in
  let answer := llm_with_tools_invoke h (world s) in
  let said :=
    match answer.1 with
    | inr response => [AIMessage (ai_content response) (ai_tool_calls response)]
    | inl _ => []
    end in
  (exists evs, trace s1 = trace s ++ EvNode "call_model" :: EvModel h :: evs /\
               model_calls evs = 0%nat) /\
  history s1 thread_id = history s thread_id ++ HumanMessage text :: said /\
  (forall e, answer.1 = inl e ->
     r = inl e /\ history s1 thread_id = history s thread_id ++ [HumanMessage text]) /\
  (forall response, answer.1 = inr response ->
     history s1 thread_id
     = history s thread_id ++
         [HumanMessage text; AIMessage (ai_content response) (ai_tool_calls response)] /\
     forall final, r = inr final ->
       messages final = history s1 thread_id /\
       exists outs sa sb,
         Dispatched (ai_tool_calls response) sa outs sb /\
         world sa = answer.2 /\ world s1 = world sb /\
         tool_output final = Some (Py.str (PList outs)) /\
         stored_tool_output s1 thread_id = Some (Py.str (PList outs)) /\
         forall i tc, ai_tool_calls response !! i = Some tc ->
           exists out sx sy, outs !! i = Some out /\ Answered tc sx out sy) /\
  (forall text2 r2 s2,
     main.app_agent_invoke (user_turn text2) thread_id s1 = (r2, s2) ->
     exists evs,
       trace s2 = trace s1 ++
         EvNode "call_model" ::
         EvModel (history s thread_id ++ HumanMessage text :: said ++ [HumanMessage text2])
         :: evs /\
       model_calls evs = 0%nat).
Proof.
  intros Hrun h answer said.
  assert (Hmodel : forall t th (s0 : Sys World) r0 s0',
             main.app_agent_invoke (user_turn t) th s0 = (r0, s0') ->
             exists evs, trace s0' = trace s0 ++
                           EvNode "call_model" :: EvModel (history s0 th ++ [HumanMessage t]) :: evs /\
                         model_calls evs = 0%nat).
  { intros t th s0 r0 s0' H0. pose proof (turn_outcome _ _ _ _ _ H0) as Ho.
    cbv zeta in Ho.
    destruct (llm_with_tools_invoke _ (world s0)) as [[e | response] w].
    - destruct Ho as (_ & Htr & _). exists []. now split.
    - destruct Ho as (evs & Hevs & Htr & _).
      exists (EvNode "call_tool" :: evs). split; [exact Htr |].
      destruct (backend_events_counts evs Hevs) as [Hm _].
      unfold model_calls in *. cbn. exact Hm. }
  pose proof (turn_outcome _ _ _ _ _ Hrun) as Hout. fold h in Hout. cbv zeta in Hout.
  assert (Hhist : history s1 thread_id = history s thread_id ++ HumanMessage text :: said).
  { subst said answer.
    destruct (llm_with_tools_invoke h (world s)) as [[e | response] w]; cbn [fst].
    - destruct Hout as (_ & _ & ->). reflexivity.
    - destruct Hout as (evs & _ & _ & -> & _). unfold h. now rewrite <- app_assoc. }
  split; [exact (Hmodel _ _ _ _ _ Hrun) |]. split; [exact Hhist |].
  subst said answer.
  destruct (llm_with_tools_invoke h (world s)) as [[e | response] w] eqn:Hllm;
    cbn [fst snd] in *.
  - split; [| split; [discriminate |]].
    + intros e0 [= <-]. destruct Hout as (-> & _). now split.
    + intros text2 r2 s2 Hrun2.
      destruct (Hmodel _ _ _ _ _ Hrun2) as (evs & Htr & Hm).
      exists evs. split; [| exact Hm]. rewrite Htr, Hhist. now rewrite <- !app_assoc.
  - split; [discriminate |]. split.
    + intros response0 [= <-]. split; [exact Hhist |].
      intros final ->.
      destruct (turn_dispatch _ _ _ _ _ _ _ Hllm Hrun)
        as (sa & sb & evs & Hw & _ & _ & _ & _ & Hws1 & outs & HD & Hmsgs & Ho & Hst).
      split.
      * rewrite Hmsgs, Hhist. unfold h. now rewrite <- app_assoc.
      * exists outs, sa, sb. repeat split; try assumption.
        intros i tc Hi. exact (Dispatched_answered _ _ _ _ i tc HD Hi).
    + intros text2 r2 s2 Hrun2.
      destruct (Hmodel _ _ _ _ _ Hrun2) as (evs & Htr & Hm).
      exists evs. split; [| exact Hm].
      rewrite Htr, Hhist. now rewrite <- !app_assoc.
Qed.

End Outcome.

(** ** The entries of the stored tool output *)

Section Requests.
Context {World : Type} {E : Externals World}.
Implicit Types s : Sys World.

(** The entries of a run that reached the end of the graph. *)
Lemma stored_entries text thread_id s response w final s1 :
  llm_with_tools_invoke (history s thread_id ++ [HumanMessage text]) (world s)
    = (inr response, w) ->
  main.app_agent_invoke (user_turn text) thread_id s = (inr final, s1) ->
  exists outs sa sb,
    tool_output final = Some (Py.str (PList outs)) /\
    stored_tool_output s1 thread_id = Some (Py.str (PList outs)) /\
    length outs = length (ai_tool_calls response) /\
    Dispatched (ai_tool_calls response) sa outs sb.
Proof.
  intros Hllm Hrun. pose proof (turn_outcome _ _ _ _ _ Hrun) as Hout.
  cbv zeta in Hout. rewrite Hllm in Hout.
  destruct Hout as (evs & _ & _ & _ & Hfinal).
  destruct (Hfinal final eq_refl) as (_ & outs & sa & sb & H). eauto.
Qed.


(** C3, as amended.  A request whose tool name is neither of the two
    adapters' is answered with the literal error string, without raising and
    without touching anything.  In a turn that holds such a request the
    endpoint returns a reply; whenever the graph run of the turn ends
    normally, the stored tool output has that string at the request's place;
    and the run does end normally when the turn's requests pass their
    signature checks, which a request for an unknown tool always does. *)
Theorem unknown_tool_yields_error_string (req : main.ChatRequest) (s : Sys World)
    (response : AIResponse) (w : World) (i : nat) (tc : ToolCall) :
  main.message req <> EmptyString ->
  llm_with_tools_invoke
    (history s (main.session_id req) ++ [HumanMessage (main.message req)]) (world s)
    = (inr response, w) ->
  ai_tool_calls response !! i = Some tc ->
  known_tool (tc_name tc) = false ->
  (forall s0 : Sys World,
      main.dispatch tc s0 = (inr (PStr ("Error: Unknown tool " +:+ tc_name tc)), s0)) /\
  accepts tc = true /\
  (exists reply s1, main.chat_endpoint req s = (inr reply, s1)) /\
  (forall final s1,
      main.app_agent_invoke (user_turn (main.message req)) (main.session_id req) s
        = (inr final, s1) ->
      exists outs reply,
        main.chat_endpoint req s = (inr reply, s1) /\
        stored_tool_output s1 (main.session_id req) = Some (Py.str (PList outs)) /\
        length outs = length (ai_tool_calls response) /\
        outs !! i = Some (PStr ("Error: Unknown tool " +:+ tc_name tc))) /\
  (forallb accepts (ai_tool_calls response) = true ->
   exists final s1,
     main.app_agent_invoke (user_turn (main.message req)) (main.session_id req) s
       = (inr final, s1)).
Proof.
  intros Hmsg Hllm Hi Hunknown.
  split; [intros s0; now apply dispatch_unknown |].
  split.
  { destruct (known_tool_false _ Hunknown) as [H1 H2]. unfold accepts. now rewrite H1, H2. }
  split; [apply chat_endpoint_returns |]. split.
  - intros final s1 Hrun.
    destruct (stored_entries _ _ _ _ _ _ _ Hllm Hrun)
      as (outs & sa & sb & _ & Hst & Hlen & HD).
    destruct (chat_endpoint_after_turn req s _ s1 Hmsg Hrun) as [reply Hreply].
    exists outs, reply. repeat split; try assumption.
    destruct (Dispatched_lookup _ _ _ _ i tc HD Hi) as (out & sx & sy & Ho & Hd).
    rewrite (dispatch_unknown tc sx Hunknown) in Hd. congruence.
  - intros Hacc.
    destruct (turn_accepted _ _ s response w Hllm Hacc)
      as (outs & final & s1 & sa & sb & Hrun & _).
    eauto.
Qed.

End Requests.

(** ** What the adapters send to the backend *)

Section Payload.
Context {World : Type} {E : Externals World}.
Implicit Types s : Sys World.

Lemma event_body_time_zones summary description start_time end_time attendees :
  let body := google_calendar.event_body summary description start_time end_time attendees in
  field2 body "start" "timeZone" = Some (PStr "Asia/Kolkata") /\
  field2 body "end" "timeZone" = Some (PStr "Asia/Kolkata") /\
  field2 body "start" "dateTime" = Some (PStr (isoformat start_time)) /\
  field2 body "end" "dateTime" = Some (PStr (isoformat end_time)).
Proof. destruct attendees as [[| a l] |]; repeat split. Qed.

(** The client's insert sends its event body once, whatever comes back. *)
Lemma create_calendar_event_trace summary description start_time end_time attendees s r s1 :
  google_calendar.create_calendar_event summary description start_time end_time attendees s
    = (r, s1) ->
  trace s1 = trace s ++
    [EvInsert "primary"
       (google_calendar.event_body summary description start_time end_time attendees) true].
Proof.
  unfold google_calendar.create_calendar_event, try_except, bind, remote.
  destruct (events_insert _ _ _ (world s)) as [[e | event] w].
  - destruct (is_HttpError e); intros [= <- <-]; reflexivity.
  - cbn [lift]. destruct (py_get event "htmlLink" PNone) as [e | link]; cbn.
    + destruct (is_HttpError e); intros [= <- <-]; reflexivity.
    + intros [= <- <-]. reflexivity.
Qed.

Lemma check_calendar_availability_trace start_time end_time s r s1 :
  google_calendar.check_calendar_availability start_time end_time s = (r, s1) ->
  trace s1 = trace s ++ [EvFreeBusy (google_calendar.freebusy_body start_time end_time)].
Proof.
  unfold google_calendar.check_calendar_availability, try_except, bind, remote.
  destruct (freebusy_query _ (world s)) as [[e | result] w].
  - destruct (is_HttpError e); intros [= <- <-]; reflexivity.
  - cbn [lift].
    destruct (py_get result "calendars" (PDict [])) as [e | calendars]; cbn;
      [destruct (is_HttpError e); intros [= <- <-]; reflexivity |].
    destruct (py_get calendars "primary" (PDict [])) as [e | primary]; cbn;
      [destruct (is_HttpError e); intros [= <- <-]; reflexivity |].
    destruct (py_get primary "busy" (PList [])) as [e | busy]; cbn;
      [destruct (is_HttpError e); intros [= <- <-]; reflexivity |].
    intros [= <- <-]. reflexivity.
Qed.

(** C9.  All that the event adapter sends to the backend is, when its zone
    parses and both datetimes parse and can be moved to that zone, one
    insert of the event body built from the two moved datetimes, and
    otherwise nothing; in that body the [timeZone] of [start] and of [end]
    is the constant ['Asia/Kolkata'], whatever [timezone_str] is, which shows
    only in the [dateTime] texts. *)
Theorem event_payload_time_zone_is_constant
    (summary description start_time_str end_time_str : string)
    (attendees : option (list string)) (timezone_str : string)
    (s : Sys World) (r : result pyval) (s1 : Sys World) :
  agent_tools.create_calendar_event_tool summary description start_time_str end_time_str
    attendees timezone_str s = (r, s1) ->
  exists sent,
    trace s1 = trace s ++ sent /\
    sent =
      match pytz_timezone timezone_str with
      | inr tz =>
          match moved tz start_time_str, moved tz end_time_str with
          | inr start_time, inr end_time =>
              [EvInsert "primary"
                 (google_calendar.event_body summary description start_time end_time
                    attendees) true]
          | _, _ => []
          end
      | inl _ => []
      end /\
    forall calendarId body notify,
      In (EvInsert calendarId body notify) sent ->
      field2 body "start" "timeZone" = Some (PStr "Asia/Kolkata") /\
      field2 body "end" "timeZone" = Some (PStr "Asia/Kolkata") /\
      exists tz start_time end_time,
        pytz_timezone timezone_str = inr tz /\
        moved tz start_time_str = inr start_time /\
        moved tz end_time_str = inr end_time /\
        field2 body "start" "dateTime" = Some (PStr (isoformat start_time)) /\
        field2 body "end" "dateTime" = Some (PStr (isoformat end_time)).
Proof.
  rewrite create_tool_run. intros Hrun.
  destruct (pytz_timezone timezone_str) as [e | tz] eqn:Hz.
  { injection Hrun as <- <-. exists []. rewrite app_nil_r. now repeat split. }
  destruct (moved tz start_time_str) as [e | start_time] eqn:Hs.
  { injection Hrun as <- <-. exists []. rewrite app_nil_r. now repeat split. }
  destruct (moved tz end_time_str) as [e | end_time] eqn:He.
  { injection Hrun as <- <-. exists []. rewrite app_nil_r. now repeat split. }
  destruct (google_calendar.create_calendar_event summary description _ _ attendees s)
    as [r0 s0] eqn:Hcall.
  apply create_calendar_event_trace in Hcall.
  eexists. split; [| split; [reflexivity |]].
  - destruct r0 as [e | event]; injection Hrun as <- <-; exact Hcall.
  - intros calendarId body notify [[= <- <- <-] | []].
    destruct (event_body_time_zones summary description start_time end_time attendees)
      as (H1 & H2 & H3 & H4).
    split; [exact H1 |]. split; [exact H2 |].
    exists tz, start_time, end_time. repeat split; assumption.
Qed.

(** The instant a naive datetime stands for after [astimezone]: its clock
    reading taken on the machine's local time, whatever the zone asked
    for. *)
Lemma naive_instant tz dt offset moved_dt :
  tzinfo dt = None ->
  local_utcoffset (wall dt) = inr offset ->
  astimezone local_utcoffset tz dt = inr moved_dt ->
  Datetime.timestamp moved_dt = Some (wall dt - offset).
Proof.
  intros Hnaive Hlocal. unfold astimezone. rewrite Hnaive, Hlocal. cbv zeta.
  destruct (in_range (wall dt - offset)); [| discriminate].
  destruct (in_range _); [| discriminate].
  intros [= <-]. unfold Datetime.timestamp. cbn. f_equal. lia.
Qed.

(** The instants the availability adapter asks the backend about. *)
Lemma check_tool_query start_time_str end_time_str timezone_str tz start_time end_time
    s r s1 :
  pytz_timezone timezone_str = inr tz ->
  moved tz start_time_str = inr start_time ->
  moved tz end_time_str = inr end_time ->
  agent_tools.check_calendar_availability_tool start_time_str end_time_str timezone_str s
    = (r, s1) ->
  trace s1 = trace s ++
    [EvFreeBusy (google_calendar.freebusy_body start_time end_time)].
Proof.
  intros Hz Hs He. rewrite check_tool_run, Hz, Hs, He.
  destruct (google_calendar.check_calendar_availability _ _ s) as [r0 s0] eqn:Hcall.
  apply check_calendar_availability_trace in Hcall.
  destruct r0 as [e | busy]; intros [= <- <-]; exact Hcall.
Qed.

(** No raw tool output is rendered with the "no busy slots" text: the branch
    that holds it is inside the test that the tool data is not empty. *)
Lemma no_busy_slots_is_never_rendered raw s r s1 :
  main.format_tool_output raw s = (r, s1) -> r <> inr main.no_busy_slots.
Proof.
  unfold main.format_tool_output, try_except, bind.
  destruct (literal_eval raw) as [e | tool_data]; cbn [lift].
  { unfold raise. destruct (is_ValueError_or_SyntaxError e); intros [= <- <-]; discriminate. }
  unfold ret at 1.
  destruct (Py.truthy tool_data) eqn:Htruthy; [| intros [= <- <-]; discriminate].
  destruct (main.first_event tool_data) as [event |].
  - repeat match goal with
           | |- context [lift (py_get ?a ?b ?c)] =>
               destruct (py_get a b c) as [e | ?]; cbn [lift];
               [unfold raise; destruct (is_ValueError_or_SyntaxError e);
                intros [= <- <-]; discriminate | unfold ret at 1]
           end.
    intros [= <- <-]. discriminate.
  - destruct tool_data; try (intros [= <- <-]; discriminate).
    destruct (forallb main.is_slot items); [| intros [= <- <-]; discriminate].
    destruct items as [| item rest]; [discriminate Htruthy |]. cbn [Py.truthy].
    destruct (main.slot_lines (item :: rest)) as [e | lines]; cbn [lift].
    + unfold raise. destruct (is_ValueError_or_SyntaxError e); intros [= <- <-]; discriminate.
    + intros [= <- <-]. discriminate.
Qed.

End Payload.

(** ** The code on concrete turns *)

Section Concrete.
Import Examples.

Example repr_sample :
  Py.repr (PList [PList []; PStr "it's"; PInt (-12); PDict [("ok", PBool true)]; PNone])
  = "[[], " +:+ String Chars.dquote "it's" +:+ String Chars.dquote ", -12, {'ok': True}, None]".
Proof. reflexivity. Qed.

Example literal_eval_reads_repr : literal_eval (Py.repr sample) = inr sample.
Proof. vm_compute. reflexivity. Qed.

Example literal_eval_refuses :
  is_ok (literal_eval "[1, 2") = false /\ is_ok (literal_eval "print(1)") = false /\
  is_ok (literal_eval "[,]") = false /\ literal_eval " [1, 2,] " = inr (PList [PInt 1; PInt 2]).
Proof. vm_compute. repeat split. Qed.

Example isoformat_sample :
  isoformat <$> Scripted.iso_seconds "2024-02-29T23:59:59+05:30"
  = Some "2024-02-29T23:59:59+05:30".
Proof. vm_compute. reflexivity. Qed.

(** [isoformat] writes a fraction of a second and the seconds of an offset
    when they are there. *)
Example isoformat_fraction :
  isoformat {| wall := 1750845600500000;
               tzinfo := Some (Scripted.offset_zone 19815000000) |}
  = "2025-06-25T10:00:00.500000+05:30:15".
Proof. vm_compute. reflexivity. Qed.

(** The last second of the year 9999 cannot be moved five and a half hours
    ahead: on a machine on UTC both adapters give their neutral value and
    call no backend. *)
Example last_second_cannot_be_moved :
  let checked :=
    agent_tools.check_calendar_availability_tool (E := on_utc)
      "9999-12-31T23:59:59" "9999-12-31T23:59:59" "Asia/Kolkata"
      (Scripted.start busy_hour) in
  let created :=
    agent_tools.create_calendar_event_tool (E := on_utc)
      "Call" "Weekly sync" "9999-12-31T23:59:59" "9999-12-31T23:59:59" None "Asia/Kolkata"
      (Scripted.start booking) in
  checked = (inr (PList []), Scripted.start busy_hour) /\
  created = (inr (PDict []), Scripted.start booking).
Proof. vm_compute. split; reflexivity. Qed.

(** [repr] escapes what is not printable, also above ASCII: the no-break
    space is, the inverted exclamation mark is not. *)
Example repr_escapes_unprintable :
  Py.repr (PStr (String (ascii_of_nat 160) (String (ascii_of_nat 161) EmptyString)))
  = String Chars.squote
      (String Chars.backslash ("xa0" +:+ String (ascii_of_nat 161)
                                 (String Chars.squote EmptyString))).
Proof. vm_compute. reflexivity. Qed.

Example empty_message_reply :
  (main.chat_endpoint (E := in_india) (ask EmptyString) (Scripted.start small_talk)).1
  = inr "Please provide a message.".
Proof. reflexivity. Qed.

(** A booking: the session gains the user's and the model's messages, the
    event goes to the backend with its attendee, and the reply shows the
    created event with its link. *)
Example booking_reply :
  let run := main.chat_endpoint (E := in_india)
               (ask "Book a call with alice@x.com tomorrow 3-3:30pm IST")
               (Scripted.start booked) in
  match run.1 with
  | inr reply =>
      str_contains "Event Created Successfully" reply = true /\
      str_contains "[Click here](https://calendar.example/ev1)" reply = true
  | inl _ => False
  end /\
  length (history run.2 "s1") = 2%nat /\
  (exists body, last (trace run.2) = Some (EvInsert "primary" body true) /\
                field2 body "start" "dateTime" = Some (PStr "2025-06-25T15:00:00+05:30") /\
                Py.lookup "attendees" (match body with PDict d => d | _ => [] end)
                = Some (PList [PDict [("email", PStr "alice@x.com")]])).
Proof.
  vm_compute. split; [split; reflexivity |]. split; [reflexivity |].
  eexists. split; [reflexivity |]. split; reflexivity.
Qed.

(** An hour with a meeting in it: the adapter's list of busy slots arrives
    inside the list of results, and is rendered raw as well. *)
Example busy_hour_reply :
  (main.chat_endpoint (E := in_india) am_i_free (Scripted.start busy_hour)).1
  = inr ("Let me check your calendar." +:+
         main.raw_tool_output
           "[[{'start': '2025-06-25T04:30:00Z', 'end': '2025-06-25T05:00:00Z'}]]").
Proof. vm_compute. reflexivity. Qed.

(** C5.  The user asks whether an hour is free and the backend reports
    nothing busy: the adapter returns the empty list, the stored tool output
    is the text of a list holding that empty list, and the endpoint renders
    it with the raw template; the reply does not say that the user appears
    to be free. *)
Theorem free_hour_is_rendered_raw :
  let run := main.chat_endpoint (E := in_india) am_i_free (Scripted.start free_hour) in
  run.1 = inr ("Let me check your calendar." +:+ main.raw_tool_output "[[]]") /\
  stored_tool_output run.2 "s1" = Some "[[]]" /\
  match run.1 with
  | inr reply => str_contains "You appear to be free" reply = false
  | inl _ => False
  end.
Proof. vm_compute. repeat split. Qed.

(** C6.  On a server whose clock is on UTC, a start of ten o'clock with no
    zone, asked about in the zone Asia/Kolkata, is sent to the backend as
    half past three in the afternoon in Kolkata, ten o'clock UTC, and not as
    ten o'clock in Kolkata, which is what attaching the zone gives. *)
Theorem naive_start_is_read_on_the_server_clock :
  let run :=
    agent_tools.check_calendar_availability_tool (E := on_utc)
      "2025-06-25T10:00:00" "2025-06-25T11:00:00" "Asia/Kolkata"
      (Scripted.start free_hour) in
  trace run.2 =
    [EvFreeBusy (PDict [("timeMin", PStr "2025-06-25T15:30:00+05:30");
                        ("timeMax", PStr "2025-06-25T16:30:00+05:30");
                        ("items", PList [PDict [("id", PStr "primary")]])])] /\
  match localize Scripted.kolkata <$> Scripted.iso_seconds "2025-06-25T10:00:00" with
  | Some (inr attached) => isoformat attached = "2025-06-25T10:00:00+05:30"
  | _ => False
  end.
Proof. vm_compute. split; reflexivity. Qed.


(** C3 as stated fails.  The model asks for a tool that does not exist and
    then for the availability tool with no argument: the second request is
    refused by the tool's signature, the turn is aborted, the error string
    of the first request is recorded nowhere, and the caller gets the
    apology. *)
Lemma unknown_tool_result_is_lost_with_a_refused_request :
  let s := Scripted.start mail_then_refused in
  let turn := main.app_agent_invoke (E := on_utc) (user_turn "Mail Alice") "s1" s in
  let run := main.chat_endpoint (E := on_utc) (ask "Mail Alice") s in
  ai_tool_calls unknown_then_no_arguments !! 0%nat = Some send_email /\
  known_tool (tc_name send_email) = false /\
  match turn.1 with
  | inl e => exn_cls e = ValidationError
  | inr _ => False
  end /\
  stored_tool_output run.2 "s1" = None /\
  match run.1 with
  | inr reply => str_prefix "Sorry, an internal error occurred: " reply = true
  | inl _ => False
  end.
Proof. vm_compute. repeat split. Qed.

(** C8 as stated fails.  When the tool's signature refuses the request, the
    turn ends with the model's message and its request in the history and
    no tool output for it; and when the model's invocation raises, the tool
    node does not run at all. *)
Lemma refused_request_is_left_unresolved :
  let refused :=
    main.app_agent_invoke (E := on_utc) (user_turn "Am I free?") "s1"
      (Scripted.start no_arguments) in
  let failed :=
    main.app_agent_invoke (E := on_utc) (user_turn "Am I free?") "s1"
      (Scripted.start model_down) in
  is_ok refused.1 = false /\
  last (history refused.2 "s1")
  = Some (AIMessage "Checking." (ai_tool_calls check_without_arguments)) /\
  length (ai_tool_calls check_without_arguments) = 1%nat /\
  stored_tool_output refused.2 "s1" = None /\
  node_runs "call_tool" (trace refused.2) = 1%nat /\
  failed.1 = inl quota /\
  node_runs "call_tool" (trace failed.2) = 0%nat.
Proof. vm_compute. repeat split. Qed.

(** C10 as stated fails.  When the model's invocation raises, the history
    of the session gains the user's message and nothing else. *)
Lemma failed_model_call_adds_the_user_message_only :
  let run :=
    main.app_agent_invoke (E := on_utc) (user_turn "Am I free?") "s1"
      (Scripted.start model_down) in
  history (Scripted.start model_down) "s1" = [] /\
  run.1 = inl quota /\
  history run.2 "s1" = [HumanMessage "Am I free?"].
Proof. vm_compute. repeat split. Qed.

End Concrete.

(** ** The theorems at work on the concrete turns *)

Section Witnesses.
Import Examples.

(** A start that is not a date, and a backend that times out. *)
Lemma adapters_degrade_to_neutral_witness :
  (exists s1,
      agent_tools.check_calendar_availability_tool (E := on_utc)
        "not-a-date" "2025-06-25T11:00:00" "Asia/Kolkata" (Scripted.start free_hour)
      = (inr (PList []), s1)) /\
  (exists s1,
      agent_tools.create_calendar_event_tool (E := on_utc)
        "Call" "Weekly sync" "2025-06-25T10:00:00" "2025-06-25T10:30:00" None "UTC"
        (Scripted.start backend_down)
      = (inr (PDict []), s1)).
Proof.
  split.
  - destruct (adapters_degrade_to_neutral (E := on_utc)
                "Call" "Weekly sync" "not-a-date" "2025-06-25T11:00:00" "Asia/Kolkata"
                None (Scripted.start free_hour)) as [(v & s1 & Hrun & Hv) _].
    exists s1. rewrite <- Hv; [exact Hrun |].
    eapply check_start. vm_compute. reflexivity.
  - destruct (adapters_degrade_to_neutral (E := on_utc)
                "Call" "Weekly sync" "2025-06-25T10:00:00" "2025-06-25T10:30:00" "UTC"
                None (Scripted.start backend_down)) as [_ (v & s1 & Hrun & Hv)].
    exists s1. rewrite <- Hv; [exact Hrun |].
    eapply create_backend;
      [vm_compute; reflexivity | vm_compute; reflexivity | vm_compute; reflexivity
      | vm_compute; reflexivity].
Defined.

Lemma no_tool_calls_reply_verbatim_witness :
  exists s1,
    main.chat_endpoint (E := on_utc) (ask "Hi") (Scripted.start small_talk)
    = (inr (ai_content greeting), s1) /\
    stored_tool_output s1 "s1" = Some "[]" /\
    literal_eval "[]" = inr (PList []).
Proof.
  eapply (no_tool_calls_reply_verbatim (E := on_utc) (ask "Hi") (Scripted.start small_talk)
            greeting).
  - discriminate.
  - vm_compute. reflexivity.
  - reflexivity.
Defined.


Lemma unknown_tool_yields_error_string_witness :
  exists outs reply s1,
    main.chat_endpoint (E := on_utc) (ask "Mail Alice") (Scripted.start two_requests)
    = (inr reply, s1) /\
    stored_tool_output s1 "s1" = Some (Py.str (PList outs)) /\
    outs !! 0%nat = Some (PStr "Error: Unknown tool send_email_tool").
Proof.
  destruct (unknown_tool_yields_error_string (E := on_utc) (ask "Mail Alice")
              (Scripted.start two_requests) unknown_then_bad_date
              (Scripted.next_model two_requests).2 0 send_email)
    as (_ & _ & _ & Hentries & Hends).
  - discriminate.
  - vm_compute. reflexivity.
  - reflexivity.
  - reflexivity.
  - destruct Hends as (final & s1 & Hrun); [vm_compute; reflexivity |].
    destruct (Hentries final s1 Hrun) as (outs & reply & Hreply & Hst & _ & Hout).
    exists outs, reply, s1. repeat split; assumption.
Defined.

Lemma chat_endpoint_never_raises_witness :
  exists s1,
    main.chat_endpoint (E := on_utc) (ask "Am I free?") (Scripted.start model_down)
    = (inr "Sorry, an internal error occurred: 429 quota exceeded", s1).
Proof.
  destruct (chat_endpoint_never_raises (E := on_utc) (ask "Am I free?")
              (Scripted.start model_down)) as (_ & _ & Hmodel).
  - discriminate.
  - apply (Hmodel quota (Scripted.next_model model_down).2). vm_compute. reflexivity.
Defined.

(** The hour that is free: one model call, one run of the tool node, and
    the stored output is the list of what the one request returned. *)
Lemma one_model_call_then_one_tool_dispatch_witness :
  let run :=
    main.app_agent_invoke (E := in_india) (user_turn "Am I free?") "s1"
      (Scripted.start free_hour) in
  exists new outs sa sb,
    trace run.2 = [] ++ new /\
    model_calls new = 1%nat /\
    node_runs "call_model" new = 1%nat /\
    node_runs "call_tool" new = 1%nat /\
    Dispatched (E := in_india) (ai_tool_calls check_free_hour) sa outs sb /\
    stored_tool_output run.2 "s1" = Some (Py.str (PList outs)).
Proof.
  intros run.
  destruct (one_model_call_then_one_tool_dispatch (E := in_india) "Am I free?" "s1"
              (Scripted.start free_hour) run.1 run.2)
    as (new & tool_events & Htr & _ & _ & Hm & Hn & Ht & _ & Hanswered).
  - vm_compute. reflexivity.
  - destruct (Hanswered check_free_hour) as [Hfinal _]; [reflexivity |].
    destruct run.1 as [e | final] eqn:Hrun; [vm_compute in Hrun; discriminate Hrun |].
    destruct (Hfinal final eq_refl) as (outs & sa & sb & _ & HD & _ & _ & _ & _ & Hst & _).
    exists new, outs, sa, sb. repeat split; assumption.
Defined.

Lemma history_gains_user_and_model_messages_witness :
  let run :=
    main.app_agent_invoke (E := in_india) (user_turn "Am I free?") "s1"
      (Scripted.start free_hour) in
  history run.2 "s1" =
    [] ++ [HumanMessage "Am I free?";
           AIMessage (ai_content check_free_hour) (ai_tool_calls check_free_hour)].
Proof.
  intros run.
  destruct (history_gains_user_and_model_messages (E := in_india) "Am I free?" "s1"
              (Scripted.start free_hour) run.1 run.2) as (_ & _ & _ & Hanswered & _).
  - vm_compute. reflexivity.
  - destruct (Hanswered check_free_hour) as [Hhist _]; [reflexivity |].
    exact Hhist.
Defined.

(** The caller names the zone UTC; the body still says Asia/Kolkata. *)
Lemma event_payload_time_zone_is_constant_witness :
  let run :=
    agent_tools.create_calendar_event_tool (E := in_india)
      "Call" "Weekly sync" "2025-06-25T10:00:00" "2025-06-25T10:30:00" None "UTC"
      (Scripted.start booking) in
  exists body,
    trace run.2 = [EvInsert "primary" body true] /\
    field2 body "start" "timeZone" = Some (PStr "Asia/Kolkata") /\
    field2 body "end" "timeZone" = Some (PStr "Asia/Kolkata").
Proof.
  intros run.
  destruct (event_payload_time_zone_is_constant (E := in_india)
              "Call" "Weekly sync" "2025-06-25T10:00:00" "2025-06-25T10:30:00" None "UTC"
              (Scripted.start booking) run.1 run.2) as (sent & Htr & Hsent & Hzones).
  - vm_compute. reflexivity.
  - vm_compute in Hsent. subst sent.
    eexists. split; [exact Htr |].
    match goal with
    | |- field2 ?body _ _ = _ /\ _ =>
        destruct (Hzones "primary" body true) as (Hstart & Hend & _); [now left |]
    end.
    now split.
Defined.

End Witnesses.

(** ** Sessions *)

Section Sessions.
Context {World : Type} {E : Externals World}.
Implicit Types s : Sys World.

(** A turn writes the checkpoint of its own thread only. *)
Lemma turn_memory_elsewhere text thread_id s r s1 other :
  main.app_agent_invoke (user_turn text) thread_id s = (r, s1) ->
  other <> thread_id ->
  memory s1 !! other = memory s !! other.
Proof.
  intros Hrun Hother. rewrite app_agent_invoke_run in Hrun. cbv zeta in Hrun.
  destruct (llm_with_tools_invoke _ (world s)) as [[e | response] w].
  - injection Hrun as <- <-. cbn [memory]. now rewrite lookup_insert_ne.
  - match type of Hrun with
    | context [main.for_each_tool_call _ _ ?s0] =>
        destruct (main.for_each_tool_call (ai_tool_calls response) [] s0)
          as [[e | outs] s2] eqn:Hloop;
        destruct (leaves_for_each_tool_call _ _ _ _ _ Hloop) as [Hmem _]
    end; cbn [memory] in Hmem; injection Hrun as <- <-; cbn [memory].
    + rewrite Hmem. now rewrite !lookup_insert_ne.
    + rewrite lookup_insert_ne by congruence. rewrite Hmem.
      now rewrite !lookup_insert_ne.
Qed.

(** The state the endpoint ends in is the state the graph run ended in. *)
Lemma chat_endpoint_state req s r s1 :
  main.message req <> EmptyString ->
  main.chat_endpoint req s = (r, s1) ->
  exists r0, main.app_agent_invoke (user_turn (main.message req)) (main.session_id req) s
             = (r0, s1).
Proof.
  intros Hmsg Hrun.
  destruct (main.app_agent_invoke (user_turn (main.message req)) (main.session_id req) s)
    as [r0 s0] eqn:Hturn.
  destruct (chat_endpoint_after_turn req s r0 s0 Hmsg Hturn) as [reply Hreply].
  rewrite Hreply in Hrun. injection Hrun as _ <-. eauto.
Qed.

Lemma chat_endpoint_empty req s :
  main.message req = EmptyString ->
  main.chat_endpoint req s = (inr "Please provide a message.", s).
Proof. intros Hmsg. unfold main.chat_endpoint. now rewrite Hmsg. Qed.

(** X1.  The endpoint answers an empty message with the fixed prompt and does
    nothing else: no model invocation, no checkpoint, no event.  Any other
    message starts a turn, which invokes the model exactly once. *)
Theorem empty_message_starts_no_turn (req : main.ChatRequest) (s : Sys World) :
  let run := main.chat_endpoint req s in
  (main.message req = EmptyString /\
   run = (inr "Please provide a message.", s)) \/
  (main.message req <> EmptyString /\
   exists new, trace run.2 = trace s ++ new /\ model_calls new = 1%nat).
Proof.
  intros run. subst run.
  destruct (String.eqb_spec (main.message req) EmptyString) as [Hmsg | Hmsg].
  - left. split; [exact Hmsg | now apply chat_endpoint_empty].
  - right. split; [exact Hmsg |].
    destruct (main.chat_endpoint req s) as [r s1] eqn:Hrun.
    destruct (chat_endpoint_state _ _ _ _ Hmsg Hrun) as [r0 Hturn].
    pose proof (turn_outcome _ _ _ _ _ Hturn) as Hout. cbv zeta in Hout.
    cbn [snd].
    destruct (llm_with_tools_invoke _ (world s)) as [[e | response] w].
    + destruct Hout as (_ & Htr & _). eexists. split; [exact Htr | reflexivity].
    + destruct Hout as (evs & Hevs & Htr & _).
      eexists. split; [exact Htr |].
      destruct (backend_events_counts evs Hevs) as [Hm _].
      unfold model_calls in *. cbn. now rewrite Hm.
Qed.

(** X2.  Sessions are separate: whatever a request does, the checkpoint of
    every session other than its own, history and tool output, is what it
    was. *)
Theorem other_sessions_are_untouched (req : main.ChatRequest) (s : Sys World)
    (other : string) :
  other <> main.session_id req ->
  let s1 := (main.chat_endpoint req s).2 in
  memory s1 !! other = memory s !! other /\
  history s1 other = history s other /\
  stored_tool_output s1 other = stored_tool_output s other.
Proof.
  intros Hother s1.
  assert (Hmem : memory s1 !! other = memory s !! other).
  { subst s1. destruct (String.eqb_spec (main.message req) EmptyString) as [Hmsg | Hmsg].
    - now rewrite (chat_endpoint_empty _ _ Hmsg).
    - destruct (main.chat_endpoint req s) as [r s2] eqn:Hrun. cbn [snd].
      destruct (chat_endpoint_state _ _ _ _ Hmsg Hrun) as [r0 Hturn].
      exact (turn_memory_elsewhere _ _ _ _ _ _ Hturn Hother). }
  unfold history, stored_tool_output. now rewrite Hmem.
Qed.

Lemma human_texts_app l1 l2 : human_texts (l1 ++ l2) = human_texts l1 ++ human_texts l2.
Proof.
  induction l1 as [| m l1 IH]; [reflexivity |].
  destruct m; cbn; now rewrite IH.
Qed.

(** What one request adds to the history of a session. *)
Lemma request_history req s r s1 session :
  main.chat_endpoint req s = (r, s1) ->
  exists added,
    history s1 session = history s session ++ added /\
    human_texts added = sent_to session [req].
Proof.
  intros Hrun. cbn [sent_to].
  destruct (String.eqb_spec (main.message req) EmptyString) as [Hmsg | Hmsg].
  - rewrite (chat_endpoint_empty _ _ Hmsg) in Hrun. injection Hrun as _ <-.
    exists []. rewrite app_nil_r, andb_false_r. now split.
  - destruct (chat_endpoint_state _ _ _ _ Hmsg Hrun) as [r0 Hturn]. cbn [negb].
    rewrite andb_true_r.
    destruct (String.eqb_spec (main.session_id req) session) as [<- | Hsession].
    + pose proof (turn_outcome _ _ _ _ _ Hturn) as Hout. cbv zeta in Hout.
      destruct (llm_with_tools_invoke _ (world s)) as [[e | response] w].
      * destruct Hout as (_ & _ & ->). eexists. split; reflexivity.
      * destruct Hout as (evs & _ & _ & -> & _). rewrite <- app_assoc.
        eexists. split; reflexivity.
    + exists []. rewrite app_nil_r. split; [| reflexivity].
      unfold history.
      now rewrite (turn_memory_elsewhere _ _ _ _ _ session Hturn) by congruence.
Qed.

Lemma serve_run (requests : list main.ChatRequest) s session :
  exists replies s1 added,
    serve requests s = (inr replies, s1) /\
    length replies = length requests /\
    history s1 session = history s session ++ added /\
    human_texts added = sent_to session requests.
Proof.
  revert s. induction requests as [| req rest IH]; intros s; cbn [serve].
  - exists [], s, []. now rewrite app_nil_r.
  - destruct (chat_endpoint_returns req s) as (reply & s1 & Hreply).
    destruct (request_history _ _ _ _ session Hreply) as (added1 & Hh1 & Ht1).
    destruct (IH s1) as (replies & s2 & added2 & Hrun & Hlen & Hh2 & Ht2).
    exists (reply :: replies), s2, (added1 ++ added2).
    unfold bind. rewrite Hreply, Hrun. unfold ret.
    split; [reflexivity |]. split; [cbn; congruence |].
    rewrite Hh2, Hh1, <- app_assoc. split; [reflexivity |].
    rewrite human_texts_app, Ht1, Ht2. cbn [sent_to].
    now destruct (_ && _).
Qed.

(** X3.  The server answers every request of a sequence, one reply each, and
    a session's history only grows: after the sequence it is the history
    from before followed by new messages, among which the user's are exactly
    the non-empty messages sent to that session, in the order they came. *)
Theorem histories_grow_by_their_own_messages (requests : list main.ChatRequest)
    (s : Sys World) (session : string) :
  let run := serve requests s in
  (exists replies, run.1 = inr replies /\ length replies = length requests) /\
  exists added,
    history run.2 session = history s session ++ added /\
    human_texts added = sent_to session requests.
Proof.
  intros run. subst run.
  destruct (serve_run requests s session)
    as (replies & s1 & added & -> & Hlen & Hh & Ht).
  cbn [fst snd]. split; [exists replies | exists added]; now split.
Qed.

(** X4.  The reply of a turn whose graph run completed is the model's text,
    followed by the rendering of the results of this turn's requests and of
    nothing else; should the rendering raise, it is the apology.  What an
    earlier turn stored as tool output has no part in it. *)
Theorem reply_shows_the_results_of_its_turn (req : main.ChatRequest) (s : Sys World)
    (response : AIResponse) (w : World) (final : AgentState) (s1 : Sys World) :
  main.message req <> EmptyString ->
  llm_with_tools_invoke
    (history s (main.session_id req) ++ [HumanMessage (main.message req)]) (world s)
    = (inr response, w) ->
  main.app_agent_invoke (user_turn (main.message req)) (main.session_id req) s
    = (inr final, s1) ->
  exists outs sa sb,
    Dispatched (ai_tool_calls response) sa outs sb /\
    main.chat_endpoint req s =
      (match (main.format_tool_output (Py.str (PList outs)) s1).1 with
       | inr formatted =>
           inr (if String.eqb formatted EmptyString then ai_content response
                else ai_content response +:+ formatted)
       | inl e => inr ("Sorry, an internal error occurred: " +:+ exn_msg e)
       end, s1).
Proof.
  intros Hmsg Hllm Hrun.
  pose proof (turn_outcome _ _ _ _ _ Hrun) as Hout. cbv zeta in Hout.
  rewrite Hllm in Hout. destruct Hout as (evs & _ & _ & _ & Hfinal).
  destruct (Hfinal final eq_refl) as (Hmsgs & outs & sa & sb & Hout & _ & _ & HD).
  exists outs, sa, sb. split; [exact HD |].
  rewrite (chat_endpoint_nonempty _ _ Hmsg). unfold try_except.
  rewrite chat_endpoint_try_run, Hrun. unfold main.last_item.
  rewrite Hmsgs, last_snoc, Hout. cbn [default content].
  destruct (stateless_format_tool_output (World := World) (Py.str (PList outs)))
    as [[e | formatted] Hf]; rewrite !Hf; reflexivity.
Qed.

End Sessions.

(** ** More on the adapters and the client *)

Section AdaptersMore.
Context {World : Type} {E : Externals World}.
Implicit Types s : Sys World.

Lemma lookup_store_same k v d : Py.lookup k (Py.store k v d) = Some v.
Proof.
  induction d as [| [k' v'] d IH]; cbn [Py.lookup Py.store].
  - now rewrite String.eqb_refl.
  - destruct (String.eqb k k') eqn:Hk; cbn [Py.lookup]; rewrite ?String.eqb_refl, ?Hk;
      [reflexivity | exact IH].
Qed.

Lemma lookup_store_other k k' v d :
  k <> k' -> Py.lookup k (Py.store k' v d) = Py.lookup k d.
Proof.
  intros Hne. apply String.eqb_neq in Hne.
  induction d as [| [k0 v0] d IH]; cbn [Py.lookup Py.store].
  - now rewrite Hne.
  - destruct (String.eqb k' k0) eqn:Hk; cbn [Py.lookup].
    + apply String.eqb_eq in Hk as <-. now rewrite Hne.
    + destruct (String.eqb k k0); [reflexivity | exact IH].
Qed.

Lemma arg_str_store_other args name default k v :
  name <> k ->
  agent_tools.arg_str (Py.store k v args) name default = agent_tools.arg_str args name default.
Proof. intros Hne. unfold agent_tools.arg_str. now rewrite lookup_store_other. Qed.

(** X5.  Leaving [timezone_str] out of a request is the same as asking for
    the zone Asia/Kolkata, for either tool. *)
Theorem missing_zone_means_kolkata (args : list (string * pyval)) (s : Sys World) :
  Py.lookup "timezone_str" args = None ->
  let with_zone := Py.store "timezone_str" (PStr "Asia/Kolkata") args in
  agent_tools.check_calendar_availability_tool_invoke args s
    = agent_tools.check_calendar_availability_tool_invoke with_zone s /\
  agent_tools.create_calendar_event_tool_invoke args s
    = agent_tools.create_calendar_event_tool_invoke with_zone s.
Proof.
  intros Hnone with_zone.
  assert (Hzone : agent_tools.arg_str with_zone "timezone_str"
                    (Some agent_tools.default_timezone)
                  = agent_tools.arg_str args "timezone_str"
                      (Some agent_tools.default_timezone)).
  { unfold agent_tools.arg_str, with_zone. now rewrite lookup_store_same, Hnone. }
  assert (Hatt : agent_tools.arg_attendees with_zone = agent_tools.arg_attendees args).
  { unfold agent_tools.arg_attendees, with_zone. now rewrite lookup_store_other. }
  unfold agent_tools.check_calendar_availability_tool_invoke,
    agent_tools.create_calendar_event_tool_invoke.
  rewrite Hzone, Hatt. unfold with_zone.
  rewrite !arg_str_store_other by discriminate. split; reflexivity.
Qed.

(** A datetime that carries its offset stands for the same instant after
    [astimezone], and carries the offset that the zone has at that instant;
    the machine's local time is not asked. *)
Lemma astimezone_keeps_aware_instant local tz dt z moved_dt :
  tzinfo dt = Some z ->
  astimezone local tz dt = inr moved_dt ->
  Datetime.timestamp moved_dt = Some (wall dt - utcoffset z) /\
  tzinfo moved_dt = Some {| tz_name := zone_name tz;
                            utcoffset := utcoffset_at tz (wall dt - utcoffset z) |} /\
  forall local', astimezone local' tz dt = inr moved_dt.
Proof.
  intros Haware. unfold astimezone. rewrite Haware. cbv zeta.
  destruct (in_range (wall dt - utcoffset z)); [| discriminate].
  destruct (in_range _); [| discriminate].
  intros [= <-]. unfold Datetime.timestamp. cbn.
  split; [f_equal; lia |]. split; reflexivity.
Qed.

(** X6.  When the start and the end carry their own UTC offset and can be
    moved to the requested zone, the availability adapter asks the backend
    about exactly those two instants, each written with the offset that the
    zone has at that instant; the machine's local time plays no part. *)
Theorem aware_datetimes_keep_their_instant
    (start_time_str end_time_str timezone_str : string) (tz : zone)
    (parsed_start parsed_end : datetime) (z1 z2 : timezone)
    (start_time end_time : datetime) (s : Sys World) :
  pytz_timezone timezone_str = inr tz ->
  fromisoformat start_time_str = inr parsed_start ->
  fromisoformat end_time_str = inr parsed_end ->
  tzinfo parsed_start = Some z1 ->
  tzinfo parsed_end = Some z2 ->
  astimezone local_utcoffset tz parsed_start = inr start_time ->
  astimezone local_utcoffset tz parsed_end = inr end_time ->
  trace (agent_tools.check_calendar_availability_tool
           start_time_str end_time_str timezone_str s).2
    = trace s ++ [EvFreeBusy (google_calendar.freebusy_body start_time end_time)] /\
  Datetime.timestamp start_time = Datetime.timestamp parsed_start /\
  Datetime.timestamp end_time = Datetime.timestamp parsed_end /\
  (forall u, Datetime.timestamp parsed_start = Some u ->
     tzinfo start_time = Some {| tz_name := zone_name tz; utcoffset := utcoffset_at tz u |}) /\
  (forall u, Datetime.timestamp parsed_end = Some u ->
     tzinfo end_time = Some {| tz_name := zone_name tz; utcoffset := utcoffset_at tz u |}) /\
  (forall local,
     astimezone local tz parsed_start = inr start_time /\
     astimezone local tz parsed_end = inr end_time).
Proof.
  intros Hz Hs He H1 H2 Hstart Hend.
  assert (Hms : moved tz start_time_str = inr start_time) by (unfold moved; now rewrite Hs).
  assert (Hme : moved tz end_time_str = inr end_time) by (unfold moved; now rewrite He).
  destruct (agent_tools.check_calendar_availability_tool _ _ _ s) as [r s1] eqn:Hrun.
  cbn [snd]. split; [exact (check_tool_query _ _ _ _ _ _ _ _ _ Hz Hms Hme Hrun) |].
  destruct (astimezone_keeps_aware_instant _ tz parsed_start z1 _ H1 Hstart)
    as (Hts & Hzs & Hls).
  destruct (astimezone_keeps_aware_instant _ tz parsed_end z2 _ H2 Hend)
    as (Hte & Hze & Hle).
  unfold Datetime.timestamp at 2 4 5 6. rewrite H1, H2.
  split; [exact Hts |]. split; [exact Hte |].
  split; [now intros u [= <-] |]. split; [now intros u [= <-] |].
  intros local. split; [apply Hls | apply Hle].
Qed.

(** X7.  The availability adapter calls the backend only once its zone has
    parsed and its start and its end have parsed and been moved to that
    zone: then it sends one free/busy query for the primary calendar between
    the two moved datetimes, whatever the answer, and otherwise none.  It
    never inserts an event. *)
Theorem availability_adapter_queries_once
    (start_time_str end_time_str timezone_str : string) (s : Sys World) :
  let run :=
    agent_tools.check_calendar_availability_tool start_time_str end_time_str timezone_str s in
  trace run.2 = trace s ++
    match pytz_timezone timezone_str with
    | inr tz =>
        match moved tz start_time_str, moved tz end_time_str with
        | inr start_time, inr end_time =>
            [EvFreeBusy
               (PDict [("timeMin", PStr (isoformat start_time));
                       ("timeMax", PStr (isoformat end_time));
                       ("items", PList [PDict [("id", PStr "primary")]])])]
        | _, _ => []
        end
    | inl _ => []
    end.
Proof.
  intros run. subst run.
  destruct (pytz_timezone timezone_str) as [e | tz] eqn:Hz;
    [| destruct (moved tz start_time_str) as [e | start_time] eqn:Hs;
       [| destruct (moved tz end_time_str) as [e | end_time] eqn:He]].
  4: { destruct (agent_tools.check_calendar_availability_tool _ _ _ s) as [r s1] eqn:Hrun.
       exact (check_tool_query _ _ _ _ _ _ _ _ _ Hz Hs He Hrun). }
  all: rewrite check_tool_run, Hz, ?Hs, ?He; cbn [snd]; now rewrite app_nil_r.
Qed.

(** The client's query on an answer of the backend. *)
Lemma check_calendar_availability_answer start_time end_time s answer w :
  freebusy_query (google_calendar.freebusy_body start_time end_time) (world s)
    = (inr answer, w) ->
  exists s1,
    google_calendar.check_calendar_availability start_time end_time s
    = (match py_get answer "calendars" (PDict []) with
       | inl e => inl e
       | inr calendars =>
           match py_get calendars "primary" (PDict []) with
           | inl e => inl e
           | inr primary => py_get primary "busy" (PList [])
           end
       end, s1).
Proof.
  intros Hq. unfold google_calendar.check_calendar_availability, try_except, bind, remote.
  rewrite Hq. cbn [lift].
  destruct (py_get answer "calendars" (PDict [])) as [e | calendars] eqn:H1.
  { destruct answer; try discriminate H1; injection H1 as <-; cbn; eauto. }
  cbn.
  destruct (py_get calendars "primary" (PDict [])) as [e | primary] eqn:H2.
  { destruct calendars; try discriminate H2; injection H2 as <-; cbn; eauto. }
  cbn.
  destruct (py_get primary "busy" (PList [])) as [e | busy] eqn:H3.
  { destruct primary; try discriminate H3; injection H3 as <-; cbn; eauto. }
  cbn. eauto.
Qed.

(** X8.  When its zone parses, its start and its end parse and can be moved
    to that zone, and the backend answers, the availability adapter returns
    the answer's list of busy periods of the primary calendar as it came; a
    missing [calendars], [primary] or [busy], or an answer that is not made
    of dicts, gives the empty list. *)
Theorem availability_adapter_returns_busy_periods
    (start_time_str end_time_str timezone_str : string) (tz : zone)
    (start_time end_time : datetime) (answer : pyval) (w : World) (s : Sys World) :
  pytz_timezone timezone_str = inr tz ->
  moved tz start_time_str = inr start_time ->
  moved tz end_time_str = inr end_time ->
  freebusy_query (google_calendar.freebusy_body start_time end_time) (world s)
    = (inr answer, w) ->
  (agent_tools.check_calendar_availability_tool start_time_str end_time_str timezone_str s).1
  = inr (busy_periods_of answer).
Proof.
  intros Hz Hs He Hq.
  rewrite check_tool_run, Hz, Hs, He.
  destruct (check_calendar_availability_answer _ _ _ _ _ Hq) as [s1 ->].
  unfold busy_periods_of, py_get.
  destruct answer as [| | | | | d]; try reflexivity.
  destruct (Py.lookup "calendars" d) as [[| | | | | c] |]; try reflexivity.
  destruct (Py.lookup "primary" c) as [[| | | | | p] |]; reflexivity.
Qed.

(** X9.  The client functions catch the backend's [HttpError] and nothing
    else: on an [HttpError] the query gives the empty list and the insert
    gives [None]; any other exception of the backend comes out of them as it
    is. *)
Theorem client_catches_http_errors_only
    (summary description : string) (start_time end_time : datetime)
    (attendees : option (list string)) (s : Sys World) :
  (forall e w,
      freebusy_query (google_calendar.freebusy_body start_time end_time) (world s)
        = (inl e, w) ->
      (google_calendar.check_calendar_availability start_time end_time s).1
      = if is_HttpError e then inr (PList []) else inl e) /\
  (forall e w,
      events_insert "primary"
        (google_calendar.event_body summary description start_time end_time attendees)
        true (world s) = (inl e, w) ->
      (google_calendar.create_calendar_event summary description start_time end_time
         attendees s).1
      = if is_HttpError e then inr PNone else inl e).
Proof.
  split; intros e w Hq.
  - destruct (check_calendar_availability_backend_raises _ _ _ _ _ Hq) as [s1 ->].
    reflexivity.
  - destruct (create_calendar_event_backend_raises _ _ _ _ _ _ _ _ Hq) as [s1 ->].
    reflexivity.
Qed.

(** X10.  The event adapter never returns [None]: what it returns is the
    empty dict or a value that counts as true.  When its zone parses, its
    start and its end parse and can be moved to that zone, and the backend
    answers the insert with a non-empty event resource, it returns that
    resource as it came. *)
Theorem event_adapter_returns_event_or_empty_dict
    (summary description start_time_str end_time_str : string)
    (attendees : option (list string)) (timezone_str : string) (s : Sys World) :
  let run :=
    agent_tools.create_calendar_event_tool summary description start_time_str end_time_str
      attendees timezone_str s in
  (exists v, run.1 = inr v /\ v <> PNone /\ (v = PDict [] \/ Py.truthy v = true)) /\
  (forall tz start_time end_time entry entries w,
      pytz_timezone timezone_str = inr tz ->
      moved tz start_time_str = inr start_time ->
      moved tz end_time_str = inr end_time ->
      events_insert "primary"
        (google_calendar.event_body summary description start_time end_time attendees)
        true (world s) = (inr (PDict (entry :: entries)), w) ->
      run.1 = inr (PDict (entry :: entries))).
Proof.
  intros run. subst run. rewrite create_tool_run. split.
  - assert (Hneutral : exists v : pyval,
               inr (B := pyval) (A := exn) (PDict []) = inr v /\ v <> PNone /\
               (v = PDict [] \/ Py.truthy v = true)).
    { exists (PDict []). repeat split; auto; discriminate. }
    destruct (pytz_timezone timezone_str) as [e | tz]; [exact Hneutral |].
    destruct (moved tz start_time_str) as [e | start_time]; [exact Hneutral |].
    destruct (moved tz end_time_str) as [e | end_time]; [exact Hneutral |].
    destruct (google_calendar.create_calendar_event _ _ _ _ _ s) as [[e | event] s1];
      [exact Hneutral |].
    cbn [fst]. destruct (Py.truthy event) eqn:Ht; [| exact Hneutral].
    exists event. split; [reflexivity |]. split; [| now right].
    intros ->. discriminate Ht.
  - intros tz start_time end_time entry entries w Hz Hs He Hq.
    rewrite Hz, Hs, He.
    unfold google_calendar.create_calendar_event, try_except, bind, remote.
    rewrite Hq. reflexivity.
Qed.

End AdaptersMore.

(** ** The credentials of the calendar service *)

Section Credentials.
Import credentials.
Context {W Service : Type} {A : Authority W Service}.
Implicit Types st : Files W.

(** X11.  When [get_calendar_service] returns a service, the token file
    holds the very credentials the service was built with: the cached ones
    when they were valid, the refreshed or newly granted ones otherwise. *)
Theorem token_file_holds_the_credentials_in_use (st : Files W) (service : Service)
    (st1 : Files W) :
  get_calendar_service st = (inr service, st1) ->
  exists creds, token_file st1 = Some creds /\ build creds = inr service.
Proof.
  unfold get_calendar_service, save_and_build.
  destruct (token_file st) as [cached |] eqn:Hfile.
  - destruct (valid cached).
    + intros [= Hb <-]. eauto.
    + destruct (expired cached && has_refresh_token cached).
      * destruct (refresh cached (outside st)) as [[e | refreshed] w];
          [discriminate |]. intros [= Hb <-]. cbn. eauto.
      * destruct (run_local_server (outside st)) as [[e | fresh] w];
          [discriminate |]. intros [= Hb <-]. cbn. eauto.
  - destruct (run_local_server (outside st)) as [[e | fresh] w];
      [discriminate |]. intros [= Hb <-]. cbn. eauto.
Qed.


(** X13.  Once [get_calendar_service] has returned a service whose
    credentials are valid, calling it again returns the same service and
    does nothing more: no refresh, no authorization, no write. *)
Theorem second_call_reuses_the_token (st : Files W) (service : Service) (st1 : Files W) :
  get_calendar_service st = (inr service, st1) ->
  (forall creds, token_file st1 = Some creds -> valid creds = true) ->
  get_calendar_service st1 = (inr service, st1).
Proof.
  intros Hrun Hvalid.
  assert (Hagain : forall creds, token_file st1 = Some creds -> build creds = inr service ->
                                 get_calendar_service st1 = (inr service, st1)).
  { intros creds Hfile Hbuild. unfold get_calendar_service.
    rewrite Hfile, (Hvalid creds Hfile). now rewrite Hbuild. }
  revert Hrun. unfold get_calendar_service at 1, save_and_build.
  destruct (token_file st) as [cached |] eqn:Hfile.
  - destruct (valid cached).
    + intros [= Hb <-]. now apply (Hagain cached).
    + destruct (expired cached && has_refresh_token cached).
      * destruct (refresh cached (outside st)) as [[e | refreshed] w];
          [discriminate |]. intros [= Hb <-]. now apply (Hagain refreshed).
      * destruct (run_local_server (outside st)) as [[e | fresh] w];
          [discriminate |]. intros [= Hb <-]. now apply (Hagain fresh).
  - destruct (run_local_server (outside st)) as [[e | fresh] w];
      [discriminate |]. intros [= Hb <-]. now apply (Hagain fresh).
Qed.

End Credentials.

(** ** Reading back what [repr] printed *)

Section Literals.
Import Literal.

Lemma append_cons x (a b : string) : String x a +:+ b = String x (a +:+ b).
Proof. reflexivity. Qed.

Lemma append_assoc (a b c : string) : (a +:+ b) +:+ c = a +:+ (b +:+ c).
Proof.
  induction a as [| x a IH]; [reflexivity |].
  rewrite !append_cons. now rewrite IH.
Qed.

Lemma append_length (a b : string) :
  String.length (a +:+ b) = (String.length a + String.length b)%nat.
Proof.
  induction a as [| x a IH]; [reflexivity |].
  rewrite append_cons. cbn [String.length]. now rewrite IH.
Qed.

Lemma repr_list l : Py.repr (PList l) = "[" +:+ repr_items l +:+ "]".
Proof. reflexivity. Qed.

Lemma repr_dict d : Py.repr (PDict d) = "{" +:+ repr_entries d +:+ "}".
Proof. reflexivity. Qed.

Lemma need_list l : need (PList l) = S (need_items l).
Proof. reflexivity. Qed.

Lemma need_dict d : need (PDict d) = S (need_entries d).
Proof. reflexivity. Qed.

Lemma depth_list l : depth (PList l) = S (depth_items l).
Proof. reflexivity. Qed.

Lemma depth_dict d : depth (PDict d) = S (depth_entries d).
Proof. reflexivity. Qed.

Lemma depth_items_Forall l n :
  (depth_items l <= n)%nat <-> Forall (fun v => depth v <= n)%nat l.
Proof.
  induction l as [| x r IH]; cbn [depth_items].
  - split; [constructor | lia].
  - rewrite Forall_cons, <- IH. lia.
Qed.

Lemma well_formed_list l : well_formed (PList l) <-> Forall well_formed l.
Proof.
  cbn [well_formed]. induction l as [| x r IH].
  - split; [constructor | trivial].
  - rewrite Forall_cons, <- IH. reflexivity.
Qed.

Lemma well_formed_dict d :
  well_formed (PDict d) <-> NoDup (map fst d) /\ Forall (fun kv => well_formed kv.2) d.
Proof.
  cbn [well_formed]. apply and_iff_compat_l.
  induction d as [| [k x] r IH].
  - split; [constructor | trivial].
  - rewrite Forall_cons, <- IH. reflexivity.
Qed.

(** Induction on a value, with the elements of a list and of a dict. *)
Lemma pyval_induction (P : pyval -> Prop) :
  P PNone -> (forall b, P (PBool b)) -> (forall z, P (PInt z)) -> (forall s, P (PStr s)) ->
  (forall l, Forall P l -> P (PList l)) ->
  (forall d, Forall (fun kv => P kv.2) d -> P (PDict d)) ->
  forall v, P v.
Proof.
  intros HN HB HZ HS HL HD.
  fix IH 1. intros [| b | z | s | l | d].
  - exact HN.
  - apply HB.
  - apply HZ.
  - apply HS.
  - apply HL. induction l as [| x r IHl]; constructor; [apply IH | exact IHl].
  - apply HD. induction d as [| [k x] r IHd]; constructor; [apply IH | exact IHd].
Qed.

(** *** White space, digits, quoted text *)

Lemma skip_ws_head c r : Chars.is_space c = false -> Ast.skip_ws (String c r) = String c r.
Proof. intros H. cbn [Ast.skip_ws]. now rewrite H. Qed.

Lemma digits_stop acc count s :
  no_digit_ahead s -> Ast.digits acc count s = (acc, count, s).
Proof. destruct s as [| c r]; [reflexivity |]. cbn. now intros ->. Qed.

Lemma digits_digit acc count c r :
  Chars.is_digit c = true ->
  Ast.digits acc count (String c r)
  = Ast.digits (10 * acc + Z.of_nat (nat_of_ascii c - 48)) (S count) r.
Proof. intros H. cbn [Ast.digits]. now rewrite H. Qed.

Lemma pretty_N_char_digit d :
  (d < 10)%N ->
  Chars.is_digit (pretty_N_char d) = true /\
  Z.of_nat (nat_of_ascii (pretty_N_char d) - 48) = Z.of_N d.
Proof.
  intros Hd.
  assert (d = 0 \/ d = 1 \/ d = 2 \/ d = 3 \/ d = 4 \/
          d = 5 \/ d = 6 \/ d = 7 \/ d = 8 \/ d = 9)%N as H by lia.
  repeat (destruct H as [-> | H]; [split; reflexivity |]).
  subst d. split; reflexivity.
Qed.

Lemma pretty_N_char_nonzero d :
  (0 < d < 10)%N -> Chars.eqb "0" (pretty_N_char d) = false.
Proof.
  intros Hd.
  assert (d = 1 \/ d = 2 \/ d = 3 \/ d = 4 \/
          d = 5 \/ d = 6 \/ d = 7 \/ d = 8 \/ d = 9)%N as H by lia.
  repeat (destruct H as [-> | H]; [reflexivity |]).
  subst d. reflexivity.
Qed.

Lemma pretty_N_go_append x s t : pretty_N_go x s +:+ t = pretty_N_go x (s +:+ t).
Proof.
  revert s. induction (N.lt_wf_0 x) as [x _ IH]; intros s.
  assert (x = 0 \/ 0 < x)%N as [-> | Hx] by lia; [now rewrite !pretty_N_go_0 |].
  rewrite (pretty_N_go_step x s), (pretty_N_go_step x (s +:+ t)) by assumption.
  rewrite IH by (apply N.div_lt; lia). reflexivity.
Qed.

(** The digits that [pretty] writes for [x] are read as [x]. *)
Lemma digits_pretty_N_go x :
  exists k p,
    ((0 < x)%N -> (1 <= k)%nat) /\
    forall s acc count,
      Ast.digits acc count (pretty_N_go x s)
      = Ast.digits (acc * p + Z.of_N x) (count + k) s.
Proof.
  induction (N.lt_wf_0 x) as [x _ IH].
  assert (x = 0 \/ 0 < x)%N as [-> | Hx] by lia.
  - exists 0%nat, 1. split; [lia |]. intros s acc count.
    rewrite pretty_N_go_0. f_equal; [lia | apply plus_n_O].
  - destruct (IH (x `div` 10)%N) as (k & p & _ & Hk); [apply N.div_lt; lia |].
    exists (S k), (10 * p). split; [lia |]. intros s acc count.
    rewrite pretty_N_go_step by assumption. rewrite Hk.
    destruct (pretty_N_char_digit (x `mod` 10)%N) as [Hd Hv];
      [apply N.mod_lt; lia |].
    rewrite (digits_digit _ _ _ _ Hd), Hv.
    pose proof (N.div_mod x 10 ltac:(lia)) as Hdm.
    f_equal; [lia | lia].
Qed.

Lemma pretty_N_go_head x s :
  (0 < x)%N ->
  exists c t, pretty_N_go x s = String c t /\
              Chars.is_digit c = true /\ Chars.eqb "0" c = false.
Proof.
  revert s. induction (N.lt_wf_0 x) as [x _ IH]; intros s Hx.
  rewrite pretty_N_go_step by assumption.
  destruct (N.eq_0_gt_0_cases (x `div` 10)) as [H0 | Hpos].
  - rewrite H0, pretty_N_go_0.
    assert (x < 10)%N by (apply N.div_small_iff in H0; lia).
    rewrite N.mod_small by assumption.
    exists (pretty_N_char x), s. split; [reflexivity |].
    split; [apply pretty_N_char_digit; assumption | apply pretty_N_char_nonzero; lia].
  - apply IH; [apply N.div_lt; lia | assumption].
Qed.

Lemma number_pretty_N (n : N) rest :
  no_digit_ahead rest ->
  Ast.number (pretty n +:+ rest) = Some (Z.of_N n, rest).
Proof.
  intros Hrest. unfold pretty, pretty_N. destruct (decide (n = 0%N)) as [-> | Hn].
  - unfold Ast.number. rewrite append_cons.
    rewrite (digits_digit 0 0 "0" _ eq_refl).
    change (EmptyString +:+ rest) with rest.
    now rewrite digits_stop.
  - rewrite pretty_N_go_append. change (EmptyString +:+ rest) with rest.
    destruct (digits_pretty_N_go n) as (k & p & Hk & Hdigits).
    destruct (pretty_N_go_head n rest ltac:(lia)) as (c & t & Hhead & _ & Hzero).
    unfold Ast.number. rewrite Hdigits, digits_stop by assumption.
    replace (0 * p + Z.of_N n) with (Z.of_N n) by lia. cbn [Nat.add].
    destruct k as [| [| k]]; [lia | reflexivity |].
    rewrite Hhead. cbn [str_prefix]. rewrite Hzero. reflexivity.
Qed.

(** What a digit is not. *)
Lemma digit_is_no_mark c :
  Chars.is_digit c = true ->
  Chars.is_space c = false /\ Chars.eqb c "[" = false /\ Chars.eqb c "{" = false /\
  Chars.eqb c Chars.squote || Chars.eqb c Chars.dquote = false /\
  Chars.eqb c "-" = false /\ Chars.eqb c "]" = false /\ Chars.eqb c "}" = false.
Proof.
  destruct c as [[] [] [] [] [] [] [] []]; intros H;
    first [discriminate H | repeat split].
Qed.

Lemma quote_of_cases s : Py.quote_of s = Chars.squote \/ Py.quote_of s = Chars.dquote.
Proof. unfold Py.quote_of. destruct (_ && _); auto. Qed.

(** One character, as [repr] writes it between the quotes [q], is read as
    that character. *)
Lemma str_body_escape_char q c rest :
  q = Chars.squote \/ q = Chars.dquote ->
  Ast.str_body q (Py.escape_char q c +:+ rest)
  = match Ast.str_body q rest with
    | Some (t, r) => Some (String c t, r)
    | None => None
    end.
Proof.
  intros [-> | ->]; destruct c as [[] [] [] [] [] [] [] []]; reflexivity.
Qed.

Lemma str_body_escape q s rest :
  q = Chars.squote \/ q = Chars.dquote ->
  Ast.str_body q (Py.escape q s +:+ String q rest) = Some (s, rest).
Proof.
  intros Hq. induction s as [| c s IH].
  - destruct Hq as [-> | ->]; reflexivity.
  - cbn [Py.escape]. rewrite append_assoc, (str_body_escape_char _ _ _ Hq), IH.
    reflexivity.
Qed.

(** *** The reader, one step at a time *)

Lemma value_step fuel level s :
  Ast.value (S fuel) level s =
  match Ast.skip_ws s with
  | EmptyString => None
  | String c r as s' =>
      if Chars.eqb c "[" then
        if (Ast.MAXLEVEL <=? level)%nat then None
        else
          match Ast.items fuel (S level) r with
          | Some (l, rest) => Some (PList l, rest)
          | None => None
          end
      else if Chars.eqb c "{" then
        if (Ast.MAXLEVEL <=? level)%nat then None
        else
          match Ast.entries fuel (S level) [] r with
          | Some (d, rest) => Some (PDict d, rest)
          | None => None
          end
      else if Chars.eqb c Chars.squote || Chars.eqb c Chars.dquote then
        match Ast.str_body c r with
        | Some (t, rest) => Some (PStr t, rest)
        | None => None
        end
      else if Chars.eqb c "-" then
        match Ast.number r with
        | Some (z, rest) => Some (PInt (- z), rest)
        | None => None
        end
      else if Chars.is_digit c then
        match Ast.number s' with
        | Some (z, rest) => Some (PInt z, rest)
        | None => None
        end
      else if str_prefix "None" s' then Some (PNone, Ast.drop 4 s')
      else if str_prefix "True" s' then Some (PBool true, Ast.drop 4 s')
      else if str_prefix "False" s' then Some (PBool false, Ast.drop 5 s')
      else None
  end.
Proof. reflexivity. Qed.

Lemma items_step fuel level s :
  Ast.items (S fuel) level s =
  match Ast.skip_ws s with
  | EmptyString => None
  | String c r as s' =>
      if Chars.eqb c "]" then Some ([], r)
      else
        match Ast.value fuel level s' with
        | None => None
        | Some (v, s1) =>
            match Ast.skip_ws s1 with
            | String d r1 =>
                if Chars.eqb d "," then
                  match Ast.items fuel level r1 with
                  | Some (l, rest) => Some (v :: l, rest)
                  | None => None
                  end
                else if Chars.eqb d "]" then Some ([v], r1)
                else None
            | EmptyString => None
            end
        end
  end.
Proof. reflexivity. Qed.

Lemma entries_step fuel level acc s :
  Ast.entries (S fuel) level acc s =
  match Ast.skip_ws s with
  | EmptyString => None
  | String c r as s' =>
      if Chars.eqb c "}" then Some (acc, r)
      else
        match Ast.value fuel level s' with
        | Some (PStr k, s1) =>
            match Ast.skip_ws s1 with
            | String colon s2 =>
                if Chars.eqb colon ":" then
                  match Ast.value fuel level s2 with
                  | None => None
                  | Some (v, s3) =>
                      match Ast.skip_ws s3 with
                      | String d r3 =>
                          if Chars.eqb d "," then
                            Ast.entries fuel level (Py.store k v acc) r3
                          else if Chars.eqb d "}" then Some (Py.store k v acc, r3)
                          else None
                      | EmptyString => None
                      end
                  end
                else None
            | EmptyString => None
            end
        | _ => None
        end
  end.
Proof. reflexivity. Qed.

(** A space before a value, a list's elements or a dict's pairs is skipped. *)
Lemma value_space fuel level s :
  Ast.value fuel level (String " " s) = Ast.value fuel level s.
Proof. destruct fuel; [reflexivity |]. now rewrite !value_step. Qed.

Lemma items_space fuel level s :
  Ast.items fuel level (String " " s) = Ast.items fuel level s.
Proof. destruct fuel; [reflexivity |]. now rewrite !items_step. Qed.

Lemma entries_space fuel level acc s :
  Ast.entries fuel level acc (String " " s) = Ast.entries fuel level acc s.
Proof. destruct fuel; [reflexivity |]. now rewrite !entries_step. Qed.

(** *** The text of a value *)

(** A value's text starts with a character that is no white space and closes
    no list and no dict. *)
Lemma repr_head v :
  exists c t, Py.repr v = String c t /\
              Chars.is_space c = false /\ Chars.eqb c "]" = false /\
              Chars.eqb c "}" = false.
Proof.
  destruct v as [| [] | [| p | p] | s | l | d].
  - exists "N"%char, "one". repeat split.
  - exists "T"%char, "rue". repeat split.
  - exists "F"%char, "alse". repeat split.
  - exists "0"%char, EmptyString. repeat split.
  - change (Py.repr (PInt (Z.pos p))) with (pretty (N.pos p)).
    unfold pretty, pretty_N. destruct (decide (N.pos p = 0%N)) as [H | _]; [discriminate H |].
    destruct (pretty_N_go_head (N.pos p) EmptyString ltac:(lia)) as (c & t & -> & Hd & _).
    exists c, t. destruct (digit_is_no_mark c Hd) as (? & _ & _ & _ & _ & ? & ?). auto.
  - exists "-"%char, (pretty (N.pos p)). repeat split.
  - cbn [Py.repr]. unfold Py.repr_str.
    destruct (quote_of_cases s) as [-> | ->]; do 2 eexists; split; try reflexivity;
      repeat split.
  - rewrite repr_list. do 2 eexists. split; [reflexivity | repeat split].
  - rewrite repr_dict. do 2 eexists. split; [reflexivity | repeat split].
Qed.

Lemma repr_append_head v rest :
  exists c t, Py.repr v +:+ rest = String c t /\
              Chars.is_space c = false /\ Chars.eqb c "]" = false /\
              Chars.eqb c "}" = false.
Proof.
  destruct (repr_head v) as (c & t & -> & H). exists c, (t +:+ rest). auto.
Qed.

Lemma value_repr_atom_int z : reads_back (PInt z).
Proof.
  intros _ [| fuel] level rest Hfuel _ Hrest; [cbn in Hfuel; lia |].
  rewrite value_step. destruct z as [| p | p].
  - pose proof (number_pretty_N 0%N rest Hrest) as Hnumber.
    change (pretty 0%N +:+ rest) with (String "0" rest) in Hnumber.
    change (Py.repr (PInt 0) +:+ rest) with (String "0" rest).
    rewrite (skip_ws_head "0" rest eq_refl).
    change (Chars.eqb "0" "[") with false. change (Chars.eqb "0" "{") with false.
    change (Chars.eqb "0" Chars.squote || Chars.eqb "0" Chars.dquote) with false.
    change (Chars.eqb "0" "-") with false. change (Chars.is_digit "0") with true.
    cbv iota zeta. now rewrite Hnumber.
  - change (Py.repr (PInt (Z.pos p))) with (pretty (N.pos p)).
    pose proof (number_pretty_N (N.pos p) rest Hrest) as Hnumber.
    revert Hnumber. unfold pretty at 1 2, pretty_N.
    destruct (decide (N.pos p = 0%N)) as [H | _]; [discriminate H |].
    rewrite pretty_N_go_append. change (EmptyString +:+ rest) with rest.
    destruct (pretty_N_go_head (N.pos p) rest ltac:(lia)) as (c & t & -> & Hd & _).
    destruct (digit_is_no_mark c Hd) as (Hs & H1 & H2 & H3 & H4 & _).
    intros Hnumber. rewrite (skip_ws_head _ _ Hs). cbv zeta.
    rewrite H1, H2, H3, H4, Hd, Hnumber. reflexivity.
  - pose proof (number_pretty_N (N.pos p) rest Hrest) as Hnumber.
    change (Py.repr (PInt (Z.neg p)) +:+ rest)
      with (String "-" (pretty (N.pos p) +:+ rest)).
    rewrite (skip_ws_head "-" _ eq_refl).
    change (Chars.eqb "-" "[") with false. change (Chars.eqb "-" "{") with false.
    change (Chars.eqb "-" Chars.squote || Chars.eqb "-" Chars.dquote) with false.
    change (Chars.eqb "-" "-") with true.
    cbv iota zeta. now rewrite Hnumber.
Qed.

Lemma value_quoted q body fuel level :
  q = Chars.squote \/ q = Chars.dquote ->
  Ast.value (S fuel) level (String q body) =
  match Ast.str_body q body with
  | Some (t, rest) => Some (PStr t, rest)
  | None => None
  end.
Proof. intros [-> | ->]; reflexivity. Qed.

Lemma value_repr_str s fuel level rest :
  Ast.value (S fuel) level (Py.repr_str s +:+ rest) = Some (PStr s, rest).
Proof.
  unfold Py.repr_str. rewrite append_cons, append_assoc, append_cons.
  change (EmptyString +:+ rest) with rest.
  rewrite (value_quoted _ _ _ _ (quote_of_cases s)).
  now rewrite (str_body_escape _ s rest (quote_of_cases s)).
Qed.

Lemma items_repr l :
  Forall reads_back l -> Forall well_formed l ->
  forall fuel level rest,
    (need_items l <= fuel)%nat -> (level + depth_items l <= Ast.MAXLEVEL)%nat ->
    Ast.items fuel level (repr_items l +:+ String "]" rest) = Some (l, rest).
Proof.
  induction l as [| x r IH]; intros HP Hwf fuel level rest Hfuel Hlevel.
  - destruct fuel; [cbn in Hfuel; lia | reflexivity].
  - inversion HP as [| ? ? Hx HPr]; subst. inversion Hwf as [| ? ? Hwx Hwr]; subst.
    destruct fuel as [| fuel]; [cbn in Hfuel; lia |]. cbn [need_items] in Hfuel.
    cbn [depth_items] in Hlevel.
    set (tail := match r with
                 | [] => String "]" rest
                 | _ :: _ => String "," (String " " (repr_items r +:+ String "]" rest))
                 end).
    assert (Htext : repr_items (x :: r) +:+ String "]" rest = Py.repr x +:+ tail).
    { subst tail. destruct r; cbn [repr_items]; [reflexivity |].
      now rewrite !append_assoc. }
    assert (Htail : no_digit_ahead tail) by (subst tail; destruct r; reflexivity).
    rewrite Htext, items_step.
    destruct (repr_append_head x tail) as (c & t & Heq & Hs & Hb & _).
    rewrite Heq, (skip_ws_head _ _ Hs). cbv zeta. rewrite Hb, <- Heq.
    rewrite (Hx Hwx fuel level tail) by (assumption || lia).
    subst tail. destruct r as [| y r']; [reflexivity |].
    rewrite (skip_ws_head "," _ eq_refl).
    change (Chars.eqb "," ",") with true. cbv iota.
    rewrite items_space, (IH HPr Hwr fuel level rest) by lia. reflexivity.
Qed.

Lemma store_fresh k v acc :
  ~ In k (map fst acc) -> Py.store k v acc = acc ++ [(k, v)].
Proof.
  induction acc as [| [k' v'] acc IH]; cbn [Py.store map fst In app]; [reflexivity |].
  intros Hnot. destruct (String.eqb_spec k k') as [-> | _]; [tauto |].
  rewrite IH by tauto. reflexivity.
Qed.

Lemma need_positive v : (1 <= need v)%nat.
Proof. destruct v; cbn [need]; lia. Qed.

Lemma entries_repr d :
  Forall (fun kv => reads_back kv.2) d -> Forall (fun kv => well_formed kv.2) d ->
  forall acc fuel level rest,
    NoDup (map fst acc ++ map fst d) ->
    (need_entries d <= fuel)%nat -> (level + depth_entries d <= Ast.MAXLEVEL)%nat ->
    Ast.entries fuel level acc (repr_entries d +:+ String "}" rest) = Some (acc ++ d, rest).
Proof.
  induction d as [| [k x] r IH]; intros HP Hwf acc fuel level rest Hkeys Hfuel Hlevel.
  - destruct fuel; [cbn in Hfuel; lia |]. now rewrite app_nil_r.
  - inversion HP as [| ? ? Hx HPr]; subst. inversion Hwf as [| ? ? Hwx Hwr]; subst.
    cbn [snd] in Hx, Hwx. cbn [need_entries] in Hfuel. cbn [depth_entries] in Hlevel.
    pose proof (need_positive x) as Hpos.
    destruct fuel as [| [| fuel]]; [lia | lia |].
    set (tail := match r with
                 | [] => String "}" rest
                 | _ :: _ => String "," (String " " (repr_entries r +:+ String "}" rest))
                 end).
    assert (Htext : repr_entries ((k, x) :: r) +:+ String "}" rest
                    = Py.repr_str k +:+ String ":" (String " " (Py.repr x +:+ tail))).
    { subst tail. destruct r; cbn [repr_entries]; now rewrite !append_assoc. }
    assert (Htail : no_digit_ahead tail) by (subst tail; destruct r; reflexivity).
    assert (Hfresh : ~ In k (map fst acc)).
    { cbn [map fst] in Hkeys. apply NoDup_app in Hkeys as (_ & Hdisjoint & _).
      intros Hin. apply (Hdisjoint k); [now apply list_elem_of_In | left]. }
    rewrite Htext, entries_step.
    assert (Hhead : exists q body, Py.repr_str k = String q body /\
                                   Chars.is_space q = false /\ Chars.eqb q "}" = false).
    { unfold Py.repr_str. destruct (quote_of_cases k) as [-> | ->];
        do 2 eexists; repeat split. }
    destruct Hhead as (q & body & Hq & Hs & Hb).
    rewrite Hq, append_cons, (skip_ws_head _ _ Hs). cbv zeta.
    rewrite Hb, <- append_cons, <- Hq, value_repr_str.
    rewrite (skip_ws_head ":" _ eq_refl). change (Chars.eqb ":" ":") with true.
    cbv iota. rewrite value_space, (Hx Hwx (S fuel) level tail) by (assumption || lia).
    rewrite (store_fresh _ _ _ Hfresh).
    subst tail. destruct r as [| y r'].
    + rewrite (skip_ws_head "}" _ eq_refl). reflexivity.
    + rewrite (skip_ws_head "," _ eq_refl). change (Chars.eqb "," ",") with true.
      cbv iota. rewrite entries_space, (IH HPr Hwr) by
        (try lia; cbn [map fst] in Hkeys |- *; now rewrite map_app, <- app_assoc).
      now rewrite <- app_assoc.
Qed.

(** Every value without a repeated key reads back from its text. *)
Lemma value_repr v : reads_back v.
Proof.
  induction v as [| b | z | s | l IHl | d IHd] using pyval_induction.
  - intros _ [| fuel] level rest Hfuel _ _; [cbn in Hfuel; lia | reflexivity].
  - intros _ [| fuel] level rest Hfuel _ _; [cbn in Hfuel; lia | destruct b; reflexivity].
  - apply value_repr_atom_int.
  - intros _ [| fuel] level rest Hfuel _ _; [cbn in Hfuel; lia | apply value_repr_str].
  - intros Hwf [| fuel] level rest Hfuel Hlevel _; [rewrite need_list in Hfuel; lia |].
    rewrite need_list in Hfuel. rewrite depth_list in Hlevel.
    apply well_formed_list in Hwf.
    assert (Hopen : (Ast.MAXLEVEL <=? level)%nat = false) by (apply Nat.leb_gt; lia).
    rewrite repr_list, !append_assoc.
    change ("[" +:+ repr_items l +:+ "]" +:+ rest)
      with (String "[" (repr_items l +:+ String "]" rest)).
    rewrite value_step, (skip_ws_head "[" _ eq_refl). cbv zeta.
    change (Chars.eqb "[" "[") with true. cbv iota. rewrite Hopen.
    now rewrite (items_repr l IHl Hwf) by lia.
  - intros Hwf [| fuel] level rest Hfuel Hlevel _; [rewrite need_dict in Hfuel; lia |].
    rewrite need_dict in Hfuel. rewrite depth_dict in Hlevel.
    apply well_formed_dict in Hwf as [Hkeys Hwf].
    assert (Hopen : (Ast.MAXLEVEL <=? level)%nat = false) by (apply Nat.leb_gt; lia).
    rewrite repr_dict, !append_assoc.
    change ("{" +:+ repr_entries d +:+ "}" +:+ rest)
      with (String "{" (repr_entries d +:+ String "}" rest)).
    rewrite value_step, (skip_ws_head "{" _ eq_refl). cbv zeta.
    change (Chars.eqb "{" "[") with false. change (Chars.eqb "{" "{") with true.
    cbv iota. rewrite Hopen.
    now rewrite (entries_repr d IHd Hwf [] fuel (S level) rest) by (assumption || lia).
Qed.

Lemma append_empty (a : string) : a +:+ EmptyString = a.
Proof.
  induction a as [| x a IH]; [reflexivity |]. rewrite append_cons. now rewrite IH.
Qed.

Lemma repr_length_positive v : (1 <= String.length (Py.repr v))%nat.
Proof. destruct (repr_head v) as (c & t & -> & _). cbn [String.length]. lia. Qed.

(** The reader's steps on a text are no more than its characters. *)
Lemma need_le_length v : (need v <= String.length (Py.repr v))%nat.
Proof.
  induction v as [| b | z | s | l IHl | d IHd] using pyval_induction;
    try (apply (repr_length_positive _)).
  - rewrite need_list, repr_list, !append_length.
    change (String.length "[") with 1%nat. change (String.length "]") with 1%nat.
    enough (need_items l <= String.length (repr_items l) + 1)%nat by lia.
    induction IHl as [| x r Hx _ IH]; [cbn; lia |].
    pose proof (repr_length_positive x). cbn [need_items repr_items].
    destruct r as [| y r']; [cbn [need_items]; lia |].
    rewrite !append_length. change (String.length ", ") with 2%nat. lia.
  - rewrite need_dict, repr_dict, !append_length.
    change (String.length "{") with 1%nat. change (String.length "}") with 1%nat.
    enough (need_entries d <= String.length (repr_entries d) + 1)%nat by lia.
    induction IHd as [| [k x] r Hx _ IH]; [cbn; lia |].
    pose proof (repr_length_positive x). cbn [need_entries repr_entries snd] in *.
    destruct r as [| y r']; [cbn [need_entries]; rewrite !append_length; lia |].
    rewrite !append_length. change (String.length ", ") with 2%nat. lia.
Qed.

Lemma literal_eval_repr v :
  well_formed v -> (depth v <= Ast.MAXLEVEL)%nat -> literal_eval (Py.repr v) = inr v.
Proof.
  intros Hwf Hdepth. unfold literal_eval, Ast.parse.
  rewrite <- (append_empty (Py.repr v)) at 2.
  rewrite (value_repr v Hwf _ 0%nat EmptyString); [reflexivity | | exact Hdepth | exact I].
  pose proof (need_le_length v). lia.
Qed.

(** A list of values that nest less than [MAXLEVEL] deep and hold no key
    twice reads back from its text. *)
Lemma depth_list_bound l :
  Forall (fun v => depth v < Ast.MAXLEVEL)%nat l -> (depth (PList l) <= Ast.MAXLEVEL)%nat.
Proof.
  intros Hdepth. rewrite depth_list.
  enough (depth_items l <= Ast.MAXLEVEL - 1)%nat by (unfold Ast.MAXLEVEL in *; lia).
  apply depth_items_Forall. eapply Forall_impl; [exact Hdepth |].
  cbn beta. intros v Hv. unfold Ast.MAXLEVEL in *. lia.
Qed.

Lemma literal_eval_str_list l :
  Forall well_formed l -> Forall (fun v => depth v < Ast.MAXLEVEL)%nat l ->
  literal_eval (Py.str (PList l)) = inr (PList l).
Proof.
  intros Hwf Hdepth. change (Py.str (PList l)) with (Py.repr (PList l)).
  apply literal_eval_repr; [now apply well_formed_list | now apply depth_list_bound].
Qed.

(** X14.  The text that [call_tool] stores for a list of results reads back,
    under [ast.literal_eval] in the endpoint, as that same list, whatever the
    results hold (quotes, backslashes, characters that [repr] escapes,
    negative numbers, lists and dicts), as long as no result nests brackets
    [MAXLEVEL] deep: the list's own bracket is one more level, and Python
    reads no more than [MAXLEVEL].  (No dict among them holds a key twice,
    as no Python dict does.) *)
Theorem stored_results_read_back (tool_output_list : list pyval) :
  Forall well_formed tool_output_list ->
  Forall (fun tool_result => depth tool_result < Ast.MAXLEVEL)%nat tool_output_list ->
  literal_eval (Py.str (PList tool_output_list)) = inr (PList tool_output_list).
Proof.
  intros Hwf Hdepth.
  change (Py.str (PList tool_output_list)) with (Py.repr (PList tool_output_list)).
  rewrite <- (append_empty (Py.repr (PList tool_output_list))).
  unfold literal_eval, Ast.parse. rewrite append_empty at 1.
  apply well_formed_list in Hwf. pose proof (depth_list_bound _ Hdepth) as Hlevel.
  rewrite (value_repr (PList tool_output_list) Hwf _ 0%nat EmptyString);
    [reflexivity | | exact Hlevel | exact I].
  pose proof (need_le_length (PList tool_output_list)). lia.
Qed.

End Literals.

(** ** What the user is shown *)

Section Rendering.
Import Literal.
Context {World : Type} {E : Externals World}.
Implicit Types s : Sys World.

(** X15.  When the first result of a turn is an event resource of the
    backend (a dict of kind [calendar#event]) and no result nests brackets
    [MAXLEVEL] deep, so that the stored text can be read, the text appended
    to the reply is the "event created" block with the event's title, times
    and link, where a missing [summary] shows as "An event", a missing
    [htmlLink] as [#], and a [start] or [end] that is missing or has no
    [dateTime] as "N/A".  A [start] or [end] that is there and is not a dict
    makes the rendering raise an [AttributeError] instead. *)
Theorem created_event_is_rendered (d : list (string * pyval)) (others : list pyval)
    (s : Sys World) :
  Forall well_formed (PDict d :: others) ->
  Forall (fun tool_result => depth tool_result < Ast.MAXLEVEL)%nat (PDict d :: others) ->
  Py.lookup "kind" d = Some (PStr "calendar#event") ->
  main.format_tool_output (Py.str (PList (PDict d :: others))) s =
  (match py_get (field d "start" (PDict [])) "dateTime" (PStr "N/A") with
   | inl e => inl e
   | inr start_time =>
       match py_get (field d "end" (PDict [])) "dateTime" (PStr "N/A") with
       | inl e => inl e
       | inr end_time =>
           inr (main.event_created (field d "summary" (PStr "An event"))
                  (field d "htmlLink" (PStr "#")) start_time end_time)
       end
   end, s).
Proof.
  intros Hwf Hdepth Hkind. unfold main.format_tool_output, try_except, bind.
  rewrite (literal_eval_str_list _ Hwf Hdepth). cbn [lift]. unfold ret at 1.
  cbn [Py.truthy main.first_event]. rewrite Hkind. cbn [String.eqb Ascii.eqb Bool.eqb].
  cbn [py_get lift]. unfold ret at 1 2 3. fold (field d "start" (PDict [])).
  fold (field d "summary" (PStr "An event")). fold (field d "htmlLink" (PStr "#")).
  destruct (field d "start" (PDict [])) as [| | | | | ds]; try reflexivity.
  cbn [py_get lift]. unfold ret at 1 2. fold (field d "end" (PDict [])).
  destruct (field d "end" (PDict [])) as [| | | | | de]; reflexivity.
Qed.

(** A turn whose requests all name unknown tools raises nothing and leaves
    the state as it is. *)
Lemma for_each_unknown calls acc s :
  forallb (fun tc => negb (known_tool (tc_name tc))) calls = true ->
  main.for_each_tool_call calls acc s = (inr (acc ++ map unknown_tool_error calls), s).
Proof.
  revert acc. induction calls as [| tc rest IH]; intros acc Hall; cbn [main.for_each_tool_call map].
  - unfold ret. now rewrite app_nil_r.
  - cbn [forallb] in Hall. apply andb_prop in Hall as [Htc Hrest].
    apply negb_true_iff in Htc. unfold bind. rewrite (dispatch_unknown tc s Htc).
    rewrite (IH _ Hrest), <- app_assoc. reflexivity.
Qed.

(** X16.  When every request of the model's answer names a tool that does
    not exist, the user is shown the model's text followed by the raw block
    holding the list of the error strings, one per request and in their
    order; no backend is called. *)
Theorem unknown_tools_are_shown_raw (req : main.ChatRequest) (s : Sys World)
    (response : AIResponse) (w : World) (first : ToolCall) (others : list ToolCall) :
  main.message req <> EmptyString ->
  llm_with_tools_invoke
    (history s (main.session_id req) ++ [HumanMessage (main.message req)]) (world s)
    = (inr response, w) ->
  ai_tool_calls response = first :: others ->
  forallb (fun tc => negb (known_tool (tc_name tc))) (first :: others) = true ->
  let run := main.chat_endpoint req s in
  run.1 = inr (ai_content response +:+
               main.raw_tool_output
                 (Py.str (PList (map unknown_tool_error (first :: others))))) /\
  trace run.2 = trace s ++
    [EvNode "call_model";
     EvModel (history s (main.session_id req) ++ [HumanMessage (main.message req)]);
     EvNode "call_tool"].
Proof.
  intros Hmsg Hllm Hcalls Hunknown run. subst run.
  rewrite (chat_endpoint_nonempty _ _ Hmsg). unfold try_except.
  rewrite chat_endpoint_try_run, app_agent_invoke_run, Hllm. cbv zeta.
  rewrite Hcalls, (for_each_unknown _ _ _ Hunknown). cbn [app].
  cbn [apply_update messages upd_messages tool_output upd_tool_output].
  unfold main.last_item. rewrite last_snoc.
  cbn [default from_option id content world memory trace]. unfold id.
  set (outs := map unknown_tool_error (first :: others)).
  assert (Hwf : Forall well_formed outs).
  { subst outs. apply Forall_forall. intros v Hin.
    apply list_elem_of_In, in_map_iff in Hin as (tc & <- & _). exact I. }
  assert (Hdepth : Forall (fun v => depth v < Ast.MAXLEVEL)%nat outs).
  { subst outs. apply Forall_forall. intros v Hin.
    apply list_elem_of_In, in_map_iff in Hin as (tc & <- & _).
    unfold Ast.MAXLEVEL. cbn. lia. }
  unfold main.format_tool_output, try_except, bind.
  rewrite (literal_eval_str_list _ Hwf Hdepth). cbn [lift]. unfold ret at 1.
  subst outs. cbn [map Py.truthy main.first_event unknown_tool_error forallb main.is_slot andb].
  unfold ret. cbn [fst snd trace]. split; reflexivity.
Qed.

(** A result that nests too deep is not read back: the stored text is shown
    in the parsing-error block.  One level less, and it is read. *)
Example deep_result_is_not_read :
  let deep := Py.str (PList [MoreExamples.nested 199]) in
  let fits := Py.str (PList [MoreExamples.nested 198]) in
  is_ok (literal_eval deep) = false /\
  (main.format_tool_output deep (Scripted.start Examples.small_talk)).1 = inr (main.parsing_error deep) /\
  literal_eval fits = inr (PList [MoreExamples.nested 198]).
Proof. vm_compute. repeat split. Qed.

End Rendering.

(** ** What can abort a turn *)

Section Aborts.
Context {World : Type} {E : Externals World}.
Implicit Types s : Sys World.

Lemma arg_str_raises args name default e :
  agent_tools.arg_str args name default = inl e -> exn_cls e = ValidationError.
Proof.
  unfold agent_tools.arg_str.
  destruct (Py.lookup name args) as [[] |]; try destruct default;
    intros [= <-]; reflexivity.
Qed.

Lemma arg_attendees_raises args e :
  agent_tools.arg_attendees args = inl e -> exn_cls e = ValidationError.
Proof.
  unfold agent_tools.arg_attendees.
  destruct (Py.lookup "attendees" args) as [[| | | | l |] |]; try discriminate;
    try (intros [= <-]; reflexivity).
  destruct (agent_tools.str_items l); [discriminate | intros [= <-]; reflexivity].
Qed.

(** A request is not answered only when its tool's signature refuses it. *)
Lemma dispatch_raises tc s e s1 :
  main.dispatch tc s = (inl e, s1) ->
  accepts tc = false /\ exn_cls e = ValidationError.
Proof.
  intros Hrun. split.
  - destruct (accepts tc) eqn:Hacc; [| reflexivity].
    destruct (dispatch_accepted tc s Hacc) as (v & s2 & Hok). congruence.
  - revert Hrun. unfold main.dispatch.
    destruct (String.eqb (tc_name tc) "check_calendar_availability_tool").
    + unfold agent_tools.check_calendar_availability_tool_invoke, bind.
      destruct (agent_tools.arg_str _ "start_time_str" None) as [e1 | a] eqn:H1; cbn [lift];
        [intros [= <- <-]; exact (arg_str_raises _ _ _ _ H1) |].
      unfold ret at 1.
      destruct (agent_tools.arg_str _ "end_time_str" None) as [e1 | b] eqn:H2; cbn [lift];
        [intros [= <- <-]; exact (arg_str_raises _ _ _ _ H2) |].
      unfold ret at 1.
      destruct (agent_tools.arg_str _ "timezone_str" _) as [e1 | c] eqn:H3; cbn [lift];
        [intros [= <- <-]; exact (arg_str_raises _ _ _ _ H3) |].
      unfold ret at 1.
      destruct (check_tool_returns a b c s) as (v & s2 & ->). discriminate.
    + destruct (String.eqb (tc_name tc) "create_calendar_event_tool");
        [| discriminate].
      unfold agent_tools.create_calendar_event_tool_invoke, bind.
      destruct (agent_tools.arg_str _ "summary" None) as [e1 | a] eqn:H1; cbn [lift];
        [intros [= <- <-]; exact (arg_str_raises _ _ _ _ H1) |].
      unfold ret at 1.
      destruct (agent_tools.arg_str _ "description" None) as [e1 | b] eqn:H2; cbn [lift];
        [intros [= <- <-]; exact (arg_str_raises _ _ _ _ H2) |].
      unfold ret at 1.
      destruct (agent_tools.arg_str _ "start_time_str" None) as [e1 | c] eqn:H3; cbn [lift];
        [intros [= <- <-]; exact (arg_str_raises _ _ _ _ H3) |].
      unfold ret at 1.
      destruct (agent_tools.arg_str _ "end_time_str" None) as [e1 | d] eqn:H4; cbn [lift];
        [intros [= <- <-]; exact (arg_str_raises _ _ _ _ H4) |].
      unfold ret at 1.
      destruct (agent_tools.arg_attendees _) as [e1 | att] eqn:H5; cbn [lift];
        [intros [= <- <-]; exact (arg_attendees_raises _ _ H5) |].
      unfold ret at 1.
      destruct (agent_tools.arg_str _ "timezone_str" _) as [e1 | z] eqn:H6; cbn [lift];
        [intros [= <- <-]; exact (arg_str_raises _ _ _ _ H6) |].
      unfold ret at 1.
      destruct (create_tool_returns a b c d att z s) as (v & s2 & ->). discriminate.
Qed.

Lemma for_each_tool_call_raises calls acc s e s1 :
  main.for_each_tool_call calls acc s = (inl e, s1) ->
  exists tc, In tc calls /\ accepts tc = false /\ exn_cls e = ValidationError.
Proof.
  revert acc s. induction calls as [| tc rest IH]; intros acc s; cbn [main.for_each_tool_call].
  - discriminate.
  - unfold bind. destruct (main.dispatch tc s) as [[e0 | out] s0] eqn:Hd.
    + intros [= <- <-]. exists tc. split; [now left | exact (dispatch_raises _ _ _ _ Hd)].
    + intros Hrest. destruct (IH _ _ Hrest) as (tc' & Hin & H). exists tc'.
      split; [now right | exact H].
Qed.

(** X17.  A graph run that does not reach its end was stopped by one of two
    things: the model's invocation raised, and the run raises the same; or
    the model asked for a known tool with arguments that the tool's signature
    refuses, and the run raises a [ValidationError].  A failing backend, an
    unparsable date or zone, an unknown tool never stop a run, and the run
    never reaches the graph's recursion limit. *)
Theorem run_stops_only_on_model_or_signature (text thread_id : string) (s : Sys World)
    (e : exn) (s1 : Sys World) :
  main.app_agent_invoke (user_turn text) thread_id s = (inl e, s1) ->
  let h := history s thread_id ++ [HumanMessage text] in
  (exists w, llm_with_tools_invoke h (world s) = (inl e, w)) \/
  (exists response w tc,
      llm_with_tools_invoke h (world s) = (inr response, w) /\
      In tc (ai_tool_calls response) /\
      known_tool (tc_name tc) = true /\
      accepts tc = false /\
      exn_cls e = ValidationError).
Proof.
  intros Hrun h. rewrite app_agent_invoke_run in Hrun. fold h in Hrun. cbv zeta in Hrun.
  destruct (llm_with_tools_invoke h (world s)) as [[e0 | response] w].
  - injection Hrun as <- _. left. eauto.
  - right. exists response, w.
    match type of Hrun with
    | context [main.for_each_tool_call _ _ ?s0] =>
        destruct (main.for_each_tool_call (ai_tool_calls response) [] s0)
          as [[e0 | outs] s2] eqn:Hloop
    end; [| discriminate].
    injection Hrun as <- _.
    destruct (for_each_tool_call_raises _ _ _ _ _ Hloop) as (tc & Hin & Hacc & Hcls).
    exists tc. repeat split; try assumption.
    destruct (known_tool (tc_name tc)) eqn:Hknown; [reflexivity |].
    destruct (known_tool_false _ Hknown) as [H1 H2].
    unfold accepts in Hacc. rewrite H1, H2 in Hacc. discriminate.
Qed.

End Aborts.

(** ** The further theorems at work on concrete runs *)

Section MoreWitnesses.
Import Examples MoreExamples.

Lemma other_sessions_are_untouched_witness :
  history (main.chat_endpoint (E := in_india) am_i_free (Scripted.start free_hour)).2 "s2"
  = [].
Proof.
  destruct (other_sessions_are_untouched (E := in_india) am_i_free
              (Scripted.start free_hour) "s2") as (_ & Hhistory & _).
  - discriminate.
  - exact Hhistory.
Defined.

Lemma reply_shows_the_results_of_its_turn_witness :
  exists outs s1,
    main.chat_endpoint (E := on_utc) (ask "Mail Alice") (Scripted.start two_requests) =
      (match (main.format_tool_output (Py.str (PList outs)) s1).1 with
       | inr formatted =>
           inr (if String.eqb formatted EmptyString then ai_content unknown_then_bad_date
                else ai_content unknown_then_bad_date +:+ formatted)
       | inl e => inr ("Sorry, an internal error occurred: " +:+ exn_msg e)
       end, s1).
Proof.
  destruct (turn_accepted (E := on_utc) "Mail Alice" "s1" (Scripted.start two_requests)
              unknown_then_bad_date (Scripted.next_model two_requests).2)
    as (outs0 & final & s1 & sa0 & sb0 & Hrun & _).
  - vm_compute. reflexivity.
  - vm_compute. reflexivity.
  - destruct (reply_shows_the_results_of_its_turn (E := on_utc) (ask "Mail Alice")
                (Scripted.start two_requests) unknown_then_bad_date
                (Scripted.next_model two_requests).2 final s1)
      as (outs & sa & sb & _ & Hreply).
    + discriminate.
    + vm_compute. reflexivity.
    + exact Hrun.
    + exists outs, s1. exact Hreply.
Defined.

Lemma missing_zone_means_kolkata_witness :
  let args := tc_args (check_call "2025-06-25T10:00:00" "2025-06-25T11:00:00") in
  agent_tools.check_calendar_availability_tool_invoke (E := on_utc) args
    (Scripted.start free_hour)
  = agent_tools.check_calendar_availability_tool_invoke (E := on_utc)
      (Py.store "timezone_str" (PStr "Asia/Kolkata") args) (Scripted.start free_hour).
Proof.
  intros args.
  destruct (missing_zone_means_kolkata (E := on_utc) args (Scripted.start free_hour))
    as [Hcheck _].
  - reflexivity.
  - exact Hcheck.
Defined.

Lemma aware_datetimes_keep_their_instant_witness :
  exists start_time end_time,
    trace (agent_tools.check_calendar_availability_tool (E := in_india)
             "2025-06-25T10:00:00+05:30" "2025-06-25T11:00:00+05:30" "UTC"
             (Scripted.start free_hour)).2
    = [] ++ [EvFreeBusy (google_calendar.freebusy_body start_time end_time)] /\
    Datetime.timestamp start_time = Some 1750825800000000 /\
    isoformat start_time = "2025-06-25T04:30:00+00:00".
Proof.
  edestruct (aware_datetimes_keep_their_instant (E := in_india)
               "2025-06-25T10:00:00+05:30" "2025-06-25T11:00:00+05:30" "UTC")
    as (Htrace & Hstart & _).
  - reflexivity.
  - vm_compute. reflexivity.
  - vm_compute. reflexivity.
  - reflexivity.
  - reflexivity.
  - vm_compute. reflexivity.
  - vm_compute. reflexivity.
  - do 2 eexists. split; [exact Htrace |]. split; [| vm_compute; reflexivity].
    rewrite Hstart. reflexivity.
Defined.

Lemma availability_adapter_returns_busy_periods_witness :
  (agent_tools.check_calendar_availability_tool (E := in_india)
     "2025-06-25T10:00:00" "2025-06-25T11:00:00" "Asia/Kolkata"
     (Scripted.start busy_hour)).1
  = inr (PList [PDict [("start", PStr "2025-06-25T04:30:00Z");
                       ("end", PStr "2025-06-25T05:00:00Z")]]).
Proof.
  change (PList _) with (busy_periods_of one_busy).
  eapply (availability_adapter_returns_busy_periods (E := in_india)
            "2025-06-25T10:00:00" "2025-06-25T11:00:00" "Asia/Kolkata").
  - reflexivity.
  - vm_compute. reflexivity.
  - vm_compute. reflexivity.
  - vm_compute. reflexivity.
Defined.

Lemma client_catches_http_errors_only_witness :
  (google_calendar.check_calendar_availability (E := on_utc)
     {| wall := 0; tzinfo := Some (Scripted.offset_zone 0) |}
     {| wall := 3600 * Datetime.second; tzinfo := Some (Scripted.offset_zone 0) |}
     (Scripted.start backend_down)).1
  = inl timeout.
Proof.
  destruct (client_catches_http_errors_only (E := on_utc) "Call" "Weekly sync"
              {| wall := 0; tzinfo := Some (Scripted.offset_zone 0) |}
              {| wall := 3600 * Datetime.second; tzinfo := Some (Scripted.offset_zone 0) |}
              None
              (Scripted.start backend_down)) as [Hquery _].
  apply (Hquery timeout (Scripted.next_freebusy backend_down).2). reflexivity.
Defined.

Lemma event_adapter_returns_event_or_empty_dict_witness :
  (agent_tools.create_calendar_event_tool (E := in_india)
     "Call" "Weekly sync" "2025-06-25T15:00:00" "2025-06-25T15:30:00" None "Asia/Kolkata"
     (Scripted.start booking)).1
  = inr created.
Proof.
  destruct (event_adapter_returns_event_or_empty_dict (E := in_india)
              "Call" "Weekly sync" "2025-06-25T15:00:00" "2025-06-25T15:30:00" None
              "Asia/Kolkata" (Scripted.start booking)) as [_ Hevent].
  eapply Hevent.
  - reflexivity.
  - vm_compute. reflexivity.
  - vm_compute. reflexivity.
  - vm_compute. reflexivity.
Defined.

Lemma token_file_holds_the_credentials_in_use_witness :
  exists creds,
    credentials.token_file
      (credentials.get_calendar_service (A := credentials.simple) credentials.stale_run).2
    = Some creds /\
    credentials.build (Authority := credentials.simple) creds
    = inr (credentials.renewed credentials.stale).
Proof.
  eapply (token_file_holds_the_credentials_in_use (A := credentials.simple)
            credentials.stale_run).
  reflexivity.
Defined.

Lemma second_call_reuses_the_token_witness :
  let st1 :=
    (credentials.get_calendar_service (A := credentials.simple) credentials.first_run).2 in
  credentials.get_calendar_service (A := credentials.simple) st1
  = (inr credentials.granted, st1).
Proof.
  intros st1.
  apply (second_call_reuses_the_token (A := credentials.simple) credentials.first_run).
  - reflexivity.
  - intros creds [= <-]. reflexivity.
Defined.

Lemma stored_results_read_back_witness :
  literal_eval (Py.str (PList awkward)) = inr (PList awkward).
Proof.
  apply stored_results_read_back.
  - repeat constructor; intros Hin; repeat (apply elem_of_cons in Hin as [Hin | Hin]);
      try discriminate Hin; apply elem_of_nil in Hin; exact Hin.
  - repeat constructor; unfold Ast.MAXLEVEL; cbn; lia.
Defined.

Lemma created_event_is_rendered_witness :
  (main.format_tool_output
     (Py.str (PList [created])) (Scripted.start booked)).1
  = inr (main.event_created (PStr "Call") (PStr "https://calendar.example/ev1")
           (PStr "2025-06-25T15:00:00+05:30") (PStr "2025-06-25T15:30:00+05:30")).
Proof.
  unfold created.
  rewrite created_event_is_rendered.
  - reflexivity.
  - repeat constructor; intros Hin; repeat (apply elem_of_cons in Hin as [Hin | Hin]);
      try discriminate Hin; apply elem_of_nil in Hin; exact Hin.
  - repeat constructor; unfold Ast.MAXLEVEL; cbn; lia.
  - reflexivity.
Defined.

Lemma unknown_tools_are_shown_raw_witness :
  (main.chat_endpoint (E := on_utc) (ask "Mail Alice") (Scripted.start unknown_only)).1
  = inr ("Sending." +:+
         main.raw_tool_output "['Error: Unknown tool send_email_tool']").
Proof.
  destruct (unknown_tools_are_shown_raw (E := on_utc) (ask "Mail Alice")
              (Scripted.start unknown_only) only_unknown
              (Scripted.next_model unknown_only).2 send_email []) as [Hreply _].
  - discriminate.
  - vm_compute. reflexivity.
  - reflexivity.
  - reflexivity.
  - exact Hreply.
Defined.

Lemma run_stops_only_on_model_or_signature_witness :
  exists tc,
    In tc (ai_tool_calls check_without_arguments) /\
    known_tool (tc_name tc) = true /\ accepts tc = false.
Proof.
  destruct (run_stops_only_on_model_or_signature (E := on_utc) "Am I free?" "s1"
              (Scripted.start no_arguments)
              (Exn ValidationError "start_time_str: Field required")
              (main.app_agent_invoke (E := on_utc) (user_turn "Am I free?") "s1"
                 (Scripted.start no_arguments)).2)
    as [(w & Hmodel) | (response & w & tc & Hmodel & Hin & Hknown & Hacc & _)].
  - vm_compute. reflexivity.
  - discriminate Hmodel.
  - injection Hmodel as <- _. exists tc. auto.
Defined.

End MoreWitnesses.
